(** * qcoin: a shallow embedding of the coin-flip engine and its TUI loop

    The development follows the Go sources of the repository:
    - [src/main.go]: the TUI without label editing ([Module MainGo]);
    - [src/unnamed/part_001]: the TUI with label editing
      ([Module LabelEdit]), and the plain command-line program.
    The bit counter, the two provider clients, [fetchAndFlipCmd] and
    [runCLI] are textually the same in every variant and are embedded once. *)

From Stdlib Require Import ZArith List String Ascii Bool Lia.
From Stdlib Require Import Strings.Byte Numbers.DecimalString.
From Stdlib Require Import Sorting.Permutation.
Import ListNotations.

Local Open Scope string_scope.
Local Open Scope Z_scope.

(** ** Go scalars *)

(** Go's [int] on the 64-bit targets of the program: a two's-complement
    64-bit integer.  [wrap_int] is what [+] and [++] do on overflow. *)
Definition min_int : Z := - 2 ^ 63.
Definition max_int : Z := 2 ^ 63 - 1.
Definition wrap_int (x : Z) : Z := (x + 2 ^ 63) mod 2 ^ 64 - 2 ^ 63.

(** The runtime's cap on a single allocation (64-bit platforms): no
    [[]byte] is longer than this. *)
Definition maxAlloc : Z := 2 ^ 48.

(** A Go [byte] is [Byte.byte]; [byteZ] is its numeric value in [0, 256). *)
Definition byteZ (b : byte) : Z := Z.of_N (Byte.to_N b).

(** [b & (1 << i)] at type [byte]: the untyped constant [1] takes the type
    of the other operand, so the shift is reduced modulo [2^8]. *)
Definition shl_byte (x i : Z) : Z := Z.shiftl x i mod 256.
Definition and_byte (x y : Z) : Z := Z.land x y.

(** [fmt]'s [%d] verb. *)
Definition fmt_d (z : Z) : string := NilZero.string_of_int (Z.to_int z).

(** Go's [(value, error)] result pair: a non-nil [error] carries its
    message, and the value is then the zero value, which no caller reads. *)
Inductive result (A : Type) : Type :=
| Ok (a : A)
| Err (msg : string).
Arguments Ok {A} a.
Arguments Err {A} msg.

Definition bind {A B : Type} (r : result A) (k : A -> result B) : result B :=
  match r with
  | Ok a => k a
  | Err e => Err e
  end.

(** [wrapErr prefix r] is the idiom
    [if err != nil { return nil, fmt.Errorf(prefix + ": %w", err) }]. *)
Definition wrapErr {A : Type} (prefix : string) (r : result A) : result A :=
  match r with
  | Ok a => Ok a
  | Err e => Err (prefix ++ ": " ++ e)
  end.

Notation "x <- r ;; k" := (bind r (fun x => k))
  (at level 61, r at next level, right associativity).

(** ** BitCounter: [countBits] *)

(** The body of the inner loop: one bit position [i] of the byte [b]. *)
Definition countBit (b : byte) (acc : Z * Z) (i : Z) : Z * Z :=
  let '(ones, zeros) := acc in
  if negb (and_byte (byteZ b) (shl_byte 1 i) =? 0)
  then (wrap_int (ones + 1), zeros)
  else (ones, wrap_int (zeros + 1)).

(** [for i := 0; i < 8; i++]. *)
Definition bitPositions : list Z := [0; 1; 2; 3; 4; 5; 6; 7].

Definition countByte (acc : Z * Z) (b : byte) : Z * Z :=
  fold_left (countBit b) bitPositions acc.

(** [func countBits(bytes []byte) (int, int)]. *)
Definition countBits (bytes : list byte) : Z * Z :=
  fold_left countByte bytes (0, 0).

(** Reference count, independent of the loop: the number of positions
    [0..7] at which the byte's value has a set bit. *)
Definition setBits (b : byte) : Z :=
  Z.of_nat (List.length (filter (Z.testbit (byteZ b)) bitPositions)).

Fixpoint totalSetBits (bytes : list byte) : Z :=
  match bytes with
  | [] => 0
  | b :: rest => setBits b + totalSetBits rest
  end.

Definition len {A : Type} (l : list A) : Z := Z.of_nat (List.length l).

(** ** RandomSourceClient: the two providers *)

Definition bytesToFetch : Z := 1024.

(** [http.StatusOK]. *)
Definition StatusOK : Z := 200.

(** [type QRandomResponse struct { BinaryURL string }]. *)
Record QRandomResponse : Type := { BinaryURL : string }.

(** [type AnuQrngResponse struct { Data []uint8; Success bool }]. *)
Record AnuQrngResponse : Type := { Data : list byte; Success : bool }.

(** A response body is a stream that the program hands to exactly one
    reader.  [net/http], [encoding/json] and [io] are library code, so a
    body is represented by what each of the three readers used by the
    program would return on it. *)
Record Body : Type := {
  decodeQRandom : result QRandomResponse;  (* json.NewDecoder(b).Decode(&qrResp) *)
  decodeAnuQrng : result AnuQrngResponse;  (* json.NewDecoder(b).Decode(&anuResp) *)
  readAll : result (list byte)             (* io.ReadAll(b) *)
}.

Record Response : Type := { StatusCode : Z; RespBody : Body }.

(** How the network answers one fetch: [firstGet url] is the outcome of the
    first [client.Get] of the fetch, [secondGet url] the outcome of the
    second one.  A transport failure, the 30-second timeout included, is
    an [Err]. *)
Record world : Type := {
  firstGet : string -> result Response;
  secondGet : string -> result Response
}.

Definition qrandomURL : string :=
  "https://qrandom.io/api/random/binary?bytes=" ++ fmt_d bytesToFetch.

Definition anuURL : string :=
  "https://qrng.anu.edu.au/API/jsonI.php?length=" ++ fmt_d bytesToFetch
  ++ "&type=uint8".

(** [func fetchQRandomBytes() ([]byte, error)]. *)
Definition fetchQRandomBytes (w : world) : result (list byte) :=
  resp <- wrapErr "qrandom.io request failed" (firstGet w qrandomURL) ;;
  if negb (StatusCode resp =? StatusOK)
  then Err ("qrandom.io returned status " ++ fmt_d (StatusCode resp))
  else
    qrResp <- wrapErr "failed to parse qrandom.io response"
                      (decodeQRandom (RespBody resp)) ;;
    binaryResp <- wrapErr "failed to fetch binary data"
                          (secondGet w (BinaryURL qrResp)) ;;
    if negb (StatusCode binaryResp =? StatusOK)
    then Err ("binary fetch returned status " ++ fmt_d (StatusCode binaryResp))
    else
      bytes <- wrapErr "failed to read binary data"
                       (readAll (RespBody binaryResp)) ;;
      Ok bytes.

(** [func fetchAnuQrngBytes() ([]byte, error)]. *)
Definition fetchAnuQrngBytes (w : world) : result (list byte) :=
  resp <- wrapErr "ANU QRNG request failed" (firstGet w anuURL) ;;
  if negb (StatusCode resp =? StatusOK)
  then Err ("ANU QRNG returned status " ++ fmt_d (StatusCode resp))
  else
    anuResp <- wrapErr "failed to parse ANU QRNG response"
                       (decodeAnuQrng (RespBody resp)) ;;
    if negb (Success anuResp)
    then Err "ANU QRNG API returned success=false"
    else
      if negb (len (Data anuResp) =? bytesToFetch)
      then Err ("expected " ++ fmt_d bytesToFetch ++ " bytes, got "
                ++ fmt_d (len (Data anuResp)))
      else Ok (Data anuResp).

(** [func fetchRandomBytes(source string) ([]byte, error)]. *)
Definition fetchRandomBytes (source : string) (w : world) : result (list byte) :=
  if String.eqb source "qr" then fetchQRandomBytes w
  else if String.eqb source "anu" then fetchAnuQrngBytes w
  else Err ("unknown source: " ++ source ++ " (use 'qr' or 'anu')").

(** ** FlipEngine *)

(** [type resultType int] with its three constants. *)
Inductive resultType : Type := resOnes | resZeros | resTie.

(** [type flipResult struct]. *)
Record flipResult : Type := {
  ones : Z;
  zeros : Z;
  winner : resultType
}.

(** [type flipMsg struct { result flipResult; err error }]; a nil [err] is
    [None].  The zero value of [flipResult] fills [result] on failure. *)
Record flipMsg : Type := {
  result_ : flipResult;
  err_ : option string
}.

Definition zeroFlipResult : flipResult :=
  {| ones := 0; zeros := 0; winner := resOnes |}.

(** The assignment [res.winner = v]. *)
Definition setWinner (res : flipResult) (v : resultType) : flipResult :=
  {| ones := ones res; zeros := zeros res; winner := v |}.

(** The closure returned by [fetchAndFlipCmd(source)], run against the
    network [w]. *)
Definition fetchAndFlipCmd (source : string) (w : world) : flipMsg :=
  match fetchRandomBytes source w with
  | Err e => {| result_ := zeroFlipResult; err_ := Some e |}
  | Ok bytes =>
      let '(ones, zeros) := countBits bytes in
      let res := {| ones := ones; zeros := zeros; winner := resTie |} in
      let res :=
        if ones >? zeros then setWinner res resOnes
        else if zeros >? ones then setWinner res resZeros
             else res in
      {| result_ := res; err_ := None |}
  end.

(** What a process leaves behind: the lines written to the two streams
    and the exit status. *)
Record output : Type := {
  stdout : list string;
  stderr : list string;
  exitCode : Z
}.

(** [func runCLI(source string)]. *)
Definition runCLI (source : string) (w : world) : output :=
  match fetchRandomBytes source w with
  | Err e =>
      {| stdout := []; stderr := ["Error: " ++ e]; exitCode := 1 |}
  | Ok bytes =>
      let '(ones, zeros) := countBits bytes in
      let verdict :=
        if ones >? zeros then "Result: ONES"
        else if zeros >? ones then "Result: ZEROS"
             else "Result: TIE" in
      {| stdout := ["Ones: " ++ fmt_d ones; "Zeros: " ++ fmt_d zeros; verdict];
         stderr := [];
         exitCode := 0 |}
  end.

(** ** [src/unnamed/part_001]: the program without a TUI *)

Module PlainCLI.

(** [func main()], after the flag [-s] is parsed: the body that the
    other variants keep as [runCLI]. *)
Definition main (source : string) (w : world) : output :=
  match fetchRandomBytes source w with
  | Err e =>
      {| stdout := []; stderr := ["Error: " ++ e]; exitCode := 1 |}
  | Ok bytes =>
      let '(ones, zeros) := countBits bytes in
      let verdict :=
        if ones >? zeros then "Result: ONES"
        else if zeros >? ones then "Result: ZEROS"
             else "Result: TIE" in
      {| stdout := ["Ones: " ++ fmt_d ones; "Zeros: " ++ fmt_d zeros; verdict];
         stderr := [];
         exitCode := 0 |}
  end.

End PlainCLI.

(** ** The Bubble Tea interface *)

(** [tea.KeyMsg].  The dispatch routines look at a key press through
    [msg.Type] and through [msg.String()]; both belong to the library, so
    a key press is represented by the two observations. *)
Inductive KeyType : Type :=
| KeyRunes | KeyEnter | KeyEsc | KeyTab | KeyUp | KeyDown | KeyOther.

Record KeyMsg : Type := {
  keyType : KeyType;
  keyString : string
}.

(** [tea.Msg] is the empty interface; the dynamic types that the program
    distinguishes are listed, every other message is [OtherMsg]. *)
Inductive Msg : Type :=
| Key (k : KeyMsg)
| WindowSizeMsg (Width Height : Z)
| Flip (f : flipMsg)
| OtherMsg (tag : nat).

(** [tea.Cmd].  A command is a closure run by the library off the event
    loop; the ones this program can return are [nil], [tea.Quit], the
    closure of [fetchAndFlipCmd(source)] and the commands of the text-input
    widget. *)
Inductive Cmd : Type :=
| CmdNil
| CmdQuit
| CmdFetchAndFlip (source : string)
| CmdWidget (tag : nat).

(** The part of [tea.Model] that carries state: [Init] and [Update].
    [View] renders a snapshot and is not modelled. *)
Class TeaModel (M : Type) : Type := {
  teaInit : M -> Cmd;
  teaUpdate : M -> Msg -> M * Cmd
}.

(** The operations of [textinput.Model] (package [bubbles/textinput]) that
    the program calls.  The methods with pointer receivers return the
    updated widget.  The commands of the widget are closures of the
    library: they are kept as opaque tags, wrapped by [CmdWidget]. *)
Class TextInput : Type := {
  tiModel : Type;
  tiNew : string -> Z -> Z -> tiModel;   (* New(), then Placeholder, Width, CharLimit *)
  tiValue : tiModel -> string;
  tiSetValue : tiModel -> string -> tiModel;
  tiBlur : tiModel -> tiModel;
  tiFocus : tiModel -> tiModel * nat;
  tiUpdate : tiModel -> Msg -> tiModel * nat;
  tiBlink : nat
}.

Definition isKey (s : string) (k : KeyMsg) : bool := String.eqb (keyString k) s.

(** The phase of the session as the status line and the label form show
    it. *)
Inductive UIPhase : Type := IDLE | LOADING | LABEL_EDITING.

(** What [main] does after [flag.Parse()]: hand a model to
    [tea.NewProgram(...).Run()], or run to completion on the command line. *)
Inductive started (M : Type) : Type :=
| RunProgram (m : M)
| Exited (o : output).
Arguments RunProgram {M} m.
Arguments Exited {M} o.

(** ** [src/main.go]: the TUI without label editing *)

Module MainGo.

Record model : Type := {
  source : string;
  results : list flipResult;
  loading : bool;
  err : option string;
  width : Z;
  height : Z
}.

(** Field assignments [m.f = v] on the receiver copy. *)
Definition setSource (m : model) (v : string) : model :=
  {| source := v; results := results m; loading := loading m;
     err := err m; width := width m; height := height m |}.
Definition setResults (m : model) (v : list flipResult) : model :=
  {| source := source m; results := v; loading := loading m;
     err := err m; width := width m; height := height m |}.
Definition setLoading (m : model) (v : bool) : model :=
  {| source := source m; results := results m; loading := v;
     err := err m; width := width m; height := height m |}.
Definition setErr (m : model) (v : option string) : model :=
  {| source := source m; results := results m; loading := loading m;
     err := v; width := width m; height := height m |}.
Definition setSize (m : model) (w h : Z) : model :=
  {| source := source m; results := results m; loading := loading m;
     err := err m; width := w; height := h |}.

Definition initialModel (source : string) : model :=
  {| source := source; results := []; loading := false; err := None;
     width := 0; height := 0 |}.

Definition Init (m : model) : Cmd := CmdNil.

Definition Update (m : model) (msg : Msg) : model * Cmd :=
  match msg with
  | Key k =>
      if isKey "q" k then (m, CmdQuit)
      else if isKey "enter" k then
        if negb (loading m)
        then
          let m := setLoading m true in
          let m := setErr m None in
          (m, CmdFetchAndFlip (source m))
        else (m, CmdNil)
      else if isKey "r" k then
        (setResults m [], CmdNil)
      else if isKey "c" k then
        (* Toggle between sources *)
        let m := if String.eqb (source m) "qr"
                 then setSource m "anu"
                 else setSource m "qr" in
        (m, CmdNil)
      else (m, CmdNil)
  | WindowSizeMsg w h => (setSize m w h, CmdNil)
  | Flip f =>
      let m := setLoading m false in
      match err_ f with
      | Some e => (setErr m (Some e), CmdNil)
      | None => (setResults m (results m ++ [result_ f]), CmdNil)
      end
  | OtherMsg _ => (m, CmdNil)
  end.

#[global] Instance teaModel : TeaModel model :=
  {| teaInit := Init; teaUpdate := Update |}.

(** [func main()], after the flags [-s] and [-i] are parsed. *)
Definition main (source : string) (interactive : bool) (w : world)
  : started model :=
  if interactive then RunProgram (initialModel source)
  else Exited (runCLI source w).

Definition phase (m : model) : UIPhase :=
  if loading m then LOADING else IDLE.

End MainGo.

(** ** [src/unnamed/part_001]: the TUI with label editing *)

Module LabelEdit.
Section WithTextInput.

Context {TI : TextInput}.

Record model : Type := {
  source : string;
  results : list flipResult;
  loading : bool;
  err : option string;
  width : Z;
  height : Z;
  onesMsg : string;
  zerosMsg : string;
  inputMode : bool;
  onesInput : tiModel;
  zerosInput : tiModel;
  focusedInput : Z   (* 0 for ones, 1 for zeros *)
}.

(** Field assignments [m.f = v] on the receiver copy. *)
Definition setSource (m : model) (v : string) : model :=
  {| source := v; results := results m; loading := loading m;
     err := err m; width := width m; height := height m;
     onesMsg := onesMsg m; zerosMsg := zerosMsg m;
     inputMode := inputMode m; onesInput := onesInput m;
     zerosInput := zerosInput m; focusedInput := focusedInput m |}.
Definition setResults (m : model) (v : list flipResult) : model :=
  {| source := source m; results := v; loading := loading m;
     err := err m; width := width m; height := height m;
     onesMsg := onesMsg m; zerosMsg := zerosMsg m;
     inputMode := inputMode m; onesInput := onesInput m;
     zerosInput := zerosInput m; focusedInput := focusedInput m |}.
Definition setLoading (m : model) (v : bool) : model :=
  {| source := source m; results := results m; loading := v;
     err := err m; width := width m; height := height m;
     onesMsg := onesMsg m; zerosMsg := zerosMsg m;
     inputMode := inputMode m; onesInput := onesInput m;
     zerosInput := zerosInput m; focusedInput := focusedInput m |}.
Definition setErr (m : model) (v : option string) : model :=
  {| source := source m; results := results m; loading := loading m;
     err := v; width := width m; height := height m;
     onesMsg := onesMsg m; zerosMsg := zerosMsg m;
     inputMode := inputMode m; onesInput := onesInput m;
     zerosInput := zerosInput m; focusedInput := focusedInput m |}.
Definition setSize (m : model) (w h : Z) : model :=
  {| source := source m; results := results m; loading := loading m;
     err := err m; width := w; height := h;
     onesMsg := onesMsg m; zerosMsg := zerosMsg m;
     inputMode := inputMode m; onesInput := onesInput m;
     zerosInput := zerosInput m; focusedInput := focusedInput m |}.
Definition setOnesMsg (m : model) (v : string) : model :=
  {| source := source m; results := results m; loading := loading m;
     err := err m; width := width m; height := height m;
     onesMsg := v; zerosMsg := zerosMsg m;
     inputMode := inputMode m; onesInput := onesInput m;
     zerosInput := zerosInput m; focusedInput := focusedInput m |}.
Definition setZerosMsg (m : model) (v : string) : model :=
  {| source := source m; results := results m; loading := loading m;
     err := err m; width := width m; height := height m;
     onesMsg := onesMsg m; zerosMsg := v;
     inputMode := inputMode m; onesInput := onesInput m;
     zerosInput := zerosInput m; focusedInput := focusedInput m |}.
Definition setInputMode (m : model) (v : bool) : model :=
  {| source := source m; results := results m; loading := loading m;
     err := err m; width := width m; height := height m;
     onesMsg := onesMsg m; zerosMsg := zerosMsg m;
     inputMode := v; onesInput := onesInput m;
     zerosInput := zerosInput m; focusedInput := focusedInput m |}.
Definition setOnesInput (m : model) (v : tiModel) : model :=
  {| source := source m; results := results m; loading := loading m;
     err := err m; width := width m; height := height m;
     onesMsg := onesMsg m; zerosMsg := zerosMsg m;
     inputMode := inputMode m; onesInput := v;
     zerosInput := zerosInput m; focusedInput := focusedInput m |}.
Definition setZerosInput (m : model) (v : tiModel) : model :=
  {| source := source m; results := results m; loading := loading m;
     err := err m; width := width m; height := height m;
     onesMsg := onesMsg m; zerosMsg := zerosMsg m;
     inputMode := inputMode m; onesInput := onesInput m;
     zerosInput := v; focusedInput := focusedInput m |}.
Definition setFocusedInput (m : model) (v : Z) : model :=
  {| source := source m; results := results m; loading := loading m;
     err := err m; width := width m; height := height m;
     onesMsg := onesMsg m; zerosMsg := zerosMsg m;
     inputMode := inputMode m; onesInput := onesInput m;
     zerosInput := zerosInput m; focusedInput := v |}.

Definition initialModel (source : string) : model :=
  let onesInput := tiNew "Message for ONES winner" 30 20 in
  let zerosInput := tiNew "Message for ZEROS winner" 30 20 in
  {| source := source; results := []; loading := false; err := None;
     width := 0; height := 0;
     onesMsg := "ONES"; zerosMsg := "ZEROS";
     inputMode := false;
     onesInput := onesInput; zerosInput := zerosInput;
     focusedInput := 0 |}.

Definition Init (m : model) : Cmd := CmdWidget tiBlink.

(** The tail of the input-mode branch: the message goes to the focused
    widget. *)
Definition updateFocused (m : model) (msg : Msg) : model * Cmd :=
  if focusedInput m =? 0
  then let '(i, cmd) := tiUpdate (onesInput m) msg in
       (setOnesInput m i, CmdWidget cmd)
  else let '(i, cmd) := tiUpdate (zerosInput m) msg in
       (setZerosInput m i, CmdWidget cmd).

Definition Update (m : model) (msg : Msg) : model * Cmd :=
  if inputMode m then
    (* Handle keys in input mode *)
    match msg with
    | Key k =>
        match keyType k with
        | KeyEnter =>
            (* Save new messages and exit input mode *)
            let m := setOnesMsg m (tiValue (onesInput m)) in
            let m := setZerosMsg m (tiValue (zerosInput m)) in
            let m := setInputMode m false in
            let m := setOnesInput m (tiBlur (onesInput m)) in
            let m := setZerosInput m (tiBlur (zerosInput m)) in
            (m, CmdNil)
        | KeyEsc =>
            (* Discard changes and exit input mode *)
            let m := setInputMode m false in
            let m := setOnesInput m (tiBlur (onesInput m)) in
            let m := setZerosInput m (tiBlur (zerosInput m)) in
            (m, CmdNil)
        | KeyTab | KeyUp | KeyDown =>
            (* Switch focus between inputs *)
            if focusedInput m =? 0 then
              let m := setFocusedInput m 1 in
              let m := setOnesInput m (tiBlur (onesInput m)) in
              let '(i, cmd) := tiFocus (zerosInput m) in
              (setZerosInput m i, CmdWidget cmd)
            else
              let m := setFocusedInput m 0 in
              let m := setZerosInput m (tiBlur (zerosInput m)) in
              let '(i, cmd) := tiFocus (onesInput m) in
              (setOnesInput m i, CmdWidget cmd)
        | _ => updateFocused m msg
        end
    | _ => updateFocused m msg
    end
  else
    (* Handle keys in normal mode *)
    match msg with
    | Key k =>
        if isKey "q" k then (m, CmdQuit)
        else if isKey "enter" k then
          if negb (loading m)
          then
            let m := setLoading m true in
            let m := setErr m None in
            (m, CmdFetchAndFlip (source m))
          else (m, CmdNil)
        else if isKey "r" k then
          (setResults m [], CmdNil)
        else if isKey "c" k then
          (* Toggle between sources *)
          let m := if String.eqb (source m) "qr"
                   then setSource m "anu"
                   else setSource m "qr" in
          (m, CmdNil)
        else if isKey "i" k then
          (* Enter input mode *)
          let m := setInputMode m true in
          let m := setFocusedInput m 0 in
          let m := setOnesInput m (tiSetValue (onesInput m) (onesMsg m)) in
          let m := setZerosInput m (tiSetValue (zerosInput m) (zerosMsg m)) in
          let m := setZerosInput m (tiBlur (zerosInput m)) in
          let '(i, cmd) := tiFocus (onesInput m) in
          (setOnesInput m i, CmdWidget cmd)
        else (m, CmdNil)
    | WindowSizeMsg w h => (setSize m w h, CmdNil)
    | Flip f =>
        let m := setLoading m false in
        match err_ f with
        | Some e => (setErr m (Some e), CmdNil)
        | None => (setResults m (results m ++ [result_ f]), CmdNil)
        end
    | OtherMsg _ => (m, CmdNil)
    end.

#[global] Instance teaModel : TeaModel model :=
  {| teaInit := Init; teaUpdate := Update |}.

(** [func main()], after the flags [-s] and [-i] are parsed. *)
Definition main (source : string) (interactive : bool) (w : world)
  : started model :=
  if interactive then RunProgram (initialModel source)
  else Exited (runCLI source w).

(** [View] shows the label form whenever [inputMode] is set, whatever
    [loading] says. *)
Definition phase (m : model) : UIPhase :=
  if inputMode m then LABEL_EDITING
  else if loading m then LOADING else IDLE.

End WithTextInput.
End LabelEdit.

(** ** The event loop *)

(** Messages that reach the loop from outside the program: the terminal
    and the widget's own commands.  [flipMsg] is an unexported type, only
    the closure of [fetchAndFlipCmd] makes one. *)
Inductive envMsg : Type :=
| EnvKey (k : KeyMsg)
| EnvWindowSize (Width Height : Z)
| EnvOther (tag : nat).

Definition msgOf (e : envMsg) : Msg :=
  match e with
  | EnvKey k => Key k
  | EnvWindowSize w h => WindowSizeMsg w h
  | EnvOther t => OtherMsg t
  end.

(** One turn of the loop is caused either by a message from outside or by
    the completion of the [i]-th fetch in flight, which ran against the
    network [w]. *)
Inductive event : Type :=
| Env (e : envMsg)
| Done (i : nat) (w : world).

Section Runtime.

Context {M : Type} {TM : TeaModel M}.

(** The loop's state: the current model, the sources of the fetch
    closures that were started and have not reported yet, and whether
    [tea.Quit] has been seen. *)
Record program : Type := {
  mdl : M;
  inflight : list string;
  running : bool
}.

Definition spawned (c : Cmd) : list string :=
  match c with
  | CmdFetchAndFlip src => [src]
  | _ => []
  end.

Definition isQuit (c : Cmd) : bool :=
  match c with
  | CmdQuit => true
  | _ => false
  end.

(** Modelled from the spec: the loop itself is the library's
    ([tea.Program.Run]), not part of the sources.  As section 5 describes
    it, one message is processed to completion before the next, a command
    runs off the loop and reports back through a message queued into it.
    The loop hands [msg] to [Update], keeps the new model and starts the
    returned command. *)
Definition deliver (p : program) (msg : Msg) : program :=
  let '(m', c) := teaUpdate (mdl p) msg in
  {| mdl := m';
     inflight := inflight p ++ spawned c;
     running := negb (isQuit c) |}.

Fixpoint removeNth {A : Type} (i : nat) (l : list A) : list A :=
  match l, i with
  | [], _ => []
  | _ :: rest, O => rest
  | x :: rest, S j => x :: removeNth j rest
  end.

(** An event that cannot happen (a completion with nothing in flight at
    that index, anything after quitting) leaves the loop as it is. *)
Definition stepEvent (p : program) (ev : event) : program :=
  if running p then
    match ev with
    | Env e => deliver p (msgOf e)
    | Done i w =>
        match nth_error (inflight p) i with
        | Some src =>
            deliver {| mdl := mdl p;
                       inflight := removeNth i (inflight p);
                       running := running p |}
                    (Flip (fetchAndFlipCmd src w))
        | None => p
        end
    end
  else p.

Definition run (p : program) (evs : list event) : program :=
  fold_left stepEvent evs p.

Definition start (m : M) : program :=
  {| mdl := m; inflight := spawned (teaInit m); running := true |}.

End Runtime.

Arguments program M : clear implicits.

(** ** A text-input widget to run the label form on concrete inputs *)

(** The least widget that fits the interface: a buffer that takes the
    typed runes while focused, up to its character limit. *)
Module SimpleInput.

Record widget : Type := {
  value : string;
  focused : bool;
  placeholder : string;
  boxWidth : Z;
  charLimit : Z
}.

Definition new (ph : string) (w limit : Z) : widget :=
  {| value := ""; focused := false; placeholder := ph;
     boxWidth := w; charLimit := limit |}.

Definition clip (limit : Z) (s : string) : string :=
  if (0 <? limit) && (limit <? Z.of_nat (String.length s))
  then substring 0 (Z.to_nat limit) s
  else s.

Definition setValue (t : widget) (s : string) : widget :=
  {| value := clip (charLimit t) s; focused := focused t;
     placeholder := placeholder t; boxWidth := boxWidth t;
     charLimit := charLimit t |}.

Definition setFocus (t : widget) (f : bool) : widget :=
  {| value := value t; focused := f;
     placeholder := placeholder t; boxWidth := boxWidth t;
     charLimit := charLimit t |}.

Definition update (t : widget) (msg : Msg) : widget * nat :=
  match msg with
  | Key k =>
      match keyType k with
      | KeyRunes =>
          if focused t
          then (setValue t (value t ++ keyString k), O)
          else (t, O)
      | _ => (t, O)
      end
  | _ => (t, O)
  end.

#[export] Instance textInput : TextInput :=
  {| tiModel := widget;
     tiNew := new;
     tiValue := value;
     tiSetValue := setValue;
     tiBlur := fun t => setFocus t false;
     tiFocus := fun t => (setFocus t true, 1%nat);
     tiUpdate := update;
     tiBlink := 1%nat |}.

End SimpleInput.

(** Key presses as the terminal reports them. *)
Definition runeKey (s : string) : KeyMsg := {| keyType := KeyRunes; keyString := s |}.
Definition enterKey : KeyMsg := {| keyType := KeyEnter; keyString := "enter" |}.
Definition escKey : KeyMsg := {| keyType := KeyEsc; keyString := "esc" |}.
Definition tabKey : KeyMsg := {| keyType := KeyTab; keyString := "tab" |}.

(** ** Vocabulary of the properties *)

(** The test of the inner loop, as a predicate on the bit position. *)
Definition bitSet (b : byte) (i : Z) : bool :=
  negb (and_byte (byteZ b) (shl_byte 1 i) =? 0).

(** The call returned a non-nil error. *)
Definition failed {A : Type} (r : result A) : Prop := exists e, r = Err e.

(** Unfolds one provider client down to the case analysis on the
    network's answers. *)
Ltac unfold_fetch :=
  unfold fetchAnuQrngBytes, fetchQRandomBytes, bind, wrapErr.

(** The six places at which [fetchQRandomBytes] gives up. *)
Inductive qrCause : Type :=
| RequestFailed | BadStatus | DecodeFailed
| FetchFailed | BinaryBadStatus | ReadFailed.

(** [isStatusOK s] is the test [resp.StatusCode == http.StatusOK] that
    lets a response through. *)
Definition isStatusOK (s : Z) : bool := s =? StatusOK.

(** The specification's reading of a good status: any 2xx, that is, a
    status in [200, 300). *)
Definition is2xx (s : Z) : bool := (200 <=? s) && (s <? 300).

(** [qrBreak good w c msg]: against the network [w], the PROVIDER_A
    protocol breaks at [c] when the statuses let through are those with
    [good s = true]; [msg] is the error text of that place. *)
Inductive qrBreak (good : Z -> bool) (w : world) : qrCause -> string -> Prop :=
| QrRequestFailed e :
    firstGet w qrandomURL = Err e ->
    qrBreak good w RequestFailed ("qrandom.io request failed: " ++ e)
| QrBadStatus r1 :
    firstGet w qrandomURL = Ok r1 ->
    good (StatusCode r1) = false ->
    qrBreak good w BadStatus
            ("qrandom.io returned status " ++ fmt_d (StatusCode r1))
| QrDecodeFailed r1 e :
    firstGet w qrandomURL = Ok r1 ->
    good (StatusCode r1) = true ->
    decodeQRandom (RespBody r1) = Err e ->
    qrBreak good w DecodeFailed ("failed to parse qrandom.io response: " ++ e)
| QrFetchFailed r1 q e :
    firstGet w qrandomURL = Ok r1 ->
    good (StatusCode r1) = true ->
    decodeQRandom (RespBody r1) = Ok q ->
    secondGet w (BinaryURL q) = Err e ->
    qrBreak good w FetchFailed ("failed to fetch binary data: " ++ e)
| QrBinaryBadStatus r1 q r2 :
    firstGet w qrandomURL = Ok r1 ->
    good (StatusCode r1) = true ->
    decodeQRandom (RespBody r1) = Ok q ->
    secondGet w (BinaryURL q) = Ok r2 ->
    good (StatusCode r2) = false ->
    qrBreak good w BinaryBadStatus
            ("binary fetch returned status " ++ fmt_d (StatusCode r2))
| QrReadFailed r1 q r2 e :
    firstGet w qrandomURL = Ok r1 ->
    good (StatusCode r1) = true ->
    decodeQRandom (RespBody r1) = Ok q ->
    secondGet w (BinaryURL q) = Ok r2 ->
    good (StatusCode r2) = true ->
    readAll (RespBody r2) = Err e ->
    qrBreak good w ReadFailed ("failed to read binary data: " ++ e).

(** [qrSuccess w bytes]: both phases of the PROVIDER_A protocol go
    through, and [bytes] is the body of the second response. *)
Definition qrSuccess (w : world) (bytes : list byte) : Prop :=
  exists r1 q r2,
    firstGet w qrandomURL = Ok r1
    /\ StatusCode r1 = StatusOK
    /\ decodeQRandom (RespBody r1) = Ok q
    /\ secondGet w (BinaryURL q) = Ok r2
    /\ StatusCode r2 = StatusOK
    /\ readAll (RespBody r2) = Ok bytes.

(** ** Networks to run the clients on *)

(** A body holding a JSON document decodes into either struct: fields
    absent from the document keep their zero value. *)
Definition qrJsonBody (url : string) : Body :=
  {| decodeQRandom := Ok {| BinaryURL := url |};
     decodeAnuQrng := Ok {| Data := []; Success := false |};
     readAll := Ok [] |}.

Definition anuJsonBody (data : list byte) (success : bool) : Body :=
  {| decodeQRandom := Ok {| BinaryURL := "" |};
     decodeAnuQrng := Ok {| Data := data; Success := success |};
     readAll := Ok [] |}.

(** A body of raw bytes that is not JSON. *)
Definition rawBody (bytes : list byte) : Body :=
  {| decodeQRandom := Err "invalid character";
     decodeAnuQrng := Err "invalid character";
     readAll := Ok bytes |}.

(** PROVIDER_A answers the first request with status [s1] and a document
    naming [url], the second with status [s2] and the body [bytes]. *)
Definition qrWorld (s1 : Z) (url : string) (s2 : Z) (bytes : list byte) : world :=
  {| firstGet := fun _ => Ok {| StatusCode := s1; RespBody := qrJsonBody url |};
     secondGet := fun _ => Ok {| StatusCode := s2; RespBody := rawBody bytes |} |}.

(** PROVIDER_B answers with status [s] and the document
    [{data, success}]. *)
Definition anuWorld (s : Z) (data : list byte) (success : bool) : world :=
  {| firstGet := fun _ =>
       Ok {| StatusCode := s; RespBody := anuJsonBody data success |};
     secondGet := fun _ => Err "no second request" |}.

(** An entropy block of the requested size with as many set bits as
    unset ones: 1024 times [0x55]. *)
Definition kilobyte : list byte := repeat "085"%byte 1024.

(** PROVIDER_A answers the first request through a transforming proxy:
    203 Non-Authoritative Information, with the usual document. *)
Definition viaProxy : world :=
  qrWorld 203 "https://qrandom.io/b/1" 200 kilobyte.

(** No route to any host. *)
Definition offline : world :=
  {| firstGet := fun _ => Err "dial tcp: no route to host";
     secondGet := fun _ => Err "dial tcp: no route to host" |}.

(** [updates m msgs]: the model after the loop has delivered [msgs], in
    order, starting from [m]. *)
Definition updates {M : Type} {TM : TeaModel M} (m : M) (msgs : list Msg) : M :=
  fold_left (fun m msg => fst (teaUpdate m msg)) msgs m.

(** The two provider tags. *)
Definition validSource (s : string) : Prop := s = "qr" \/ s = "anu".

(** A network on which PROVIDER_A, if it answers at all, sends a body of
    exactly the requested size. *)
Definition exactBlock (w : world) : Prop :=
  forall bytes, fetchQRandomBytes w = Ok bytes -> len bytes = bytesToFetch.

Definition exactEvent (ev : event) : Prop :=
  match ev with
  | Done _ w => exactBlock w
  | Env _ => True
  end.

(** The result appended by a flip message, if any. *)
Definition appended (f : flipMsg) : list flipResult :=
  match err_ f with
  | None => [result_ f]
  | Some _ => []
  end.

(** The tally of a full entropy block. *)
Definition fullTally (r : flipResult) : Prop :=
  ones r + zeros r = 8 * bytesToFetch.

(** The two keys that close the label form. *)
Definition leavesForm (msg : Msg) : bool :=
  match msg with
  | Key k =>
      match keyType k with
      | KeyEnter | KeyEsc => true
      | _ => false
      end
  | _ => false
  end.

(** PROVIDER_A sends a single byte where 1024 were asked for. *)
Definition shortBody : world :=
  qrWorld 200 "https://qrandom.io/b/1" 200 ["007"%byte].

(** A fresh session of the label-editing variant, and a few messages
    typed into its form. *)
Definition sampleSession : @LabelEdit.model SimpleInput.textInput :=
  LabelEdit.initialModel "qr".

Definition sampleEdits : list Msg :=
  [Key (runeKey "x"); Key tabKey; Key (runeKey "y"); WindowSizeMsg 80 24].

(** The error of [fetchRandomBytes] for a selector that is no provider tag. *)
Definition unknownSource (s : string) : string :=
  "unknown source: " ++ s ++ " (use 'qr' or 'anu')".

(** Sessions caught in the middle of their second flip: one result in the
    history, the second fetch in flight. *)
Definition secondFlip : list event :=
  [Env (EnvKey enterKey); Done 0 (anuWorld 200 kilobyte true);
   Env (EnvKey enterKey)].

Definition busySession : MainGo.model :=
  mdl (run (start (MainGo.initialModel "anu")) secondFlip).

Definition busyForm : @LabelEdit.model SimpleInput.textInput :=
  mdl (run (start (LabelEdit.initialModel "anu")) secondFlip).

(** A session with one result in its history and the label form open. *)
Definition openForm : @LabelEdit.model SimpleInput.textInput :=
  mdl (run (start (LabelEdit.initialModel "anu"))
           [Env (EnvKey enterKey); Done 0 (anuWorld 200 kilobyte true);
            Env (EnvKey (runeKey "i"))]).

(** At most one fetch is in flight, and the model is busy while it is. *)
Definition singleFlight {M : Type} (busy : M -> bool) (p : program M) : Prop :=
  inflight p = []
  \/ (exists src, inflight p = [src]) /\ busy (mdl p) = true.

(** Whatever source the completion [ev] belongs to, a result that it
    appends satisfies [P]. *)
Definition eventYields (P : flipResult -> Prop) (ev : event) : Prop :=
  match ev with
  | Done _ w =>
      forall src, Forall P (appended (fetchAndFlipCmd src w))
  | Env _ => True
  end.

(** Splits [Update] into its branches. *)
Ltac branches :=
  repeat match goal with
         | |- context [match ?x with _ => _ end] => destruct x eqn:?
         | H : context [match ?x with _ => _ end] |- _ => destruct x eqn:?
         end.

(** ** Rendering: [View] *)

(** The [lipgloss.Style] values that [View] renders with: the package
    variables of the program, and the styles it builds on the spot. *)
Inductive Style : Type :=
| titleStyle
| statusStyle
| tieStyle
| winOneStyle
| winZeroStyle
| currentOneStyle
| currentZeroStyle
| currentTieStyle
| paddedStyle                  (* NewStyle().PaddingLeft(4) *)
| placeholderStyle (width : Z) (* NewStyle().Height(6).Width(m.width).Align(Center, Center).Foreground(subtle) *)
| errorStyle                   (* NewStyle().Foreground(lipgloss.Color("#FF0000")) *)
| formStyle (width : Z).       (* NewStyle().Width(m.width).Align(lipgloss.Center) *)

(** What [View] asks of the libraries: [lipgloss] lays strings out,
    [strings.ToUpper] upper-cases the selector. *)
Class Renderer : Type := {
  Render : Style -> string -> string;
  JoinHorizontal : list string -> string;   (* lipgloss.JoinHorizontal(lipgloss.Top, ...) *)
  JoinVertical : list string -> string;     (* lipgloss.JoinVertical(lipgloss.Left, ...) *)
  ToUpper : string -> string
}.

(** The line feed of the format strings. *)
Definition LF : string := String (ascii_of_nat 10) EmptyString.

(** [maxCards]: how many cards fit in the width, one at least.  Go's [/]
    on [int] truncates toward zero. *)
Definition maxCardsFor (width : Z) : Z :=
  let cardWidth := 14 in
  let availableWidth := wrap_int (width - 8) in
  let maxCards := Z.quot availableWidth cardWidth in
  if maxCards <? 1 then 1 else maxCards.

(** [visibleResults]: the whole history, or its last [maxCards] entries
    ([m.results[len(m.results)-maxCards:]]). *)
Definition visibleOf (results : list flipResult) (maxCards : Z)
  : list flipResult :=
  if len results >? maxCards
  then skipn (Z.to_nat (len results - maxCards)) results
  else results.

(** The [switch res.winner] of the loop over [visibleResults]: the style
    and the content of one card, given whether it is the latest.  The
    labels of the two winners differ between the variants. *)
Definition cardWith (onesLabel zerosLabel : string) (isLatest : bool)
           (res : flipResult) : Style * string :=
  let '(label, style) :=
    match winner res with
    | resOnes =>
        (onesLabel, if isLatest then currentOneStyle else winOneStyle)
    | resZeros =>
        (zerosLabel, if isLatest then currentZeroStyle else winZeroStyle)
    | resTie =>
        ("TIE", if isLatest then currentTieStyle else tieStyle)
    end in
  (style,
   label ++ LF ++ LF ++ "1: " ++ fmt_d (ones res)
         ++ LF ++ "0: " ++ fmt_d (zeros res)).

(** The body of the loop: the card at index [i].  [total] is
    [len(m.results)], [shown] is [len(visibleResults)]. *)
Definition cardAt (onesLabel zerosLabel : string) (total shown : Z)
           (i : Z) (res : flipResult) : Style * string :=
  let isLatest := (i =? shown - 1) && (total >? 0) in
  cardWith onesLabel zerosLabel isLatest res.

Fixpoint cardsFrom (onesLabel zerosLabel : string) (total shown : Z)
         (i : Z) (visible : list flipResult) : list (Style * string) :=
  match visible with
  | [] => []
  | res :: rest =>
      cardAt onesLabel zerosLabel total shown i res
      :: cardsFrom onesLabel zerosLabel total shown (i + 1) rest
  end.

(** The cards of a history shown in a given width. *)
Definition cardsOf (onesLabel zerosLabel : string)
           (results : list flipResult) (width : Z) : list (Style * string) :=
  let visibleResults := visibleOf results (maxCardsFor width) in
  cardsFrom onesLabel zerosLabel (len results) (len visibleResults)
            0 visibleResults.

(** The three styles that mark the card of the latest result. *)
Definition isCurrent (st : Style) : bool :=
  match st with
  | currentOneStyle | currentZeroStyle | currentTieStyle => true
  | _ => false
  end.

(** The label under which a result is shown. *)
Definition labelOf (onesLabel zerosLabel : string) (res : flipResult)
  : string :=
  match winner res with
  | resOnes => onesLabel
  | resZeros => zerosLabel
  | resTie => "TIE"
  end.

Section Rendering.

Context {R : Renderer}.

(** The carousel: the cards side by side, or the placeholder of an empty
    history. *)
Definition carouselOf (onesLabel zerosLabel : string)
           (results : list flipResult) (width : Z) : string :=
  let cards :=
    map (fun c => Render (fst c) (snd c))
        (cardsOf onesLabel zerosLabel results width) in
  let carousel := JoinHorizontal cards in
  let carousel := Render paddedStyle carousel in
  if len results =? 0
  then Render (placeholderStyle width) "No flips yet. Spin the quantum coin!"
  else carousel.

(** The status bar. *)
Definition statusOf (source : string) (results : list flipResult)
           (loading : bool) (err : option string) : string :=
  match err with
  | Some e => Render errorStyle ("Error: " ++ e)
  | None =>
      if loading then "Extracting entropy..."
      else "Source: " ++ ToUpper source
           ++ " | Total Flips: " ++ fmt_d (len results)
  end.

(** [func (m model) View() string] of [src/main.go]. *)
Definition MainGo_View (m : MainGo.model) : string :=
  if MainGo.width m =? 0 then "loading..."
  else
    let header := Render titleStyle "QCOIN - Quantum Flip" in
    let carousel :=
      carouselOf "ONES" "ZEROS" (MainGo.results m) (MainGo.width m) in
    let status :=
      statusOf (MainGo.source m) (MainGo.results m)
               (MainGo.loading m) (MainGo.err m) in
    let help :=
      Render statusStyle
             (LF ++ "Press [Enter] to Flip • [r] to Reset • [c] to Change Source • [q] to Quit") in
    JoinVertical [header; LF; carousel; LF; status; help].

Context {TI : TextInput}.

(** [textinput.Model.View]. *)
Variable tiView : tiModel -> string.

(** [func (m model) View() string] of the label-editing variant. *)
Definition LabelEdit_View (m : LabelEdit.model) : string :=
  if LabelEdit.width m =? 0 then "loading..."
  else if LabelEdit.inputMode m then
    let b := "Enter new messages for winners (Tab or Up/Down to switch):"
             ++ LF ++ LF in
    let b := b ++ (tiView (LabelEdit.onesInput m) ++ LF) in
    let b := b ++ (tiView (LabelEdit.zerosInput m) ++ LF ++ LF) in
    let b := b ++ Render statusStyle "(esc to cancel, enter to save)" in
    Render (formStyle (LabelEdit.width m)) b
  else
    let header := Render titleStyle "QCOIN - Quantum Flip" in
    let carousel :=
      carouselOf (LabelEdit.onesMsg m) (LabelEdit.zerosMsg m)
                 (LabelEdit.results m) (LabelEdit.width m) in
    let status :=
      statusOf (LabelEdit.source m) (LabelEdit.results m)
               (LabelEdit.loading m) (LabelEdit.err m) in
    let help :=
      Render statusStyle
             (LF ++ "Press [Enter] to Flip • [r] to Reset • [c] to Change Source • [i] to Change Messages • [q] to Quit") in
    JoinVertical [header; LF; carousel; LF; status; help].

End Rendering.

(** ** The helpers kept for later use: files *)

(** What the two file helpers ask of the libraries: [encoding/hex] and the
    files of [os].  A call of [os.WriteFile] leaves a file system behind
    and may report an error. *)
Class Storage : Type := {
  files : Type;
  EncodeToString : list byte -> string;          (* hex.EncodeToString *)
  DecodeString : string -> result (list byte);   (* hex.DecodeString *)
  WriteFile : files -> string -> string -> files * option string;
  ReadFile : files -> string -> result string
}.

Section Files.

Context {S : Storage}.

(** [func saveToFile(bytes []byte, filename string) error]. *)
Definition saveToFile (fs : files) (bytes : list byte) (filename : string)
  : files * option string :=
  let hexString := EncodeToString bytes in
  WriteFile fs filename hexString.

(** [func loadFromFile(filename string) ([]byte, error)]. *)
Definition loadFromFile (fs : files) (filename : string)
  : result (list byte) :=
  match ReadFile fs filename with
  | Err e => Err e
  | Ok hexString => DecodeString hexString
  end.

End Files.

(** A store to run the file helpers on: files in memory, and the
    lower-case two-digit code of [encoding/hex]. *)
Module MemStore.

Definition hexDigit (n : N) : ascii :=
  match n with
  | 0%N => "0" | 1%N => "1" | 2%N => "2" | 3%N => "3"
  | 4%N => "4" | 5%N => "5" | 6%N => "6" | 7%N => "7"
  | 8%N => "8" | 9%N => "9" | 10%N => "a" | 11%N => "b"
  | 12%N => "c" | 13%N => "d" | 14%N => "e" | _ => "f"
  end%char.

Definition hexValue (c : ascii) : option N :=
  let n := N_of_ascii c in
  if (48 <=? n)%N && (n <=? 57)%N then Some (n - 48)%N
  else if (97 <=? n)%N && (n <=? 102)%N then Some (n - 87)%N
  else if (65 <=? n)%N && (n <=? 70)%N then Some (n - 55)%N
  else None.

Fixpoint encode (bytes : list byte) : string :=
  match bytes with
  | [] => EmptyString
  | b :: rest =>
      String (hexDigit (Byte.to_N b / 16))
             (String (hexDigit (Byte.to_N b mod 16)) (encode rest))
  end.

Fixpoint decode (s : string) : result (list byte) :=
  match s with
  | EmptyString => Ok []
  | String _ EmptyString => Err "encoding/hex: odd length hex string"
  | String hi (String lo rest) =>
      match hexValue hi, hexValue lo with
      | Some h, Some l =>
          match Byte.of_N (16 * h + l) with
          | Some b =>
              match decode rest with
              | Ok bs => Ok (b :: bs)
              | Err e => Err e
              end
          | None => Err "encoding/hex: invalid byte"
          end
      | _, _ => Err "encoding/hex: invalid byte"
      end
  end.

(** Files in memory: a list of names with their contents, newest first. *)
Definition disk : Type := list (string * string).

Fixpoint lookup (fs : disk) (name : string) : result string :=
  match fs with
  | [] => Err ("open " ++ name ++ ": no such file or directory")
  | (n, c) :: rest => if String.eqb n name then Ok c else lookup rest name
  end.

#[export] Instance storage : Storage :=
  {| files := disk;
     EncodeToString := encode;
     DecodeString := decode;
     WriteFile := fun fs name content => ((name, content) :: fs, None);
     ReadFile := lookup |}.

End MemStore.

(** The five places at which [fetchAnuQrngBytes] gives up. *)
Inductive anuCause : Type :=
| AnuRequestFailed | AnuBadStatus | AnuDecodeFailed
| AnuNoSuccess | AnuWrongLength.

(** [anuBreak w c msg]: against the network [w], the PROVIDER_B protocol
    breaks at [c], and [msg] is the error text of that place. *)
Inductive anuBreak (w : world) : anuCause -> string -> Prop :=
| AnuBreakRequest e :
    firstGet w anuURL = Err e ->
    anuBreak w AnuRequestFailed ("ANU QRNG request failed: " ++ e)
| AnuBreakStatus r :
    firstGet w anuURL = Ok r ->
    StatusCode r <> StatusOK ->
    anuBreak w AnuBadStatus
             ("ANU QRNG returned status " ++ fmt_d (StatusCode r))
| AnuBreakDecode r e :
    firstGet w anuURL = Ok r ->
    StatusCode r = StatusOK ->
    decodeAnuQrng (RespBody r) = Err e ->
    anuBreak w AnuDecodeFailed ("failed to parse ANU QRNG response: " ++ e)
| AnuBreakSuccess r a :
    firstGet w anuURL = Ok r ->
    StatusCode r = StatusOK ->
    decodeAnuQrng (RespBody r) = Ok a ->
    Success a = false ->
    anuBreak w AnuNoSuccess "ANU QRNG API returned success=false"
| AnuBreakLength r a :
    firstGet w anuURL = Ok r ->
    StatusCode r = StatusOK ->
    decodeAnuQrng (RespBody r) = Ok a ->
    Success a = true ->
    len (Data a) <> bytesToFetch ->
    anuBreak w AnuWrongLength
             ("expected 1024 bytes, got " ++ fmt_d (len (Data a))).

(** [shortBody], except that every URL but the one named in the first
    answer is unreachable. *)
Definition onlyNamedURL : world :=
  {| firstGet := firstGet shortBody;
     secondGet := fun url =>
       if String.eqb url "https://qrandom.io/b/1"
       then secondGet shortBody url
       else Err "dial tcp: no route to host" |}.

(** The keys that move the focus between the two buffers of the form. *)
Definition switchesFocus (k : KeyMsg) : bool :=
  match keyType k with
  | KeyTab | KeyUp | KeyDown => true
  | _ => false
  end.

(** The loop has nothing in flight and the model still says loading. *)
Definition stalled {M : Type} (busy : M -> bool) (p : program M) : Prop :=
  inflight p = [] /\ busy (mdl p) = true.

(** A session of the label-editing variant in which the form was opened
    while the first flip was in flight. *)
Definition formDuringFlip : program (@LabelEdit.model SimpleInput.textInput) :=
  run (start (LabelEdit.initialModel "anu"))
      [Env (EnvKey enterKey); Env (EnvKey (runeKey "i"))].

(** A renderer without layout, to evaluate [View] on concrete sessions:
    styles are dropped, strings are joined as they come, and [ToUpper]
    maps the ASCII letters. *)
Module PlainRenderer.

Definition upper (c : ascii) : ascii :=
  let n := N_of_ascii c in
  if (97 <=? n)%N && (n <=? 122)%N then ascii_of_N (n - 32) else c.

Fixpoint toUpper (s : string) : string :=
  match s with
  | EmptyString => EmptyString
  | String c rest => String (upper c) (toUpper rest)
  end.

#[export] Instance renderer : Renderer :=
  {| Render := fun _ s => s;
     JoinHorizontal := fun l => String.concat " " l;
     JoinVertical := fun l => String.concat LF l;
     ToUpper := toUpper |}.

End PlainRenderer.

(** Typing into the form while the terminal is resized. *)
Definition resizedEdits : list Msg :=
  [Key (runeKey "x"); WindowSizeMsg 120 40; Key tabKey].

(** * Properties *)

(** ** BitCounter *)

Lemma wrap_int_id (x : Z) : min_int <= x <= max_int -> wrap_int x = x.
Proof.
  unfold min_int, max_int, wrap_int. intros H.
  rewrite Z.mod_small; lia.
Qed.

Lemma bitSet_testbit (b : byte) :
  filter (bitSet b) bitPositions = filter (Z.testbit (byteZ b)) bitPositions.
Proof. destruct b; vm_compute; reflexivity. Qed.

Lemma countBit_fold (b : byte) (ps : list Z) :
  forall o z,
    0 <= o -> 0 <= z ->
    o + len ps <= max_int -> z + len ps <= max_int ->
    fold_left (countBit b) ps (o, z)
    = (o + len (filter (bitSet b) ps),
       z + (len ps - len (filter (bitSet b) ps))).
Proof.
  unfold len. induction ps as [|i ps IH]; intros o z Ho Hz Hob Hzb.
  - simpl. f_equal; lia.
  - cbn [fold_left filter]. unfold countBit at 2. fold (bitSet b i).
    cbn [List.length] in *.
    pose proof (filter_length_le (bitSet b) ps) as Hle.
    destruct (bitSet b i); cbn [List.length].
    + rewrite wrap_int_id by (unfold min_int, max_int in *; lia).
      rewrite IH by lia. f_equal; lia.
    + rewrite wrap_int_id by (unfold min_int, max_int in *; lia).
      rewrite IH by lia. f_equal; lia.
Qed.

Lemma setBits_range (b : byte) : 0 <= setBits b <= 8.
Proof.
  unfold setBits.
  pose proof (filter_length_le (Z.testbit (byteZ b)) bitPositions) as H.
  cbn [bitPositions List.length] in H. lia.
Qed.

Lemma countByte_spec (b : byte) (o z : Z) :
  0 <= o -> 0 <= z -> o + 8 <= max_int -> z + 8 <= max_int ->
  countByte (o, z) b = (o + setBits b, z + (8 - setBits b)).
Proof.
  intros Ho Hz Hob Hzb. unfold countByte.
  change 8 with (len bitPositions) in Hob, Hzb.
  rewrite countBit_fold by assumption.
  rewrite bitSet_testbit. reflexivity.
Qed.

Lemma totalSetBits_range (bytes : list byte) :
  0 <= totalSetBits bytes <= 8 * len bytes.
Proof.
  unfold len. induction bytes as [|b rest IH]; cbn [totalSetBits List.length].
  - lia.
  - pose proof (setBits_range b). lia.
Qed.

Lemma countBits_fold (bytes : list byte) :
  forall o z,
    0 <= o -> 0 <= z ->
    o + 8 * len bytes <= max_int -> z + 8 * len bytes <= max_int ->
    fold_left countByte bytes (o, z)
    = (o + totalSetBits bytes, z + (8 * len bytes - totalSetBits bytes)).
Proof.
  unfold len. induction bytes as [|b rest IH]; intros o z Ho Hz Hob Hzb.
  - cbn. f_equal; lia.
  - cbn [fold_left totalSetBits List.length] in *.
    pose proof (setBits_range b) as Hb.
    pose proof (totalSetBits_range rest) as Hr. unfold len in Hr.
    rewrite countByte_spec by lia.
    rewrite IH by lia. f_equal; lia.
Qed.

Lemma countBits_spec (bytes : list byte) :
  len bytes <= maxAlloc ->
  countBits bytes = (totalSetBits bytes, 8 * len bytes - totalSetBits bytes).
Proof.
  intros H. unfold countBits.
  rewrite countBits_fold; unfold maxAlloc, max_int in *; try lia.
  reflexivity.
Qed.

(** C1.  For every byte slice [B] that the runtime can hold, [countBits B]
    is the pair [(ones, zeros)] in which [ones] is the number of set bits
    and [zeros] the number of unset bits over the 8 positions of every
    byte, so [ones + zeros = 8 * len B]; on the empty slice it is [(0, 0)].
    [countBits] is a function of its argument alone, defined on every
    input. *)
Theorem countBits_tally (B : list byte) (Hlen : len B <= maxAlloc) :
  countBits [] = (0, 0)
  /\ fst (countBits B) = totalSetBits B
  /\ snd (countBits B) = 8 * len B - totalSetBits B
  /\ fst (countBits B) + snd (countBits B) = 8 * len B
  /\ 0 <= fst (countBits B) /\ 0 <= snd (countBits B).
Proof.
  rewrite (countBits_spec B Hlen). cbn [fst snd].
  pose proof (totalSetBits_range B).
  repeat split; lia.
Qed.

Lemma countBits_tally_witness :
  len ["255"%byte; "000"%byte; "a"%byte] <= maxAlloc
  /\ countBits ["255"%byte; "000"%byte; "a"%byte] = (11, 13).
Proof.
  split.
  - vm_compute. discriminate.
  - pose proof (countBits_tally ["255"%byte; "000"%byte; "a"%byte]) as H.
    destruct H as (_ & H1 & H2 & _).
    + vm_compute. discriminate.
    + rewrite (surjective_pairing (countBits _)), H1, H2. reflexivity.
Defined.

(** ** RandomSourceClient *)

Lemma failed_Ok {A : Type} (a : A) : ~ failed (Ok a).
Proof. intros [e He]. discriminate He. Qed.

Lemma failed_Err {A : Type} (e : string) : failed (@Err A e).
Proof. exists e. reflexivity. Qed.

Lemma bytesToFetch_neqb (n : Z) :
  negb (n =? bytesToFetch) = false <-> n = bytesToFetch.
Proof.
  rewrite negb_false_iff. apply Z.eqb_eq.
Qed.

(** C5.  A PROVIDER_B fetch fails whenever the decoded response has
    [success = false], whatever the length of [data]; it fails whenever
    the length of [data] is not the requested 1024; and it returns exactly
    the bytes of [data] exactly when the status is 200 OK, the JSON
    decodes, [success] is true and [data] has 1024 elements. *)
Theorem fetchAnuQrngBytes_strict (w : world) :
  (forall resp anu,
      firstGet w anuURL = Ok resp ->
      decodeAnuQrng (RespBody resp) = Ok anu ->
      Success anu = false ->
      failed (fetchAnuQrngBytes w)
      /\ (StatusCode resp = StatusOK ->
          fetchAnuQrngBytes w = Err "ANU QRNG API returned success=false"))
  /\ (forall resp anu,
      firstGet w anuURL = Ok resp ->
      decodeAnuQrng (RespBody resp) = Ok anu ->
      len (Data anu) <> bytesToFetch ->
      failed (fetchAnuQrngBytes w))
  /\ (forall bytes,
      fetchAnuQrngBytes w = Ok bytes <->
      exists resp anu,
        firstGet w anuURL = Ok resp
        /\ StatusCode resp = StatusOK
        /\ decodeAnuQrng (RespBody resp) = Ok anu
        /\ Success anu = true
        /\ len (Data anu) = bytesToFetch
        /\ bytes = Data anu).
Proof.
  split; [|split].
  - intros resp anu Hget Hdec Hs. unfold_fetch. rewrite Hget.
    destruct (negb (StatusCode resp =? StatusOK)) eqn:Hst.
    + split; [apply failed_Err|].
      intros Hok. rewrite Hok in Hst. discriminate Hst.
    + rewrite Hdec, Hs. cbn. split; [apply failed_Err | reflexivity].
  - intros resp anu Hget Hdec Hlen. unfold_fetch. rewrite Hget.
    destruct (negb (StatusCode resp =? StatusOK)); [apply failed_Err|].
    rewrite Hdec.
    destruct (negb (Success anu)); [apply failed_Err|].
    destruct (negb (len (Data anu) =? bytesToFetch)) eqn:Hl;
      [apply failed_Err|].
    apply bytesToFetch_neqb in Hl. contradiction.
  - intros bytes. split.
    + unfold_fetch.
      destruct (firstGet w anuURL) as [resp|e] eqn:Hget; [|discriminate].
      destruct (negb (StatusCode resp =? StatusOK)) eqn:Hst; [discriminate|].
      destruct (decodeAnuQrng (RespBody resp)) as [anu|e] eqn:Hdec;
        [|discriminate].
      destruct (Success anu) eqn:Hs; cbn; [|discriminate].
      destruct (negb (len (Data anu) =? bytesToFetch)) eqn:Hl; [discriminate|].
      intros H. injection H as H. exists resp, anu.
      apply negb_false_iff, Z.eqb_eq in Hst.
      apply bytesToFetch_neqb in Hl.
      repeat split; auto.
    + intros (resp & anu & Hget & Hst & Hdec & Hs & Hl & ->).
      unfold_fetch. rewrite Hget, Hst, Hdec, Hs, Hl. reflexivity.
Qed.

Lemma fetchAnuQrngBytes_strict_witness :
  failed (fetchAnuQrngBytes (anuWorld 200 kilobyte false))
  /\ failed (fetchAnuQrngBytes (anuWorld 200 ["001"%byte] true))
  /\ fetchAnuQrngBytes (anuWorld 200 kilobyte true) = Ok kilobyte.
Proof.
  split; [|split].
  - destruct (fetchAnuQrngBytes_strict (anuWorld 200 kilobyte false))
      as (H & _ & _).
    apply (H {| StatusCode := 200; RespBody := anuJsonBody kilobyte false |}
             {| Data := kilobyte; Success := false |});
      reflexivity.
  - destruct (fetchAnuQrngBytes_strict (anuWorld 200 ["001"%byte] true))
      as (_ & H & _).
    apply (H {| StatusCode := 200;
                RespBody := anuJsonBody ["001"%byte] true |}
             {| Data := ["001"%byte]; Success := true |});
      [reflexivity | reflexivity | vm_compute; discriminate].
  - destruct (fetchAnuQrngBytes_strict (anuWorld 200 kilobyte true))
      as (_ & _ & H).
    apply H.
    exists {| StatusCode := 200; RespBody := anuJsonBody kilobyte true |},
           {| Data := kilobyte; Success := true |}.
    repeat split; reflexivity.
Defined.

Lemma isStatusOK_true (s : Z) : isStatusOK s = true <-> s = StatusOK.
Proof. apply Z.eqb_eq. Qed.

Lemma isStatusOK_false (s : Z) : isStatusOK s = false <-> s <> StatusOK.
Proof. apply Z.eqb_neq. Qed.

Lemma fetchQRandomBytes_Err (w : world) (msg : string) :
  fetchQRandomBytes w = Err msg <-> exists c, qrBreak isStatusOK w c msg.
Proof.
  split.
  - unfold_fetch. fold (isStatusOK).
    destruct (firstGet w qrandomURL) as [r1|e] eqn:H1.
    2:{ intros H; injection H as <-. eexists. econstructor; eauto. }
    change (StatusCode r1 =? StatusOK) with (isStatusOK (StatusCode r1)).
    destruct (isStatusOK (StatusCode r1)) eqn:Hs1; cbn [negb].
    2:{ intros H; injection H as <-. eexists. eapply QrBadStatus; eauto. }
    destruct (decodeQRandom (RespBody r1)) as [q|e] eqn:H2.
    2:{ intros H; injection H as <-. eexists. eapply QrDecodeFailed; eauto. }
    destruct (secondGet w (BinaryURL q)) as [r2|e] eqn:H3.
    2:{ intros H; injection H as <-. eexists. eapply QrFetchFailed; eauto. }
    change (StatusCode r2 =? StatusOK) with (isStatusOK (StatusCode r2)).
    destruct (isStatusOK (StatusCode r2)) eqn:Hs2; cbn [negb].
    2:{ intros H; injection H as <-. eexists.
        eapply QrBinaryBadStatus; eauto. }
    destruct (readAll (RespBody r2)) as [bytes|e] eqn:H4.
    { discriminate. }
    intros H; injection H as <-. eexists. eapply QrReadFailed; eauto.
  - intros [c Hc]. unfold_fetch.
    destruct Hc;
      repeat match goal with
             | H : isStatusOK _ = _ |- _ => unfold isStatusOK in H
             | H : _ = _ |- _ => rewrite H; clear H
             end; cbn; reflexivity.
Qed.

Lemma fetchQRandomBytes_Ok (w : world) (bytes : list byte) :
  fetchQRandomBytes w = Ok bytes <-> qrSuccess w bytes.
Proof.
  unfold qrSuccess. split.
  - unfold_fetch.
    destruct (firstGet w qrandomURL) as [r1|e] eqn:H1; [|discriminate].
    destruct (Z.eqb_spec (StatusCode r1) StatusOK) as [Hs1|Hs1];
      cbn [negb]; [|discriminate].
    destruct (decodeQRandom (RespBody r1)) as [q|e] eqn:H2; [|discriminate].
    destruct (secondGet w (BinaryURL q)) as [r2|e] eqn:H3; [|discriminate].
    destruct (Z.eqb_spec (StatusCode r2) StatusOK) as [Hs2|Hs2];
      cbn [negb]; [|discriminate].
    destruct (readAll (RespBody r2)) as [bs|e] eqn:H4; [|discriminate].
    intros Hf. injection Hf as <-. exists r1, q, r2. auto 10.
  - intros (r1 & q & r2 & H1 & Hs1 & H2 & H3 & Hs2 & H4).
    unfold_fetch. rewrite H1, Hs1, H2, H3, Hs2, H4. reflexivity.
Qed.

(** The error text tells the six causes apart, whatever the wrapped
    error and the status code are. *)
Lemma qrBreak_cause_unique (good good' : Z -> bool) (w w' : world)
      (c c' : qrCause) (msg : string) :
  qrBreak good w c msg -> qrBreak good' w' c' msg -> c = c'.
Proof.
  intros H H'.
  destruct H; inversion H'; subst; try reflexivity;
    match goal with
    | E : (_ ++ _)%string = (_ ++ _)%string |- _ => cbn in E; discriminate E
    end.
Qed.

(** C6, as the code has it.  A PROVIDER_A fetch fails exactly when the
    protocol breaks at one of six places: a transport error or a status
    other than 200 OK at either GET, a first-phase JSON that does not
    decode, or a second body that cannot be read.  The error text
    identifies the place.  When both phases go through, the body of the
    second response is returned as it is, whatever its length. *)
Theorem fetchQRandomBytes_outcomes (w : world) :
  (forall msg,
      fetchQRandomBytes w = Err msg <-> exists c, qrBreak isStatusOK w c msg)
  /\ (forall w' c c' msg,
      qrBreak isStatusOK w c msg -> qrBreak isStatusOK w' c' msg -> c = c')
  /\ (forall bytes, fetchQRandomBytes w = Ok bytes <-> qrSuccess w bytes)
  /\ (forall url bytes,
      fetchQRandomBytes (qrWorld StatusOK url StatusOK bytes) = Ok bytes).
Proof.
  split; [|split; [|split]].
  - intros msg. apply fetchQRandomBytes_Err.
  - intros w' c c' msg. apply qrBreak_cause_unique.
  - intros bytes. apply fetchQRandomBytes_Ok.
  - intros url bytes. reflexivity.
Qed.

Lemma fetchQRandomBytes_outcomes_witness :
  fetchQRandomBytes offline
  = Err "qrandom.io request failed: dial tcp: no route to host"
  /\ fetchQRandomBytes (qrWorld 200 "https://qrandom.io/b/1" 200 ["007"%byte])
     = Ok ["007"%byte].
Proof.
  split.
  - apply (proj1 (fetchQRandomBytes_outcomes offline)).
    exists RequestFailed.
    apply (QrRequestFailed isStatusOK offline "dial tcp: no route to host").
    reflexivity.
  - apply (proj1 (proj2 (proj2 (fetchQRandomBytes_outcomes
             (qrWorld 200 "https://qrandom.io/b/1" 200 ["007"%byte]))))).
    exists {| StatusCode := 200;
              RespBody := qrJsonBody "https://qrandom.io/b/1" |},
           {| BinaryURL := "https://qrandom.io/b/1" |},
           {| StatusCode := 200; RespBody := rawBody ["007"%byte] |}.
    repeat split; reflexivity.
Defined.

(** C6, as stated, fails: a first response with status 203 is a 2xx
    response whose JSON decodes, the second phase goes through without
    any fault, and yet the fetch fails. *)
Lemma fetchQRandomBytes_rejects_203 :
  fetchQRandomBytes viaProxy = Err "qrandom.io returned status 203"
  /\ ~ (exists c msg, qrBreak is2xx viaProxy c msg).
Proof.
  split.
  - reflexivity.
  - intros (c & msg & H).
    inversion H; subst;
      repeat match goal with
             | E : firstGet _ _ = _ |- _ => cbn in E; inversion E; subst; clear E
             | E : secondGet _ _ = _ |- _ => cbn in E; inversion E; subst; clear E
             | E : decodeQRandom _ = _ |- _ => cbn in E; inversion E; subst; clear E
             | E : readAll _ = _ |- _ => cbn in E; inversion E; subst; clear E
             | E : is2xx _ = _ |- _ => cbn in E; discriminate E
             end.
Qed.

(** ** FlipEngine *)

Lemma gtb_cases (a b : Z) :
  (a > b /\ (a >? b) = true)
  \/ (b > a /\ (a >? b) = false /\ (b >? a) = true)
  \/ (a = b /\ (a >? b) = false /\ (b >? a) = false).
Proof.
  rewrite !Z.gtb_ltb.
  destruct (Z.ltb_spec b a); [left; lia|].
  destruct (Z.ltb_spec a b); [right; left; lia | right; right; lia].
Qed.

Lemma PlainCLI_main_runCLI (source : string) (w : world) :
  PlainCLI.main source w = runCLI source w.
Proof. reflexivity. Qed.

(** C2.  When the fetch delivers [bytes] and [(ones, zeros)] is
    [countBits bytes], the flip carries these two counts and the verdict
    ONES if [ones > zeros], ZEROS if [zeros > ones], TIE if they are
    equal; the command-line path prints the same two counts and the same
    verdict. *)
Theorem verdict_rule (source : string) (w : world) (bytes : list byte)
        (Hfetch : fetchRandomBytes source w = Ok bytes) :
  let tally := countBits bytes in
  let msg := fetchAndFlipCmd source w in
  let out := runCLI source w in
  err_ msg = None
  /\ ones (result_ msg) = fst tally
  /\ zeros (result_ msg) = snd tally
  /\ exitCode out = 0
  /\ firstn 2 (stdout out)
     = ["Ones: " ++ fmt_d (fst tally); "Zeros: " ++ fmt_d (snd tally)]
  /\ (fst tally > snd tally ->
      winner (result_ msg) = resOnes
      /\ skipn 2 (stdout out) = ["Result: ONES"])
  /\ (snd tally > fst tally ->
      winner (result_ msg) = resZeros
      /\ skipn 2 (stdout out) = ["Result: ZEROS"])
  /\ (fst tally = snd tally ->
      winner (result_ msg) = resTie
      /\ skipn 2 (stdout out) = ["Result: TIE"]).
Proof.
  cbv zeta. unfold fetchAndFlipCmd, runCLI. rewrite Hfetch.
  destruct (countBits bytes) as [o z]. cbn [fst snd].
  destruct (gtb_cases o z) as [[H1 E1]|[(H1 & E1 & E2)|(H1 & E1 & E2)]];
    rewrite ?E1, ?E2; cbn; repeat split; intros; try reflexivity; lia.
Qed.

Lemma verdict_rule_witness :
  fetchRandomBytes "anu" (anuWorld 200 kilobyte true) = Ok kilobyte
  /\ winner (result_ (fetchAndFlipCmd "anu" (anuWorld 200 kilobyte true)))
     = resTie
  /\ skipn 2 (stdout (runCLI "anu" (anuWorld 200 kilobyte true)))
     = ["Result: TIE"].
Proof.
  split; [reflexivity|].
  destruct (verdict_rule "anu" (anuWorld 200 kilobyte true) kilobyte)
    as (_ & _ & _ & _ & _ & _ & _ & H).
  - reflexivity.
  - apply H. vm_compute. reflexivity.
Defined.

(** ** The event loop, for any model *)

Section LoopInvariants.

Context {M : Type} {TM : TeaModel M}.

(** The two observations of a model that the invariants speak about. *)
Variable busy : M -> bool.
Variable history : M -> list flipResult.

(** A fetch is started only by an update that finds the model not busy
    and leaves it busy. *)
Hypothesis fetch_when_idle :
  forall m msg m' src,
    teaUpdate m msg = (m', CmdFetchAndFlip src) ->
    busy m = false /\ busy m' = true.

(** Nothing from outside clears [busy]. *)
Hypothesis busy_kept :
  forall m e, busy m = true -> busy (fst (teaUpdate m (msgOf e))) = true.

(** Outside messages add nothing to the history, a flip message adds at
    most the result it carries. *)
Hypothesis history_env :
  forall m e, incl (history (fst (teaUpdate m (msgOf e)))) (history m).
Hypothesis history_flip :
  forall m f,
    incl (history (fst (teaUpdate m (Flip f)))) (history m ++ appended f).

Lemma deliver_mdl (p : program M) (msg : Msg) :
  mdl (deliver p msg) = fst (teaUpdate (mdl p) msg).
Proof.
  unfold deliver. destruct (teaUpdate (mdl p) msg). reflexivity.
Qed.

Lemma deliver_inflight (p : program M) (msg : Msg) :
  inflight (deliver p msg)
  = (inflight p ++ spawned (snd (teaUpdate (mdl p) msg)))%list.
Proof.
  unfold deliver. destruct (teaUpdate (mdl p) msg). reflexivity.
Qed.

Lemma spawned_cases (c : Cmd) :
  spawned c = [] \/ exists src, c = CmdFetchAndFlip src /\ spawned c = [src].
Proof.
  destruct c; cbn; eauto.
Qed.

Lemma deliver_from_empty (p : program M) (msg : Msg) :
  inflight p = [] -> singleFlight busy (deliver p msg).
Proof.
  intros He. unfold singleFlight.
  rewrite deliver_inflight, deliver_mdl, He. cbn [app].
  destruct (teaUpdate (mdl p) msg) as [m' c] eqn:Hu. cbn [fst snd].
  destruct (spawned_cases c) as [->|(src & -> & ->)]; [left; reflexivity|].
  right. split; [eauto|].
  apply (fetch_when_idle _ _ _ _ Hu).
Qed.

Lemma deliver_env_busy (p : program M) (e : envMsg) :
  singleFlight busy p -> singleFlight busy (deliver p (msgOf e)).
Proof.
  intros [He|[[src Hs] Hb]]; [apply deliver_from_empty; exact He|].
  unfold singleFlight. rewrite deliver_inflight, deliver_mdl, Hs.
  destruct (teaUpdate (mdl p) (msgOf e)) as [m' c] eqn:Hu. cbn [fst snd].
  destruct (spawned_cases c) as [->|(src' & -> & _)].
  - right. split; [cbn; eauto|].
    pose proof (busy_kept (mdl p) e Hb) as Hk. rewrite Hu in Hk. exact Hk.
  - destruct (fetch_when_idle _ _ _ _ Hu) as [Hf _]. congruence.
Qed.

Lemma stepEvent_singleFlight (p : program M) (ev : event) :
  singleFlight busy p -> singleFlight busy (stepEvent p ev).
Proof.
  intros Hp. unfold stepEvent.
  destruct (running p); [|exact Hp].
  destruct ev as [e|i w]; [apply deliver_env_busy; exact Hp|].
  destruct (nth_error (inflight p) i) as [src|] eqn:Hn; [|exact Hp].
  apply deliver_from_empty. cbn [inflight].
  destruct Hp as [He|[[src' Hs] _]].
  - rewrite He in Hn. destruct i; discriminate Hn.
  - rewrite Hs in *. destruct i as [|i]; [reflexivity|].
    destruct i; discriminate Hn.
Qed.

Lemma run_singleFlight (evs : list event) :
  forall p, singleFlight busy p -> singleFlight busy (run p evs).
Proof.
  unfold run. induction evs as [|ev evs IH]; intros p Hp; cbn [fold_left].
  - exact Hp.
  - apply IH, stepEvent_singleFlight, Hp.
Qed.

Lemma singleFlight_length (p : program M) :
  singleFlight busy p -> (List.length (inflight p) <= 1)%nat.
Proof.
  intros [->|[[src ->] _]]; cbn; lia.
Qed.

Variable P : flipResult -> Prop.

Lemma stepEvent_history (p : program M) (ev : event) :
  eventYields P ev ->
  Forall P (history (mdl p)) ->
  Forall P (history (mdl (stepEvent p ev))).
Proof.
  intros Hev Hp. unfold stepEvent.
  destruct (running p); [|exact Hp].
  destruct ev as [e|i w].
  - rewrite deliver_mdl.
    eapply incl_Forall; [apply history_env | exact Hp].
  - destruct (nth_error (inflight p) i) as [src|]; [|exact Hp].
    rewrite deliver_mdl. cbn [mdl].
    eapply incl_Forall; [apply history_flip|].
    apply Forall_app. split; [exact Hp | apply Hev].
Qed.

Lemma run_history (evs : list event) :
  forall p,
    Forall (eventYields P) evs ->
    Forall P (history (mdl p)) ->
    Forall P (history (mdl (run p evs))).
Proof.
  unfold run. induction evs as [|ev evs IH]; intros p Hevs Hp; cbn [fold_left].
  - exact Hp.
  - inversion Hevs; subst.
    apply IH; [assumption|]. apply stepEvent_history; assumption.
Qed.

End LoopInvariants.

(** ** [src/main.go]: the dispatch routine *)

Lemma MainGo_fetch_when_idle (m : MainGo.model) (msg : Msg)
      (m' : MainGo.model) (src : string) :
  MainGo.Update m msg = (m', CmdFetchAndFlip src) ->
  MainGo.loading m = false /\ MainGo.loading m' = true.
Proof.
  unfold MainGo.Update. intros H. branches; try discriminate H.
  injection H as <- _. split; [|reflexivity].
  match goal with E : negb _ = true |- _ => apply negb_true_iff in E; exact E end.
Qed.

Lemma MainGo_busy_kept (m : MainGo.model) (e : envMsg) :
  MainGo.loading m = true ->
  MainGo.loading (fst (MainGo.Update m (msgOf e))) = true.
Proof.
  intros Hl. destruct e; unfold MainGo.Update; cbn; branches; cbn; auto.
Qed.

Lemma MainGo_history_env (m : MainGo.model) (e : envMsg) :
  incl (MainGo.results (fst (MainGo.Update m (msgOf e)))) (MainGo.results m).
Proof.
  destruct e; unfold MainGo.Update; cbn; branches; cbn;
    solve [apply incl_refl | apply incl_nil_l].
Qed.

Lemma MainGo_history_flip (m : MainGo.model) (f : flipMsg) :
  incl (MainGo.results (fst (MainGo.Update m (Flip f))))
       (MainGo.results m ++ appended f).
Proof.
  unfold MainGo.Update, appended. destruct (err_ f); cbn.
  - rewrite app_nil_r. apply incl_refl.
  - apply incl_refl.
Qed.

(** ** [src/unnamed/part_001]: the dispatch routine *)

Section LabelEditFacts.

Context {TI : TextInput}.

Lemma LabelEdit_fetch_when_idle (m : LabelEdit.model) (msg : Msg)
      (m' : LabelEdit.model) (src : string) :
  LabelEdit.Update m msg = (m', CmdFetchAndFlip src) ->
  LabelEdit.loading m = false /\ LabelEdit.loading m' = true.
Proof.
  unfold LabelEdit.Update, LabelEdit.updateFocused.
  intros H. branches; try discriminate H.
  injection H as <- _. split; [|reflexivity].
  match goal with E : negb _ = true |- _ => apply negb_true_iff in E; exact E end.
Qed.

(** In input mode no message touches the selector, the history, the
    loading flag or the recorded error, and no fetch or quit is issued. *)
Lemma LabelEdit_inputMode_frame (m : LabelEdit.model) (msg : Msg) :
  LabelEdit.inputMode m = true ->
  let m' := fst (LabelEdit.Update m msg) in
  LabelEdit.source m' = LabelEdit.source m
  /\ LabelEdit.results m' = LabelEdit.results m
  /\ LabelEdit.loading m' = LabelEdit.loading m
  /\ LabelEdit.err m' = LabelEdit.err m
  /\ (snd (LabelEdit.Update m msg) = CmdNil
      \/ exists t, snd (LabelEdit.Update m msg) = CmdWidget t).
Proof.
  intros Hi. unfold LabelEdit.Update, LabelEdit.updateFocused. rewrite Hi.
  branches; cbn; repeat split; eauto.
Qed.

(** In input mode the labels change on [KeyEnter] only, and the mode is
    left on [KeyEnter] and [KeyEsc] only. *)
Lemma LabelEdit_inputMode_edit (m : LabelEdit.model) (msg : Msg) :
  LabelEdit.inputMode m = true ->
  leavesForm msg = false ->
  let m' := fst (LabelEdit.Update m msg) in
  LabelEdit.inputMode m' = true
  /\ LabelEdit.onesMsg m' = LabelEdit.onesMsg m
  /\ LabelEdit.zerosMsg m' = LabelEdit.zerosMsg m.
Proof.
  intros Hi Hl. unfold LabelEdit.Update, LabelEdit.updateFocused. rewrite Hi.
  unfold leavesForm in Hl.
  branches; try discriminate Hl; cbn; auto.
Qed.

Lemma LabelEdit_busy_kept (m : LabelEdit.model) (e : envMsg) :
  LabelEdit.loading m = true ->
  LabelEdit.loading (fst (LabelEdit.Update m (msgOf e))) = true.
Proof.
  intros Hl. destruct (LabelEdit.inputMode m) eqn:Hi.
  - destruct (LabelEdit_inputMode_frame m (msgOf e) Hi) as (_ & _ & -> & _).
    exact Hl.
  - unfold LabelEdit.Update. rewrite Hi.
    destruct e; cbn; branches; cbn; auto.
Qed.

Lemma LabelEdit_history_env (m : LabelEdit.model) (e : envMsg) :
  incl (LabelEdit.results (fst (LabelEdit.Update m (msgOf e))))
       (LabelEdit.results m).
Proof.
  destruct (LabelEdit.inputMode m) eqn:Hi.
  - destruct (LabelEdit_inputMode_frame m (msgOf e) Hi) as (_ & -> & _).
    apply incl_refl.
  - unfold LabelEdit.Update. rewrite Hi.
    destruct e; cbn; branches; cbn;
      solve [apply incl_refl | apply incl_nil_l].
Qed.

Lemma LabelEdit_history_flip (m : LabelEdit.model) (f : flipMsg) :
  incl (LabelEdit.results (fst (LabelEdit.Update m (Flip f))))
       (LabelEdit.results m ++ appended f).
Proof.
  destruct (LabelEdit.inputMode m) eqn:Hi.
  - destruct (LabelEdit_inputMode_frame m (Flip f) Hi) as (_ & -> & _).
    apply incl_appl, incl_refl.
  - unfold LabelEdit.Update, appended. rewrite Hi.
    destruct (err_ f); cbn.
    + rewrite app_nil_r. apply incl_refl.
    + apply incl_refl.
Qed.

End LabelEditFacts.

(** ** The session *)

Lemma fetchAndFlipCmd_Ok (src : string) (w : world) (bytes : list byte) :
  fetchRandomBytes src w = Ok bytes ->
  err_ (fetchAndFlipCmd src w) = None
  /\ ones (result_ (fetchAndFlipCmd src w)) = fst (countBits bytes)
  /\ zeros (result_ (fetchAndFlipCmd src w)) = snd (countBits bytes).
Proof.
  intros H. unfold fetchAndFlipCmd. rewrite H.
  destruct (countBits bytes) as [o z].
  destruct (o >? z); [|destruct (z >? o)]; cbn; auto.
Qed.

Lemma fetchAndFlipCmd_Err (src : string) (w : world) (e : string) :
  fetchRandomBytes src w = Err e ->
  fetchAndFlipCmd src w = {| result_ := zeroFlipResult; err_ := Some e |}.
Proof.
  intros H. unfold fetchAndFlipCmd. rewrite H. reflexivity.
Qed.

Lemma flip_tally (src : string) (w : world) (bytes : list byte) :
  fetchRandomBytes src w = Ok bytes ->
  len bytes <= maxAlloc ->
  ones (result_ (fetchAndFlipCmd src w))
  + zeros (result_ (fetchAndFlipCmd src w)) = 8 * len bytes.
Proof.
  intros Hf Hl.
  destruct (fetchAndFlipCmd_Ok src w bytes Hf) as (_ & -> & ->).
  rewrite (countBits_spec bytes Hl). cbn [fst snd]. lia.
Qed.

Lemma fetchAnuQrngBytes_len (w : world) (bytes : list byte) :
  fetchAnuQrngBytes w = Ok bytes -> len bytes = bytesToFetch.
Proof.
  unfold_fetch.
  destruct (firstGet w anuURL) as [resp|e]; [|discriminate].
  destruct (negb (StatusCode resp =? StatusOK)); [discriminate|].
  destruct (decodeAnuQrng (RespBody resp)) as [anu|e]; [|discriminate].
  destruct (negb (Success anu)); [discriminate|].
  destruct (negb (len (Data anu) =? bytesToFetch)) eqn:Hl; [discriminate|].
  intros H. injection H as <-. apply bytesToFetch_neqb, Hl.
Qed.

Lemma fetchRandomBytes_exact (src : string) (w : world) (bytes : list byte) :
  exactBlock w ->
  fetchRandomBytes src w = Ok bytes -> len bytes = bytesToFetch.
Proof.
  intros Hw. unfold fetchRandomBytes.
  destruct (String.eqb src "qr"); [apply Hw|].
  destruct (String.eqb src "anu"); [apply fetchAnuQrngBytes_len|].
  discriminate.
Qed.

Lemma exactBlock_fullTally (w : world) :
  exactBlock w ->
  forall src, Forall fullTally (appended (fetchAndFlipCmd src w)).
Proof.
  intros Hw src. unfold appended.
  destruct (fetchRandomBytes src w) as [bytes|e] eqn:Hf.
  - destruct (fetchAndFlipCmd_Ok src w bytes Hf) as (-> & _).
    constructor; [|constructor]. unfold fullTally.
    pose proof (fetchRandomBytes_exact src w bytes Hw Hf) as Hl.
    rewrite (flip_tally src w bytes Hf), Hl; [reflexivity|].
    rewrite Hl. vm_compute. discriminate.
  - rewrite (fetchAndFlipCmd_Err src w e Hf). constructor.
Qed.

Lemma exactEvent_yields (evs : list event) :
  Forall exactEvent evs -> Forall (eventYields fullTally) evs.
Proof.
  apply Forall_impl. intros [e|i w]; cbn; [auto|].
  apply exactBlock_fullTally.
Qed.

(** C3, as the code has it.  A successful flip tallies [8 * len bytes]
    bits of whatever block the provider returned.  A PROVIDER_B block
    always has 1024 bytes, so its tally is 8192.  In a session in which
    every PROVIDER_A body that arrives has exactly 1024 bytes (a length
    the client does not check), every result in the history has tally
    8192, whatever the selector and the sequence of events. *)
Theorem history_tally (source : string) (evs : list event)
        (Hexact : Forall exactEvent evs) :
  (forall src w bytes,
      fetchRandomBytes src w = Ok bytes ->
      len bytes <= maxAlloc ->
      ones (result_ (fetchAndFlipCmd src w))
      + zeros (result_ (fetchAndFlipCmd src w)) = 8 * len bytes)
  /\ (forall w bytes,
      fetchRandomBytes "anu" w = Ok bytes ->
      fullTally (result_ (fetchAndFlipCmd "anu" w)))
  /\ Forall fullTally
       (MainGo.results (mdl (run (start (MainGo.initialModel source)) evs)))
  /\ (forall TI : TextInput,
      Forall fullTally
        (LabelEdit.results
           (mdl (run (start (LabelEdit.initialModel source)) evs)))).
Proof.
  split; [|split; [|split]].
  - apply flip_tally.
  - intros w bytes Hf. unfold fullTally.
    pose proof (fetchAnuQrngBytes_len w bytes Hf) as Hl.
    rewrite (flip_tally "anu" w bytes Hf), Hl; [reflexivity|].
    rewrite Hl. vm_compute. discriminate.
  - apply (@run_history _ MainGo.teaModel MainGo.results
             MainGo_history_env MainGo_history_flip).
    + apply exactEvent_yields, Hexact.
    + constructor.
  - intros TI.
    apply (@run_history _ LabelEdit.teaModel LabelEdit.results
             LabelEdit_history_env LabelEdit_history_flip).
    + apply exactEvent_yields, Hexact.
    + constructor.
Qed.

Lemma anuWorld_exactBlock (s : Z) (data : list byte) (ok : bool) :
  exactBlock (anuWorld s data ok).
Proof.
  intros bytes H. apply fetchQRandomBytes_Ok in H.
  destruct H as (r1 & q & r2 & _ & _ & _ & H & _). discriminate H.
Qed.

Lemma history_tally_witness :
  Forall exactEvent
         [Env (EnvKey enterKey); Done 0 (anuWorld 200 kilobyte true)]
  /\ MainGo.results
       (mdl (run (start (MainGo.initialModel "anu"))
                 [Env (EnvKey enterKey); Done 0 (anuWorld 200 kilobyte true)]))
     = [{| ones := 4096; zeros := 4096; winner := resTie |}]
  /\ Forall fullTally
       (MainGo.results
          (mdl (run (start (MainGo.initialModel "anu"))
                    [Env (EnvKey enterKey);
                     Done 0 (anuWorld 200 kilobyte true)]))).
Proof.
  assert (H : Forall exactEvent
                [Env (EnvKey enterKey); Done 0 (anuWorld 200 kilobyte true)]).
  { repeat constructor. apply anuWorld_exactBlock. }
  split; [exact H|]. split; [vm_compute; reflexivity|].
  apply (proj1 (proj2 (proj2 (history_tally "anu" _ H)))).
Defined.

(** C3, as stated, fails: PROVIDER_A answers a flip with a one-byte body,
    and the result that enters the history tallies 8 bits. *)
Lemma history_tally_short_body :
  MainGo.results
    (mdl (run (start (MainGo.initialModel "qr"))
              [Env (EnvKey enterKey); Done 0 shortBody]))
  = [{| ones := 3; zeros := 5; winner := resZeros |}]
  /\ ~ Forall fullTally
       (MainGo.results
          (mdl (run (start (MainGo.initialModel "qr"))
                    [Env (EnvKey enterKey); Done 0 shortBody]))).
Proof.
  split; [vm_compute; reflexivity|].
  intros H. vm_compute in H. inversion H as [|r l Hr _]; subst.
  discriminate Hr.
Qed.

Lemma isKey_enter (k : KeyMsg) :
  keyString k = "enter" -> isKey "q" k = false /\ isKey "enter" k = true.
Proof.
  unfold isKey. intros ->. split; reflexivity.
Qed.

Lemma MainGo_enter_loading (m : MainGo.model) (k : KeyMsg) :
  MainGo.phase m = LOADING -> keyString k = "enter" ->
  MainGo.Update m (Key k) = (m, CmdNil).
Proof.
  unfold MainGo.phase. intros Hp Hk.
  destruct (MainGo.loading m) eqn:Hl; [|discriminate Hp].
  destruct (isKey_enter k Hk) as [Hq He].
  unfold MainGo.Update. rewrite Hq, He, Hl. reflexivity.
Qed.

Lemma LabelEdit_enter_loading {TI : TextInput} (m : LabelEdit.model)
      (k : KeyMsg) :
  LabelEdit.phase m = LOADING -> keyString k = "enter" ->
  LabelEdit.Update m (Key k) = (m, CmdNil).
Proof.
  unfold LabelEdit.phase. intros Hp Hk.
  destruct (LabelEdit.inputMode m) eqn:Hi; [discriminate Hp|].
  destruct (LabelEdit.loading m) eqn:Hl; [|discriminate Hp].
  destruct (isKey_enter k Hk) as [Hq He].
  unfold LabelEdit.Update. rewrite Hi, Hq, He, Hl. reflexivity.
Qed.

Lemma start_singleFlight {M : Type} {TM : TeaModel M} (busy : M -> bool)
      (m : M) :
  spawned (teaInit m) = [] -> singleFlight busy (start m).
Proof.
  intros H. left. exact H.
Qed.

(** C7.  A flip request (the key [enter]) that arrives while the phase is
    LOADING returns the model as it is and no command, so no second fetch
    is started; and in every run of the loop, from any selector and under
    any sequence of events, at most one fetch is in flight. *)
Theorem single_flight (source : string) (evs : list event) :
  (forall (m : MainGo.model) k,
      MainGo.phase m = LOADING -> keyString k = "enter" ->
      MainGo.Update m (Key k) = (m, CmdNil))
  /\ (forall (TI : TextInput) (m : LabelEdit.model) k,
      LabelEdit.phase m = LOADING -> keyString k = "enter" ->
      LabelEdit.Update m (Key k) = (m, CmdNil))
  /\ (List.length
        (inflight (run (start (MainGo.initialModel source)) evs)) <= 1)%nat
  /\ (forall TI : TextInput,
      (List.length
         (inflight (run (start (LabelEdit.initialModel source)) evs))
       <= 1)%nat).
Proof.
  split; [|split; [|split]].
  - apply MainGo_enter_loading.
  - intros TI. apply LabelEdit_enter_loading.
  - apply (singleFlight_length MainGo.loading).
    apply (@run_singleFlight _ MainGo.teaModel MainGo.loading
             MainGo_fetch_when_idle MainGo_busy_kept).
    apply start_singleFlight. reflexivity.
  - intros TI. apply (singleFlight_length LabelEdit.loading).
    apply (@run_singleFlight _ LabelEdit.teaModel LabelEdit.loading
             LabelEdit_fetch_when_idle LabelEdit_busy_kept).
    apply start_singleFlight. reflexivity.
Qed.

Lemma single_flight_witness :
  MainGo.phase (fst (MainGo.Update (MainGo.initialModel "qr") (Key enterKey)))
  = LOADING
  /\ MainGo.Update
       (fst (MainGo.Update (MainGo.initialModel "qr") (Key enterKey)))
       (Key enterKey)
     = (fst (MainGo.Update (MainGo.initialModel "qr") (Key enterKey)), CmdNil)
  /\ inflight (run (start (MainGo.initialModel "qr"))
                   [Env (EnvKey enterKey); Env (EnvKey enterKey)])
     = ["qr"].
Proof.
  split; [reflexivity|]. split.
  - apply (proj1 (single_flight "qr" [])); reflexivity.
  - reflexivity.
Defined.

Lemma MainGo_flip_outcome (m : MainGo.model) (src : string) (w : world) :
  let m' := fst (MainGo.Update m (Flip (fetchAndFlipCmd src w))) in
  (exists e, fetchRandomBytes src w = Err e
             /\ MainGo.results m' = MainGo.results m)
  \/ (exists bytes r,
         fetchRandomBytes src w = Ok bytes
         /\ ones r = fst (countBits bytes)
         /\ zeros r = snd (countBits bytes)
         /\ MainGo.results m' = (MainGo.results m ++ [r])%list).
Proof.
  cbv zeta. destruct (fetchRandomBytes src w) as [bytes|e] eqn:Hf.
  - right. destruct (fetchAndFlipCmd_Ok src w bytes Hf) as (He & Ho & Hz).
    exists bytes, (result_ (fetchAndFlipCmd src w)).
    unfold MainGo.Update. rewrite He. cbn. auto.
  - left. exists e. rewrite (fetchAndFlipCmd_Err src w e Hf).
    split; reflexivity.
Qed.

Lemma LabelEdit_flip_outcome {TI : TextInput} (m : LabelEdit.model)
      (src : string) (w : world) :
  let m' := fst (LabelEdit.Update m (Flip (fetchAndFlipCmd src w))) in
  LabelEdit.results m' = LabelEdit.results m
  \/ (exists bytes r,
         fetchRandomBytes src w = Ok bytes
         /\ ones r = fst (countBits bytes)
         /\ zeros r = snd (countBits bytes)
         /\ LabelEdit.results m' = (LabelEdit.results m ++ [r])%list).
Proof.
  cbv zeta. destruct (LabelEdit.inputMode m) eqn:Hi.
  { left. apply (LabelEdit_inputMode_frame m _ Hi). }
  destruct (fetchRandomBytes src w) as [bytes|e] eqn:Hf.
  - right. destruct (fetchAndFlipCmd_Ok src w bytes Hf) as (He & Ho & Hz).
    exists bytes, (result_ (fetchAndFlipCmd src w)).
    unfold LabelEdit.Update. rewrite Hi, He. cbn. auto.
  - left. rewrite (fetchAndFlipCmd_Err src w e Hf).
    unfold LabelEdit.Update. rewrite Hi. reflexivity.
Qed.

Section LabelForm.

Context {TI : TextInput}.

(** Messages that do not close the form keep the session in the form and
    touch neither the labels nor anything outside the form. *)
Lemma LabelEdit_edits_frame (edits : list Msg) :
  forall m : LabelEdit.model,
    LabelEdit.inputMode m = true ->
    Forall (fun msg => leavesForm msg = false) edits ->
    let m' := updates m edits in
    LabelEdit.inputMode m' = true
    /\ LabelEdit.onesMsg m' = LabelEdit.onesMsg m
    /\ LabelEdit.zerosMsg m' = LabelEdit.zerosMsg m
    /\ LabelEdit.source m' = LabelEdit.source m
    /\ LabelEdit.results m' = LabelEdit.results m
    /\ LabelEdit.loading m' = LabelEdit.loading m
    /\ LabelEdit.err m' = LabelEdit.err m.
Proof.
  unfold updates.
  induction edits as [|msg edits IH]; intros m Hi Hed; cbn [fold_left].
  - repeat split; assumption.
  - inversion Hed as [|? ? Hmsg Hrest]; subst.
    destruct (LabelEdit_inputMode_edit m msg Hi Hmsg) as (Hi' & Ho & Hz).
    destruct (LabelEdit_inputMode_frame m msg Hi) as (Hs & Hr & Hl & He & _).
    cbn [teaUpdate LabelEdit.teaModel] in *.
    destruct (IH _ Hi' Hrest) as (H1 & H2 & H3 & H4 & H5 & H6 & H7).
    repeat split; congruence.
Qed.

Lemma LabelEdit_request (m : LabelEdit.model) (k : KeyMsg) :
  LabelEdit.inputMode m = false -> keyString k = "i" ->
  let m' := fst (LabelEdit.Update m (Key k)) in
  LabelEdit.inputMode m' = true
  /\ LabelEdit.onesMsg m' = LabelEdit.onesMsg m
  /\ LabelEdit.zerosMsg m' = LabelEdit.zerosMsg m
  /\ LabelEdit.source m' = LabelEdit.source m
  /\ LabelEdit.results m' = LabelEdit.results m
  /\ LabelEdit.loading m' = LabelEdit.loading m
  /\ LabelEdit.err m' = LabelEdit.err m.
Proof.
  intros Hi Hk. unfold LabelEdit.Update, isKey. rewrite Hi, Hk. cbn.
  destruct (tiFocus _). cbn. repeat split.
Qed.

Lemma LabelEdit_cancel (m : LabelEdit.model) (k : KeyMsg) :
  LabelEdit.inputMode m = true -> keyType k = KeyEsc ->
  let m' := fst (LabelEdit.Update m (Key k)) in
  LabelEdit.inputMode m' = false
  /\ LabelEdit.onesMsg m' = LabelEdit.onesMsg m
  /\ LabelEdit.zerosMsg m' = LabelEdit.zerosMsg m
  /\ LabelEdit.source m' = LabelEdit.source m
  /\ LabelEdit.results m' = LabelEdit.results m
  /\ LabelEdit.loading m' = LabelEdit.loading m
  /\ LabelEdit.err m' = LabelEdit.err m
  /\ snd (LabelEdit.Update m (Key k)) = CmdNil.
Proof.
  intros Hi Hk. unfold LabelEdit.Update. rewrite Hi, Hk. cbn.
  repeat split.
Qed.

(** C9.  From any session outside the label form: open the form (key
    [i]), deliver any sequence of messages that do not close it (typed
    text, focus switches, anything else that arrives), then cancel (Esc).
    The two labels are the ones from before the form was opened, the
    history and the selector are untouched and the form is closed.  The
    phase after Esc is the one from before the form was opened: IDLE when
    it was opened from IDLE, but LOADING when it was opened while a flip
    was in flight, which the key [i] allows because it does not look at
    the loading flag. *)
Theorem label_edit_cancel (m : LabelEdit.model) (ki kesc : KeyMsg)
        (edits : list Msg)
        (Hnormal : LabelEdit.inputMode m = false)
        (Hi : keyString ki = "i")
        (Hesc : keyType kesc = KeyEsc)
        (Hedits : Forall (fun msg => leavesForm msg = false) edits) :
  let opened := fst (LabelEdit.Update m (Key ki)) in
  let edited := updates opened edits in
  let closed := fst (LabelEdit.Update edited (Key kesc)) in
  LabelEdit.phase opened = LABEL_EDITING
  /\ LabelEdit.phase edited = LABEL_EDITING
  /\ LabelEdit.onesMsg closed = LabelEdit.onesMsg m
  /\ LabelEdit.zerosMsg closed = LabelEdit.zerosMsg m
  /\ LabelEdit.results closed = LabelEdit.results m
  /\ LabelEdit.source closed = LabelEdit.source m
  /\ LabelEdit.inputMode closed = false
  /\ LabelEdit.phase closed = LabelEdit.phase m
  /\ (LabelEdit.phase m = IDLE -> LabelEdit.phase closed = IDLE)
  /\ LabelEdit.loading closed = LabelEdit.loading m
  /\ (LabelEdit.phase m = LOADING -> LabelEdit.phase closed = LOADING).
Proof.
  cbv zeta.
  destruct (LabelEdit_request m ki Hnormal Hi)
    as (A0 & A1 & A2 & A3 & A4 & A5 & A6).
  destruct (LabelEdit_edits_frame edits _ A0 Hedits)
    as (B0 & B1 & B2 & B3 & B4 & B5 & B6).
  destruct (LabelEdit_cancel _ kesc B0 Hesc)
    as (C0 & C1 & C2 & C3 & C4 & C5 & C6 & _).
  assert (Hphase : LabelEdit.phase
                     (fst (LabelEdit.Update
                             (updates (fst (LabelEdit.Update m (Key ki))) edits)
                             (Key kesc)))
                   = LabelEdit.phase m).
  { unfold LabelEdit.phase. rewrite C0, Hnormal, C5, B5, A5. reflexivity. }
  unfold LabelEdit.phase at 1 2. rewrite A0, B0.
  repeat split; try congruence.
Qed.

End LabelForm.

Lemma label_edit_cancel_witness :
  Forall (fun msg => leavesForm msg = false) sampleEdits
  /\ SimpleInput.value
       (LabelEdit.onesInput
          (updates (fst (LabelEdit.Update sampleSession (Key (runeKey "i"))))
                   sampleEdits))
     = "ONESx"
  /\ LabelEdit.onesMsg
       (fst (LabelEdit.Update
               (updates
                  (fst (LabelEdit.Update sampleSession (Key (runeKey "i"))))
                  sampleEdits)
               (Key escKey)))
     = "ONES"
  /\ LabelEdit.zerosMsg
       (fst (LabelEdit.Update
               (updates
                  (fst (LabelEdit.Update sampleSession (Key (runeKey "i"))))
                  sampleEdits)
               (Key escKey)))
     = "ZEROS"
  /\ LabelEdit.phase
       (fst (LabelEdit.Update
               (updates
                  (fst (LabelEdit.Update sampleSession (Key (runeKey "i"))))
                  sampleEdits)
               (Key escKey)))
     = IDLE
  /\ LabelEdit.phase (updates sampleSession [Key enterKey]) = LOADING
  /\ LabelEdit.phase
       (updates sampleSession
                [Key enterKey; Key (runeKey "i"); Key escKey])
     = LOADING.
Proof.
  assert (H : Forall (fun msg => leavesForm msg = false) sampleEdits).
  { repeat constructor. }
  split; [exact H|]. split; [reflexivity|].
  destruct (@label_edit_cancel SimpleInput.textInput
              sampleSession (runeKey "i") escKey sampleEdits
              eq_refl eq_refl eq_refl H)
    as (_ & _ & H1 & H2 & _ & _ & _ & _ & H3 & _).
  split; [exact H1|]. split; [exact H2|]. split; [apply H3; reflexivity|].
  assert (HL : LabelEdit.phase (updates sampleSession [Key enterKey])
               = LOADING) by reflexivity.
  split; [exact HL|].
  assert (HN : LabelEdit.inputMode (updates sampleSession [Key enterKey])
               = false) by reflexivity.
  destruct (@label_edit_cancel SimpleInput.textInput
              (updates sampleSession [Key enterKey])
              (runeKey "i") escKey []
              HN eq_refl eq_refl (Forall_nil _))
    as (_ & _ & _ & _ & _ & _ & _ & _ & _ & _ & H4).
  exact (H4 HL).
Defined.

(** The label-editing variant after a flip request followed by the key
    [i]: the form is open while the fetch is in flight. *)
Lemma LabelEdit_form_during_flip {TI : TextInput} (s : string)
      (kenter ki : KeyMsg) :
  keyString kenter = "enter" -> keyString ki = "i" ->
  let p := run (start (LabelEdit.initialModel s))
               [Env (EnvKey kenter); Env (EnvKey ki)] in
  running p = true
  /\ inflight p = [s]
  /\ LabelEdit.inputMode (mdl p) = true
  /\ LabelEdit.loading (mdl p) = true
  /\ LabelEdit.err (mdl p) = None
  /\ LabelEdit.results (mdl p) = [].
Proof.
  intros Henter Hi. cbv zeta.
  destruct (isKey_enter kenter Henter) as [Eq Ee].
  change (run ?p [?a; ?b]) with (stepEvent (stepEvent p a) b).
  assert (E : stepEvent (start (LabelEdit.initialModel s))
                        (Env (EnvKey kenter))
              = {| mdl := LabelEdit.setErr
                            (LabelEdit.setLoading
                               (LabelEdit.initialModel s) true)
                            None;
                   inflight := [s]; running := true |}).
  { unfold stepEvent, deliver. cbn. unfold LabelEdit.Update. cbn.
    rewrite Eq, Ee. reflexivity. }
  rewrite E. unfold stepEvent, deliver. cbn.
  unfold LabelEdit.Update, isKey. rewrite Hi. cbn.
  destruct (tiFocus _). cbn. repeat split.
Qed.

(** C8.  What [Update] does with a flip message that carries a failure.
    In [src/main.go], and in the label-editing variant while the form is
    closed, the error is recorded, the history, the selector and the
    labels are as before, the phase is IDLE and the command returned is
    [nil], not [tea.Quit].  In the label-editing variant with the form
    open, the message is handed to the focused text input instead: the
    error is not recorded and the loading flag stays set.  That state is
    reached by a flip request followed by the key [i], which opens the
    form without looking at the loading flag.  For every flip, the
    history after the completion is either the one before (always so
    when the fetch failed), or the one before followed by the single
    result whose counts are those of the fetched block. *)
Theorem flip_failure_handling (f : flipMsg) (e : string)
        (Herr : err_ f = Some e) :
  (forall m : MainGo.model,
      let m' := fst (MainGo.Update m (Flip f)) in
      MainGo.err m' = Some e
      /\ MainGo.results m' = MainGo.results m
      /\ MainGo.source m' = MainGo.source m
      /\ MainGo.width m' = MainGo.width m
      /\ MainGo.height m' = MainGo.height m
      /\ MainGo.phase m' = IDLE
      /\ snd (MainGo.Update m (Flip f)) = CmdNil)
  /\ (forall (TI : TextInput) (m : LabelEdit.model),
      LabelEdit.inputMode m = false ->
      let m' := fst (LabelEdit.Update m (Flip f)) in
      LabelEdit.err m' = Some e
      /\ LabelEdit.results m' = LabelEdit.results m
      /\ LabelEdit.source m' = LabelEdit.source m
      /\ LabelEdit.onesMsg m' = LabelEdit.onesMsg m
      /\ LabelEdit.zerosMsg m' = LabelEdit.zerosMsg m
      /\ LabelEdit.onesInput m' = LabelEdit.onesInput m
      /\ LabelEdit.zerosInput m' = LabelEdit.zerosInput m
      /\ LabelEdit.focusedInput m' = LabelEdit.focusedInput m
      /\ LabelEdit.width m' = LabelEdit.width m
      /\ LabelEdit.height m' = LabelEdit.height m
      /\ LabelEdit.phase m' = IDLE
      /\ snd (LabelEdit.Update m (Flip f)) = CmdNil)
  /\ (forall (TI : TextInput) (m : LabelEdit.model),
      LabelEdit.inputMode m = true ->
      let m' := fst (LabelEdit.Update m (Flip f)) in
      LabelEdit.err m' = LabelEdit.err m
      /\ LabelEdit.loading m' = LabelEdit.loading m
      /\ LabelEdit.results m' = LabelEdit.results m
      /\ LabelEdit.phase m' = LABEL_EDITING)
  /\ (forall (TI : TextInput) (s : string) (w : world) (kenter ki : KeyMsg),
      keyString kenter = "enter" ->
      keyString ki = "i" ->
      fetchAndFlipCmd s w = f ->
      let p := run (start (LabelEdit.initialModel s))
                   [Env (EnvKey kenter); Env (EnvKey ki); Done 0 w] in
      LabelEdit.err (mdl p) = None
      /\ LabelEdit.loading (mdl p) = true
      /\ LabelEdit.results (mdl p) = []
      /\ LabelEdit.phase (mdl p) = LABEL_EDITING
      /\ inflight p = [])
  /\ (forall (m : MainGo.model) src w,
      let m' := fst (MainGo.Update m (Flip (fetchAndFlipCmd src w))) in
      (exists e', fetchRandomBytes src w = Err e'
                  /\ MainGo.results m' = MainGo.results m)
      \/ (exists bytes r,
             fetchRandomBytes src w = Ok bytes
             /\ ones r = fst (countBits bytes)
             /\ zeros r = snd (countBits bytes)
             /\ MainGo.results m' = (MainGo.results m ++ [r])%list))
  /\ (forall (TI : TextInput) (m : LabelEdit.model) src w,
      let m' := fst (LabelEdit.Update m (Flip (fetchAndFlipCmd src w))) in
      LabelEdit.results m' = LabelEdit.results m
      \/ (exists bytes r,
             fetchRandomBytes src w = Ok bytes
             /\ ones r = fst (countBits bytes)
             /\ zeros r = snd (countBits bytes)
             /\ LabelEdit.results m' = (LabelEdit.results m ++ [r])%list)).
Proof.
  split; [|split; [|split; [|split; [|split]]]].
  - intros m. unfold MainGo.Update, MainGo.phase. rewrite Herr. cbn.
    repeat split.
  - intros TI m Hi. unfold LabelEdit.Update, LabelEdit.phase.
    rewrite Hi, Herr. cbn. rewrite Hi. repeat split.
  - intros TI m Hi. cbv zeta.
    destruct (LabelEdit_inputMode_frame m (Flip f) Hi)
      as (_ & Hr & Hl & He & _).
    destruct (LabelEdit_inputMode_edit m (Flip f) Hi eq_refl) as (Hi' & _).
    unfold LabelEdit.phase. rewrite Hi'. auto.
  - intros TI s w kenter ki Henter Hki Hf. cbv zeta.
    change (run ?p [?a; ?b; ?c])
      with (stepEvent (run p [a; b]) c).
    destruct (LabelEdit_form_during_flip s kenter ki Henter Hki)
      as (Hrun & Hfly & Hi & Hl & He & Hr).
    set (p := run (start (LabelEdit.initialModel s))
                  [Env (EnvKey kenter); Env (EnvKey ki)]) in *.
    unfold stepEvent. rewrite Hrun, Hfly. cbn [nth_error].
    rewrite deliver_mdl, deliver_inflight. cbn [mdl inflight removeNth app].
    change (teaUpdate (mdl p) ?msg) with (LabelEdit.Update (mdl p) msg).
    rewrite Hf.
    destruct (LabelEdit_inputMode_frame (mdl p) (Flip f) Hi)
      as (_ & Hr' & Hl' & He' & Hc).
    destruct (LabelEdit_inputMode_edit (mdl p) (Flip f) Hi eq_refl)
      as (Hi' & _).
    unfold LabelEdit.phase. rewrite Hi', Hr', Hl', He'.
    repeat split; auto.
    destruct Hc as [Hc|[t Hc]]; rewrite Hc; reflexivity.
  - intros m src w. apply MainGo_flip_outcome.
  - intros TI m src w. apply LabelEdit_flip_outcome.
Qed.

Lemma flip_failure_handling_witness :
  err_ (fetchAndFlipCmd "qr" offline)
  = Some "qrandom.io request failed: dial tcp: no route to host"
  /\ MainGo.err
       (mdl (run (start (MainGo.initialModel "qr"))
                 [Env (EnvKey enterKey); Done 0 offline]))
     = Some "qrandom.io request failed: dial tcp: no route to host"
  /\ MainGo.results
       (mdl (run (start (MainGo.initialModel "qr"))
                 [Env (EnvKey enterKey); Done 0 offline]))
     = []
  /\ @LabelEdit.err SimpleInput.textInput
       (mdl (run (start (LabelEdit.initialModel "qr"))
                 [Env (EnvKey enterKey); Env (EnvKey (runeKey "i"));
                  Done 0 offline]))
     = None
  /\ @LabelEdit.loading SimpleInput.textInput
       (mdl (run (start (LabelEdit.initialModel "qr"))
                 [Env (EnvKey enterKey); Env (EnvKey (runeKey "i"));
                  Done 0 offline]))
     = true.
Proof.
  split; [reflexivity|].
  pose proof (flip_failure_handling
                (fetchAndFlipCmd "qr" offline)
                "qrandom.io request failed: dial tcp: no route to host"
                eq_refl) as (H1 & _ & _ & H4 & _).
  destruct (H1 (fst (MainGo.Update (MainGo.initialModel "qr")
                                   (Key enterKey))))
    as (He & Hr & _).
  split; [exact He|]. split; [exact Hr|].
  destruct (H4 SimpleInput.textInput "qr" offline enterKey (runeKey "i")
               eq_refl eq_refl eq_refl) as (He' & Hl' & _).
  split; [exact He' | exact Hl'].
Defined.

(** ** The source selector *)

Lemma fetchRandomBytes_unknown (s : string) (w : world) :
  s <> "qr" -> s <> "anu" -> fetchRandomBytes s w = Err (unknownSource s).
Proof.
  intros Hqr Hanu. unfold fetchRandomBytes.
  apply String.eqb_neq in Hqr, Hanu. rewrite Hqr, Hanu. reflexivity.
Qed.

Lemma toggle_valid (s : string) :
  validSource (if String.eqb s "qr" then "anu" else "qr").
Proof.
  destruct (String.eqb s "qr"); [right | left]; reflexivity.
Qed.

Lemma MainGo_toggle (m : MainGo.model) (k : KeyMsg) :
  keyString k = "c" ->
  MainGo.source (fst (MainGo.Update m (Key k)))
  = (if String.eqb (MainGo.source m) "qr" then "anu" else "qr").
Proof.
  intros Hk. unfold MainGo.Update, isKey. rewrite Hk. cbn.
  destruct (String.eqb (MainGo.source m) "qr"); reflexivity.
Qed.

Lemma MainGo_valid_kept (m : MainGo.model) (msg : Msg) :
  validSource (MainGo.source m) ->
  validSource (MainGo.source (fst (MainGo.Update m msg))).
Proof.
  intros Hv. unfold MainGo.Update. branches; cbn; auto;
    solve [left; reflexivity | right; reflexivity].
Qed.

Lemma MainGo_updates_valid (msgs : list Msg) :
  forall m : MainGo.model,
    validSource (MainGo.source m) ->
    validSource (MainGo.source (updates m msgs)).
Proof.
  unfold updates. induction msgs as [|msg msgs IH]; intros m Hv;
    cbn [fold_left]; [exact Hv|].
  apply IH. apply MainGo_valid_kept, Hv.
Qed.

Section LabelEditSelector.

Context {TI : TextInput}.

Lemma LabelEdit_toggle (m : LabelEdit.model) (k : KeyMsg) :
  LabelEdit.inputMode m = false -> keyString k = "c" ->
  LabelEdit.source (fst (LabelEdit.Update m (Key k)))
  = (if String.eqb (LabelEdit.source m) "qr" then "anu" else "qr").
Proof.
  intros Hi Hk. unfold LabelEdit.Update, isKey. rewrite Hi, Hk. cbn.
  destruct (String.eqb (LabelEdit.source m) "qr"); reflexivity.
Qed.

Lemma LabelEdit_valid_kept (m : LabelEdit.model) (msg : Msg) :
  validSource (LabelEdit.source m) ->
  validSource (LabelEdit.source (fst (LabelEdit.Update m msg))).
Proof.
  intros Hv. destruct (LabelEdit.inputMode m) eqn:Hi.
  - destruct (LabelEdit_inputMode_frame m msg Hi) as (-> & _). exact Hv.
  - unfold LabelEdit.Update. rewrite Hi. branches; cbn; auto;
      solve [left; reflexivity | right; reflexivity].
Qed.

Lemma LabelEdit_updates_valid (msgs : list Msg) :
  forall m : LabelEdit.model,
    validSource (LabelEdit.source m) ->
    validSource (LabelEdit.source (updates m msgs)).
Proof.
  unfold updates. induction msgs as [|msg msgs IH]; intros m Hv;
    cbn [fold_left]; [exact Hv|].
  apply IH. apply LabelEdit_valid_kept, Hv.
Qed.

End LabelEditSelector.

(** The first flip of a session: the request starts one fetch, and its
    completion is handled by the model that the request left behind. *)
Lemma MainGo_first_flip (s : string) (k : KeyMsg) (w : world) :
  keyString k = "enter" ->
  mdl (run (start (MainGo.initialModel s)) [Env (EnvKey k); Done 0 w])
  = fst (MainGo.Update
           (MainGo.setErr (MainGo.setLoading (MainGo.initialModel s) true) None)
           (Flip (fetchAndFlipCmd s w))).
Proof.
  intros Hk. destruct (isKey_enter k Hk) as [Eq Ee].
  change (run ?p [?a; ?b]) with (stepEvent (stepEvent p a) b).
  assert (E : stepEvent (start (MainGo.initialModel s)) (Env (EnvKey k))
              = {| mdl := MainGo.setErr
                            (MainGo.setLoading (MainGo.initialModel s) true)
                            None;
                   inflight := [s]; running := true |}).
  { unfold stepEvent, deliver. cbn. unfold MainGo.Update.
    rewrite Eq, Ee. reflexivity. }
  rewrite E. unfold stepEvent. cbn. rewrite deliver_mdl. reflexivity.
Qed.

Lemma LabelEdit_first_flip {TI : TextInput} (s : string) (k : KeyMsg)
      (w : world) :
  keyString k = "enter" ->
  mdl (run (start (LabelEdit.initialModel s)) [Env (EnvKey k); Done 0 w])
  = fst (LabelEdit.Update
           (LabelEdit.setErr
              (LabelEdit.setLoading (LabelEdit.initialModel s) true) None)
           (Flip (fetchAndFlipCmd s w))).
Proof.
  intros Hk. destruct (isKey_enter k Hk) as [Eq Ee].
  change (run ?p [?a; ?b]) with (stepEvent (stepEvent p a) b).
  assert (E : stepEvent (start (LabelEdit.initialModel s)) (Env (EnvKey k))
              = {| mdl := LabelEdit.setErr
                            (LabelEdit.setLoading
                               (LabelEdit.initialModel s) true)
                            None;
                   inflight := [s]; running := true |}).
  { unfold stepEvent, deliver. cbn. unfold LabelEdit.Update. cbn.
    rewrite Eq, Ee. reflexivity. }
  rewrite E. unfold stepEvent. cbn. rewrite deliver_mdl. reflexivity.
Qed.

(** C10.  The value of [-s] reaches the model unchecked.  For every
    string [s] other than ["qr"] and ["anu"]: the interactive program
    starts with selector [s]; a flip requested in that state completes
    with the unknown-source error, which is recorded while the history
    stays empty; the command-line program exits with status 1 on the same
    error.  The toggle key turns ["qr"] into ["anu"] and every other
    selector into ["qr"], so once a toggle has been handled the selector
    is a provider tag under all later messages. *)
Theorem unknown_source_unchecked (s : string)
        (Hqr : s <> "qr") (Hanu : s <> "anu") :
  (forall w,
      MainGo.main s true w = RunProgram (MainGo.initialModel s)
      /\ MainGo.source (MainGo.initialModel s) = s
      /\ MainGo.main s false w
         = Exited {| stdout := [];
                     stderr := ["Error: " ++ unknownSource s];
                     exitCode := 1 |})
  /\ (forall (TI : TextInput) w,
      LabelEdit.main s true w = RunProgram (LabelEdit.initialModel s)
      /\ LabelEdit.source (LabelEdit.initialModel s) = s)
  /\ (forall w, fetchRandomBytes s w = Err (unknownSource s))
  /\ (forall w k,
      keyString k = "enter" ->
      let p := run (start (MainGo.initialModel s)) [Env (EnvKey k); Done 0 w] in
      MainGo.err (mdl p) = Some (unknownSource s)
      /\ MainGo.results (mdl p) = []
      /\ MainGo.source (mdl p) = s)
  /\ (forall (TI : TextInput) w k,
      keyString k = "enter" ->
      let p := run (start (LabelEdit.initialModel s))
                   [Env (EnvKey k); Done 0 w] in
      LabelEdit.err (mdl p) = Some (unknownSource s)
      /\ LabelEdit.results (mdl p) = []
      /\ LabelEdit.source (mdl p) = s)
  /\ (forall (m : MainGo.model) k msgs,
      keyString k = "c" ->
      let m' := fst (MainGo.Update m (Key k)) in
      (MainGo.source m = "qr" -> MainGo.source m' = "anu")
      /\ (MainGo.source m <> "qr" -> MainGo.source m' = "qr")
      /\ validSource (MainGo.source (updates m' msgs)))
  /\ (forall (TI : TextInput) (m : LabelEdit.model) k msgs,
      LabelEdit.inputMode m = false ->
      keyString k = "c" ->
      let m' := fst (LabelEdit.Update m (Key k)) in
      (LabelEdit.source m = "qr" -> LabelEdit.source m' = "anu")
      /\ (LabelEdit.source m <> "qr" -> LabelEdit.source m' = "qr")
      /\ validSource (LabelEdit.source (updates m' msgs))).
Proof.
  assert (Hf : forall w, fetchRandomBytes s w = Err (unknownSource s)).
  { intros w. apply fetchRandomBytes_unknown; assumption. }
  repeat apply conj.
  - intros w. unfold MainGo.main, runCLI. rewrite Hf. repeat split.
  - intros TI w. split; reflexivity.
  - exact Hf.
  - intros w k Hk. cbv zeta.
    rewrite (MainGo_first_flip s k w Hk), (fetchAndFlipCmd_Err s w _ (Hf w)).
    repeat split.
  - intros TI w k Hk. cbv zeta.
    rewrite (LabelEdit_first_flip s k w Hk),
      (fetchAndFlipCmd_Err s w _ (Hf w)).
    repeat split.
  - intros m k msgs Hk. cbv zeta. rewrite (MainGo_toggle m k Hk).
    repeat split.
    + intros ->. reflexivity.
    + intros Hn. apply String.eqb_neq in Hn. rewrite Hn. reflexivity.
    + apply MainGo_updates_valid. rewrite (MainGo_toggle m k Hk).
      apply toggle_valid.
  - intros TI m k msgs Hi Hk. cbv zeta. rewrite (LabelEdit_toggle m k Hi Hk).
    repeat split.
    + intros ->. reflexivity.
    + intros Hn. apply String.eqb_neq in Hn. rewrite Hn. reflexivity.
    + apply LabelEdit_updates_valid. rewrite (LabelEdit_toggle m k Hi Hk).
      apply toggle_valid.
Qed.

Lemma unknown_source_unchecked_witness :
  "foo" <> "qr" /\ "foo" <> "anu"
  /\ fetchRandomBytes "foo" offline
     = Err "unknown source: foo (use 'qr' or 'anu')"
  /\ MainGo.source
       (fst (MainGo.Update (MainGo.initialModel "foo") (Key (runeKey "c"))))
     = "qr".
Proof.
  assert (Hqr : "foo" <> "qr") by discriminate.
  assert (Hanu : "foo" <> "anu") by discriminate.
  destruct (unknown_source_unchecked "foo" Hqr Hanu)
    as (_ & _ & Hf & _ & _ & Ht & _).
  split; [exact Hqr|]. split; [exact Hanu|]. split; [apply Hf|].
  destruct (Ht (MainGo.initialModel "foo") (runeKey "c") [] eq_refl)
    as (_ & H & _).
  apply H. discriminate.
Defined.

(** ** Keys outside IDLE *)

Lemma isKey_r (k : KeyMsg) :
  keyString k = "r" ->
  isKey "q" k = false /\ isKey "enter" k = false /\ isKey "r" k = true.
Proof. unfold isKey. intros ->. repeat split. Qed.

Lemma isKey_c (k : KeyMsg) :
  keyString k = "c" ->
  isKey "q" k = false /\ isKey "enter" k = false /\ isKey "r" k = false
  /\ isKey "c" k = true.
Proof. unfold isKey. intros ->. repeat split. Qed.

(** C4, as the code has it.  Inside the label form the keys of reset,
    toggle and label edit are text for the focused buffer: the model
    after the key is the model before with the focused buffer replaced by
    what the text input makes of the key.  The history, the selector, the
    labels, the loading flag, the error, the window size, the focus, the
    other buffer and the phase stay as they are.  While LOADING, reset
    and toggle are served as in IDLE: reset empties the history, toggle
    changes the selector, nothing else changes; the fetch in flight stays
    marked by the loading flag. *)
Theorem keys_outside_idle (k : KeyMsg) :
  (forall (TI : TextInput) (m : LabelEdit.model),
      LabelEdit.phase m = LABEL_EDITING ->
      keyType k = KeyRunes ->
      let m' := fst (LabelEdit.Update m (Key k)) in
      LabelEdit.results m' = LabelEdit.results m
      /\ LabelEdit.source m' = LabelEdit.source m
      /\ LabelEdit.onesMsg m' = LabelEdit.onesMsg m
      /\ LabelEdit.zerosMsg m' = LabelEdit.zerosMsg m
      /\ LabelEdit.loading m' = LabelEdit.loading m
      /\ LabelEdit.phase m' = LABEL_EDITING
      /\ LabelEdit.err m' = LabelEdit.err m
      /\ LabelEdit.width m' = LabelEdit.width m
      /\ LabelEdit.height m' = LabelEdit.height m
      /\ LabelEdit.focusedInput m' = LabelEdit.focusedInput m
      /\ m' = (if LabelEdit.focusedInput m =? 0
               then LabelEdit.setOnesInput
                      m (fst (tiUpdate (LabelEdit.onesInput m) (Key k)))
               else LabelEdit.setZerosInput
                      m (fst (tiUpdate (LabelEdit.zerosInput m) (Key k))))
      /\ (LabelEdit.focusedInput m = 0 ->
          LabelEdit.onesInput m'
          = fst (tiUpdate (LabelEdit.onesInput m) (Key k))
          /\ LabelEdit.zerosInput m' = LabelEdit.zerosInput m)
      /\ (LabelEdit.focusedInput m <> 0 ->
          LabelEdit.zerosInput m'
          = fst (tiUpdate (LabelEdit.zerosInput m) (Key k))
          /\ LabelEdit.onesInput m' = LabelEdit.onesInput m))
  /\ (forall m : MainGo.model,
      MainGo.phase m = LOADING ->
      let m' := fst (MainGo.Update m (Key k)) in
      (keyString k = "r" ->
       MainGo.results m' = [] /\ MainGo.source m' = MainGo.source m
       /\ MainGo.phase m' = LOADING
       /\ m' = MainGo.setResults m [])
      /\ (keyString k = "c" ->
          MainGo.source m'
          = (if String.eqb (MainGo.source m) "qr" then "anu" else "qr")
          /\ MainGo.results m' = MainGo.results m
          /\ MainGo.phase m' = LOADING
          /\ m' = MainGo.setSource
                    m (if String.eqb (MainGo.source m) "qr"
                       then "anu" else "qr")))
  /\ (forall (TI : TextInput) (m : LabelEdit.model),
      LabelEdit.phase m = LOADING ->
      let m' := fst (LabelEdit.Update m (Key k)) in
      (keyString k = "r" ->
       LabelEdit.results m' = [] /\ LabelEdit.source m' = LabelEdit.source m
       /\ LabelEdit.phase m' = LOADING
       /\ m' = LabelEdit.setResults m [])
      /\ (keyString k = "c" ->
          LabelEdit.source m'
          = (if String.eqb (LabelEdit.source m) "qr" then "anu" else "qr")
          /\ LabelEdit.results m' = LabelEdit.results m
          /\ LabelEdit.phase m' = LOADING
          /\ m' = LabelEdit.setSource
                    m (if String.eqb (LabelEdit.source m) "qr"
                       then "anu" else "qr"))).
Proof.
  split; [|split].
  - intros TI m Hp Hk. cbv zeta.
    assert (Hi : LabelEdit.inputMode m = true).
    { unfold LabelEdit.phase in Hp.
      destruct (LabelEdit.inputMode m); [reflexivity|].
      destruct (LabelEdit.loading m); discriminate Hp. }
    assert (Heq : fst (LabelEdit.Update m (Key k))
                  = (if LabelEdit.focusedInput m =? 0
                     then LabelEdit.setOnesInput
                            m (fst (tiUpdate (LabelEdit.onesInput m) (Key k)))
                     else LabelEdit.setZerosInput
                            m (fst (tiUpdate (LabelEdit.zerosInput m)
                                             (Key k))))).
    { unfold LabelEdit.Update, LabelEdit.updateFocused. rewrite Hi, Hk.
      destruct (LabelEdit.focusedInput m =? 0);
        destruct (tiUpdate _ (Key k)); reflexivity. }
    rewrite Heq. unfold LabelEdit.phase.
    destruct (Z.eqb_spec (LabelEdit.focusedInput m) 0) as [Hf|Hf];
      cbn; rewrite Hi; repeat split; auto; intros; contradiction.
  - intros m Hp. cbv zeta. unfold MainGo.phase in *.
    destruct (MainGo.loading m) eqn:Hl; [|discriminate Hp].
    split.
    + intros Hk. destruct (isKey_r k Hk) as (E1 & E2 & E3).
      unfold MainGo.Update. rewrite E1, E2, E3. cbn. rewrite Hl. auto.
    + intros Hk. destruct (isKey_c k Hk) as (E1 & E2 & E3 & E4).
      unfold MainGo.Update. rewrite E1, E2, E3, E4.
      destruct (String.eqb (MainGo.source m) "qr"); cbn; rewrite Hl; auto.
  - intros TI m Hp. cbv zeta. unfold LabelEdit.phase in *.
    destruct (LabelEdit.inputMode m) eqn:Hi; [discriminate Hp|].
    destruct (LabelEdit.loading m) eqn:Hl; [|discriminate Hp].
    split.
    + intros Hk. destruct (isKey_r k Hk) as (E1 & E2 & E3).
      unfold LabelEdit.Update. rewrite Hi, E1, E2, E3. cbn.
      rewrite Hi, Hl. auto.
    + intros Hk. destruct (isKey_c k Hk) as (E1 & E2 & E3 & E4).
      unfold LabelEdit.Update. rewrite Hi, E1, E2, E3, E4.
      destruct (String.eqb (LabelEdit.source m) "qr"); cbn;
        rewrite Hi, Hl; auto.
Qed.

Lemma keys_outside_idle_witness :
  MainGo.phase busySession = LOADING
  /\ MainGo.results (fst (MainGo.Update busySession (Key (runeKey "r")))) = []
  /\ LabelEdit.phase openForm = LABEL_EDITING
  /\ LabelEdit.results (fst (LabelEdit.Update openForm (Key (runeKey "r"))))
     = [{| ones := 4096; zeros := 4096; winner := resTie |}]
  /\ LabelEdit.source (fst (LabelEdit.Update openForm (Key (runeKey "c"))))
     = "anu"
  /\ SimpleInput.value
       (LabelEdit.onesInput
          (fst (LabelEdit.Update openForm (Key (runeKey "r")))))
     = "ONESr"
  /\ LabelEdit.zerosInput (fst (LabelEdit.Update openForm (Key (runeKey "r"))))
     = LabelEdit.zerosInput openForm.
Proof.
  assert (H1 : MainGo.phase busySession = LOADING) by (vm_compute; reflexivity).
  assert (H2 : LabelEdit.phase openForm = LABEL_EDITING)
    by (vm_compute; reflexivity).
  split; [exact H1|]. split.
  { apply (proj1 (proj2 (keys_outside_idle (runeKey "r"))) busySession H1).
    reflexivity. }
  split; [exact H2|].
  destruct (proj1 (keys_outside_idle (runeKey "r"))
                  SimpleInput.textInput openForm H2 eq_refl)
    as (H3 & _ & _ & _ & _ & _ & _ & _ & _ & _ & _ & H5 & _).
  destruct (proj1 (keys_outside_idle (runeKey "c"))
                  SimpleInput.textInput openForm H2 eq_refl) as (_ & H4 & _).
  destruct (H5 eq_refl) as (H6 & H7).
  split; [|split; [|split]].
  - rewrite H3. vm_compute. reflexivity.
  - rewrite H4. vm_compute. reflexivity.
  - rewrite H6. vm_compute. reflexivity.
  - exact H7.
Defined.

(** C4, as stated, fails: while a fetch is in flight, reset empties a
    history of one result, toggle changes the selector, and label edit
    opens the form. *)
Lemma keys_served_while_loading :
  MainGo.phase busySession = LOADING
  /\ MainGo.results busySession
     = [{| ones := 4096; zeros := 4096; winner := resTie |}]
  /\ MainGo.results (fst (MainGo.Update busySession (Key (runeKey "r")))) = []
  /\ fst (MainGo.Update busySession (Key (runeKey "r"))) <> busySession
  /\ MainGo.source busySession = "anu"
  /\ MainGo.source (fst (MainGo.Update busySession (Key (runeKey "c")))) = "qr"
  /\ LabelEdit.phase busyForm = LOADING
  /\ LabelEdit.phase (fst (LabelEdit.Update busyForm (Key (runeKey "i"))))
     = LABEL_EDITING.
Proof.
  repeat split; try (vm_compute; reflexivity).
  intros H. apply (f_equal MainGo.results) in H.
  vm_compute in H. discriminate H.
Qed.

(** * Further properties of the code *)

(** ** BitCounter: how tallies combine *)

Lemma len_app {A : Type} (a b : list A) : len (a ++ b) = len a + len b.
Proof. unfold len. rewrite length_app. lia. Qed.

Lemma len_nonneg {A : Type} (a : list A) : 0 <= len a.
Proof. unfold len. lia. Qed.

Lemma totalSetBits_app (a b : list byte) :
  totalSetBits (a ++ b) = totalSetBits a + totalSetBits b.
Proof.
  induction a as [|x a IH]; cbn [app totalSetBits]; [reflexivity|].
  rewrite IH. lia.
Qed.

(** X1.  The tally of a concatenation is the sum of the tallies of its
    parts: ones with ones, zeros with zeros. *)
Theorem countBits_app (a b : list byte) (Hlen : len (a ++ b) <= maxAlloc) :
  countBits (a ++ b)
  = (fst (countBits a) + fst (countBits b),
     snd (countBits a) + snd (countBits b)).
Proof.
  pose proof (len_nonneg a). pose proof (len_nonneg b).
  rewrite len_app in Hlen.
  rewrite (countBits_spec (a ++ b)) by (rewrite len_app; exact Hlen).
  rewrite (countBits_spec a), (countBits_spec b) by lia.
  cbn [fst snd]. rewrite totalSetBits_app, len_app. f_equal; lia.
Qed.

Lemma countBits_app_witness :
  len (["255"%byte] ++ ["a"%byte; "000"%byte]) <= maxAlloc
  /\ countBits (["255"%byte] ++ ["a"%byte; "000"%byte]) = (8 + 3, 0 + 13).
Proof.
  assert (H : len (["255"%byte] ++ ["a"%byte; "000"%byte]) <= maxAlloc)
    by (vm_compute; discriminate).
  split; [exact H|].
  rewrite (countBits_app ["255"%byte] ["a"%byte; "000"%byte] H).
  reflexivity.
Defined.

Lemma totalSetBits_perm (a b : list byte) :
  Permutation a b -> totalSetBits a = totalSetBits b.
Proof.
  induction 1; cbn [totalSetBits]; lia.
Qed.

(** X2.  The tally does not depend on the order of the bytes. *)
Theorem countBits_perm (a b : list byte)
        (Hperm : Permutation a b) (Hlen : len a <= maxAlloc) :
  countBits a = countBits b.
Proof.
  assert (Hl : len b = len a).
  { unfold len. rewrite (Permutation_length Hperm). reflexivity. }
  rewrite (countBits_spec a Hlen).
  rewrite (countBits_spec b) by (rewrite Hl; exact Hlen).
  rewrite (totalSetBits_perm a b Hperm), Hl. reflexivity.
Qed.

Lemma countBits_perm_witness :
  Permutation ["255"%byte; "a"%byte; "000"%byte]
              ["000"%byte; "255"%byte; "a"%byte]
  /\ countBits ["000"%byte; "255"%byte; "a"%byte] = (11, 13).
Proof.
  assert (H : Permutation ["255"%byte; "a"%byte; "000"%byte]
                          ["000"%byte; "255"%byte; "a"%byte]).
  { apply Permutation_sym.
    apply (Permutation_cons_app ["255"%byte; "a"%byte] [] "000"%byte).
    rewrite app_nil_r. apply Permutation_refl. }
  split; [exact H|].
  rewrite <- (countBits_perm _ _ H); [reflexivity|].
  vm_compute. discriminate.
Defined.

Lemma totalSetBits_repeat (b : byte) (n : nat) :
  totalSetBits (repeat b n) = Z.of_nat n * setBits b.
Proof.
  induction n as [|n IH]; [reflexivity|].
  cbn [repeat totalSetBits]. rewrite IH. lia.
Qed.

(** X3.  A block of [n] equal bytes tallies [n] times the bits of that
    byte: an all-zero block has no ones and [8 * n] zeros, a block of
    [0xFF] has [8 * n] ones and no zeros. *)
Theorem countBits_uniform (b : byte) (n : nat)
        (Hlen : Z.of_nat n <= maxAlloc) :
  countBits (repeat b n)
  = (Z.of_nat n * setBits b, Z.of_nat n * (8 - setBits b))
  /\ countBits (repeat "000"%byte n) = (0, 8 * Z.of_nat n)
  /\ countBits (repeat "255"%byte n) = (8 * Z.of_nat n, 0).
Proof.
  assert (H : forall c,
             countBits (repeat c n)
             = (Z.of_nat n * setBits c, Z.of_nat n * (8 - setBits c))).
  { intros c. rewrite countBits_spec;
      unfold len; rewrite repeat_length; [|exact Hlen].
    rewrite totalSetBits_repeat. f_equal; lia. }
  split; [apply H|]. rewrite !H.
  change (setBits "000"%byte) with 0. change (setBits "255"%byte) with 8.
  split; f_equal; lia.
Qed.

Lemma countBits_uniform_witness :
  Z.of_nat 1024 <= maxAlloc
  /\ countBits (repeat "000"%byte 1024) = (0, 8192)
  /\ countBits (repeat "255"%byte 1024) = (8192, 0).
Proof.
  assert (H : Z.of_nat 1024 <= maxAlloc) by (vm_compute; discriminate).
  split; [exact H|].
  destruct (countBits_uniform "000"%byte 1024 H) as (_ & H0 & H1).
  split; [exact H0 | exact H1].
Defined.

(** ** FlipEngine: what decides the verdict *)

Lemma fetchAndFlipCmd_winner (src : string) (w : world) (bytes : list byte) :
  fetchRandomBytes src w = Ok bytes ->
  winner (result_ (fetchAndFlipCmd src w))
  = (if fst (countBits bytes) >? snd (countBits bytes) then resOnes
     else if snd (countBits bytes) >? fst (countBits bytes) then resZeros
          else resTie).
Proof.
  intros H. unfold fetchAndFlipCmd. rewrite H.
  destruct (countBits bytes) as [o z]. cbn [fst snd].
  destruct (o >? z); [reflexivity|]. destruct (z >? o); reflexivity.
Qed.

(** X4.  The verdict of a flip compares the number of set bits of the
    block with half of its bits: ONES above [4 * len], ZEROS below, TIE
    exactly at it. *)
Theorem verdict_threshold (src : string) (w : world) (bytes : list byte)
        (Hfetch : fetchRandomBytes src w = Ok bytes)
        (Hlen : len bytes <= maxAlloc) :
  let r := result_ (fetchAndFlipCmd src w) in
  (winner r = resOnes <-> totalSetBits bytes > 4 * len bytes)
  /\ (winner r = resZeros <-> totalSetBits bytes < 4 * len bytes)
  /\ (winner r = resTie <-> totalSetBits bytes = 4 * len bytes).
Proof.
  cbv zeta. rewrite (fetchAndFlipCmd_winner src w bytes Hfetch).
  rewrite (countBits_spec bytes Hlen). cbn [fst snd].
  set (t := totalSetBits bytes). set (n := len bytes).
  destruct (gtb_cases t (8 * n - t)) as [[H E]|[(H & E & E')|(H & E & E')]];
    rewrite E, ?E'; repeat split; intros; try discriminate; try lia;
    reflexivity.
Qed.

Lemma verdict_threshold_witness :
  fetchRandomBytes "anu" (anuWorld 200 kilobyte true) = Ok kilobyte
  /\ len kilobyte <= maxAlloc
  /\ totalSetBits kilobyte = 4 * len kilobyte
  /\ winner (result_ (fetchAndFlipCmd "anu" (anuWorld 200 kilobyte true)))
     = resTie.
Proof.
  assert (H1 : fetchRandomBytes "anu" (anuWorld 200 kilobyte true)
               = Ok kilobyte) by reflexivity.
  assert (H2 : len kilobyte <= maxAlloc) by (vm_compute; discriminate).
  assert (H3 : totalSetBits kilobyte = 4 * len kilobyte)
    by (vm_compute; reflexivity).
  split; [exact H1|]. split; [exact H2|]. split; [exact H3|].
  apply (proj2 (proj2 (verdict_threshold "anu" _ kilobyte H1 H2))).
  exact H3.
Defined.

(** ** RandomSourceClient: failures and requests *)

Lemma fetchAnuQrngBytes_Err (w : world) (msg : string) :
  fetchAnuQrngBytes w = Err msg <-> exists c, anuBreak w c msg.
Proof.
  split.
  - unfold_fetch.
    destruct (firstGet w anuURL) as [r|e] eqn:H1.
    2:{ intros H; injection H as <-. eexists. econstructor; eauto. }
    destruct (Z.eqb_spec (StatusCode r) StatusOK) as [Hs|Hs]; cbn [negb].
    2:{ intros H; injection H as <-. eexists.
        eapply AnuBreakStatus; eauto. }
    destruct (decodeAnuQrng (RespBody r)) as [a|e] eqn:H2.
    2:{ intros H; injection H as <-. eexists.
        eapply AnuBreakDecode; eauto. }
    destruct (Success a) eqn:H3; cbn [negb].
    2:{ intros H; injection H as <-. eexists.
        eapply AnuBreakSuccess; eauto. }
    destruct (Z.eqb_spec (len (Data a)) bytesToFetch) as [Hl|Hl]; cbn [negb].
    { discriminate. }
    intros H; injection H as <-. eexists.
    eapply AnuBreakLength; eauto.
  - intros [c Hc]. unfold_fetch.
    destruct Hc;
      repeat match goal with
             | H : _ = Ok _ |- _ => rewrite H; clear H
             | H : _ = Err _ |- _ => rewrite H; clear H
             | H : Success _ = _ |- _ => rewrite H; clear H
             | H : StatusCode _ = StatusOK |- _ => rewrite H; clear H
             | H : _ <> _ |- _ => apply Z.eqb_neq in H; rewrite H; clear H
             end; cbn; reflexivity.
Qed.

Lemma anuBreak_cause_unique (w w' : world) (c c' : anuCause) (msg : string) :
  anuBreak w c msg -> anuBreak w' c' msg -> c = c'.
Proof.
  intros H H'.
  destruct H; inversion H'; subst; try reflexivity;
    match goal with
    | E : _ = _ :> string |- _ => cbn in E; discriminate E
    end.
Qed.

(** X5.  A PROVIDER_B fetch fails exactly when the protocol breaks at one
    of five places, checked in this order: the request, the status (any
    but 200), the JSON, the success flag, the length of [data].  The
    error text tells the five apart, and the text for a wrong length
    carries the length received. *)
Theorem fetchAnuQrngBytes_failures (w : world) :
  (forall msg,
      fetchAnuQrngBytes w = Err msg <-> exists c, anuBreak w c msg)
  /\ (forall w' c c' msg,
      anuBreak w c msg -> anuBreak w' c' msg -> c = c')
  /\ (forall r a,
      firstGet w anuURL = Ok r ->
      StatusCode r = StatusOK ->
      decodeAnuQrng (RespBody r) = Ok a ->
      Success a = true ->
      len (Data a) <> bytesToFetch ->
      fetchAnuQrngBytes w
      = Err ("expected 1024 bytes, got " ++ fmt_d (len (Data a)))).
Proof.
  split; [|split].
  - intros msg. apply fetchAnuQrngBytes_Err.
  - intros w' c c' msg. apply anuBreak_cause_unique.
  - intros r a H1 H2 H3 H4 H5. apply fetchAnuQrngBytes_Err.
    exists AnuWrongLength. eapply AnuBreakLength; eauto.
Qed.

Lemma fetchAnuQrngBytes_failures_witness :
  fetchAnuQrngBytes (anuWorld 200 ["007"%byte] true)
  = Err "expected 1024 bytes, got 1"
  /\ fetchAnuQrngBytes (anuWorld 200 ["007"%byte] false)
     = Err "ANU QRNG API returned success=false".
Proof.
  split.
  - apply (proj2 (proj2 (fetchAnuQrngBytes_failures
                           (anuWorld 200 ["007"%byte] true)))
             {| StatusCode := 200; RespBody := anuJsonBody ["007"%byte] true |}
             {| Data := ["007"%byte]; Success := true |});
      try reflexivity.
    vm_compute. discriminate.
  - apply (proj1 (fetchAnuQrngBytes_failures
                    (anuWorld 200 ["007"%byte] false))).
    exists AnuNoSuccess.
    apply (AnuBreakSuccess _
             {| StatusCode := 200;
                RespBody := anuJsonBody ["007"%byte] false |}
             {| Data := ["007"%byte]; Success := false |});
      reflexivity.
Defined.

(** X6.  What the clients read of the network.  PROVIDER_B is decided by
    the answer to the one GET of its URL.  PROVIDER_A is decided by the
    answer to the GET of its URL and, when that answer is a 200 whose
    JSON decodes, by the answer to the GET of the URL named in it. *)
Theorem fetch_reads_only (w w' : world) :
  (firstGet w anuURL = firstGet w' anuURL ->
   fetchAnuQrngBytes w = fetchAnuQrngBytes w')
  /\ (firstGet w qrandomURL = firstGet w' qrandomURL ->
      (forall r q,
          firstGet w qrandomURL = Ok r ->
          StatusCode r = StatusOK ->
          decodeQRandom (RespBody r) = Ok q ->
          secondGet w (BinaryURL q) = secondGet w' (BinaryURL q)) ->
      fetchQRandomBytes w = fetchQRandomBytes w').
Proof.
  split.
  - intros H. unfold_fetch. rewrite H. reflexivity.
  - intros H1 H2. unfold_fetch. rewrite <- H1.
    destruct (firstGet w qrandomURL) as [r|e] eqn:Hg; [|reflexivity].
    destruct (Z.eqb_spec (StatusCode r) StatusOK) as [Hs|Hs]; cbn [negb];
      [|reflexivity].
    destruct (decodeQRandom (RespBody r)) as [q|e] eqn:Hd; [|reflexivity].
    rewrite <- (H2 r q eq_refl Hs Hd). reflexivity.
Qed.

Lemma fetch_reads_only_witness :
  fetchAnuQrngBytes (anuWorld 200 kilobyte true)
  = fetchAnuQrngBytes
      {| firstGet := firstGet (anuWorld 200 kilobyte true);
         secondGet := secondGet shortBody |}
  /\ fetchQRandomBytes shortBody = fetchQRandomBytes onlyNamedURL.
Proof.
  split.
  - apply (proj1 (fetch_reads_only _ _)). reflexivity.
  - apply (proj2 (fetch_reads_only shortBody onlyNamedURL)).
    + reflexivity.
    + intros r q Hr _ Hq. cbn in Hr. injection Hr as <-.
      cbn in Hq. injection Hq as <-. reflexivity.
Defined.

(** ** Files *)

Section FileRoundTrip.

Context {S : Storage}.

(** The contracts of the two libraries: decoding undoes encoding, and a
    file written without error reads back as written. *)
Hypothesis hex_round_trip :
  forall bytes, DecodeString (EncodeToString bytes) = Ok bytes.
Hypothesis read_after_write :
  forall fs name content fs',
    WriteFile fs name content = (fs', None) ->
    ReadFile fs' name = Ok content.

(** X8.  A block saved without error loads back unchanged from the same
    file name; an error of [os.ReadFile] is returned as it is, without a
    prefix. *)
Theorem save_then_load (fs fs' : files) (bytes : list byte) (name : string)
        (Hsave : saveToFile fs bytes name = (fs', None)) :
  loadFromFile fs' name = Ok bytes
  /\ (forall other e,
         ReadFile fs' other = Err e -> loadFromFile fs' other = Err e).
Proof.
  split.
  - unfold saveToFile in Hsave. unfold loadFromFile.
    rewrite (read_after_write _ _ _ _ Hsave). apply hex_round_trip.
  - intros other e H. unfold loadFromFile. rewrite H. reflexivity.
Qed.

End FileRoundTrip.

Lemma MemStore_hex_byte (b : byte) :
  MemStore.hexValue (MemStore.hexDigit (Byte.to_N b / 16))
  = Some (Byte.to_N b / 16)%N
  /\ MemStore.hexValue (MemStore.hexDigit (Byte.to_N b mod 16))
     = Some (Byte.to_N b mod 16)%N
  /\ Byte.of_N (16 * (Byte.to_N b / 16) + Byte.to_N b mod 16) = Some b.
Proof. destruct b; vm_compute; repeat split. Qed.

Lemma MemStore_hex_round_trip (bytes : list byte) :
  MemStore.decode (MemStore.encode bytes) = Ok bytes.
Proof.
  induction bytes as [|b rest IH]; [reflexivity|].
  cbn [MemStore.encode MemStore.decode].
  destruct (MemStore_hex_byte b) as (-> & -> & ->).
  rewrite IH. reflexivity.
Qed.

Lemma MemStore_read_after_write (fs : MemStore.disk) (name content : string)
      (fs' : MemStore.disk) :
  (fun fs name content => ((name, content) :: fs, @None string))
    fs name content = (fs', None) ->
  MemStore.lookup fs' name = Ok content.
Proof.
  intros H. injection H as <-. cbn. rewrite String.eqb_refl. reflexivity.
Qed.

Lemma save_then_load_witness :
  @saveToFile MemStore.storage [] ["222"%byte; "173"%byte] "coin.hex"
  = ([("coin.hex", "dead")], None)
  /\ @loadFromFile MemStore.storage [("coin.hex", "dead")] "coin.hex"
     = Ok ["222"%byte; "173"%byte].
Proof.
  assert (H : @saveToFile MemStore.storage [] ["222"%byte; "173"%byte]
                          "coin.hex"
              = ([("coin.hex", "dead")], None)) by reflexivity.
  split; [exact H|].
  apply (@save_then_load MemStore.storage
           MemStore_hex_round_trip MemStore_read_after_write
           [] [("coin.hex", "dead")] ["222"%byte; "173"%byte] "coin.hex" H).
Defined.

(** ** The command line *)

(** X9.  [runCLI] exits with status 0 exactly when the fetch succeeds.
    On success it writes three lines to standard output and nothing to
    standard error; on failure it writes the one line ["Error: ..."] to
    standard error, nothing to standard output, and exits with status 1.
    The two [main] functions without a TUI path do the same. *)
Theorem runCLI_exit (source : string) (w : world) :
  (exitCode (runCLI source w) = 0
   <-> exists bytes, fetchRandomBytes source w = Ok bytes)
  /\ (exitCode (runCLI source w) = 0 ->
      List.length (stdout (runCLI source w)) = 3%nat
      /\ stderr (runCLI source w) = [])
  /\ (forall e,
      fetchRandomBytes source w = Err e ->
      runCLI source w
      = {| stdout := []; stderr := ["Error: " ++ e]; exitCode := 1 |})
  /\ MainGo.main source false w = Exited (runCLI source w)
  /\ PlainCLI.main source w = runCLI source w.
Proof.
  assert (Hm : MainGo.main source false w = Exited (runCLI source w))
    by reflexivity.
  assert (Hp : PlainCLI.main source w = runCLI source w) by reflexivity.
  rewrite Hm, Hp. clear Hm Hp. unfold runCLI.
  destruct (fetchRandomBytes source w) as [bytes|e] eqn:Hf.
  - destruct (countBits bytes) as [o z]. cbn.
    repeat split; eauto; discriminate.
  - cbn. repeat split; try discriminate.
    + intros [bytes H]. discriminate H.
    + intros e' H. injection H as <-. reflexivity.
Qed.

Lemma runCLI_exit_witness :
  fetchRandomBytes "qr" offline
  = Err "qrandom.io request failed: dial tcp: no route to host"
  /\ runCLI "qr" offline
     = {| stdout := [];
          stderr := ["Error: qrandom.io request failed: dial tcp: no route to host"];
          exitCode := 1 |}
  /\ exitCode (runCLI "anu" (anuWorld 200 kilobyte true)) = 0.
Proof.
  assert (H : fetchRandomBytes "qr" offline
              = Err "qrandom.io request failed: dial tcp: no route to host")
    by reflexivity.
  split; [exact H|]. split.
  - apply (proj1 (proj2 (proj2 (runCLI_exit "qr" offline))) _ H).
  - apply (proj1 (runCLI_exit "anu" (anuWorld 200 kilobyte true))).
    exists kilobyte. reflexivity.
Defined.

(** ** The history *)

Lemma isKey_eq (s : string) (k : KeyMsg) : isKey s k = true -> keyString k = s.
Proof. unfold isKey. apply String.eqb_eq. Qed.

(** X10.  The history changes in two ways only.  A flip message without
    error appends its result at the end, and the reset key empties the
    history; in the label-editing variant both need the form to be
    closed.  Every other message leaves the history as it is. *)
Theorem history_append_only (msg : Msg) :
  (forall m : MainGo.model,
      let m' := fst (MainGo.Update m msg) in
      (forall f, msg = Flip f -> err_ f = None ->
                 MainGo.results m' = (MainGo.results m ++ [result_ f])%list)
      /\ (forall k, msg = Key k -> keyString k = "r" ->
                    MainGo.results m' = [])
      /\ ((forall f, msg = Flip f -> err_ f <> None) ->
          (forall k, msg = Key k -> keyString k <> "r") ->
          MainGo.results m' = MainGo.results m)
      /\ (MainGo.results m' = MainGo.results m
          \/ (exists f, msg = Flip f /\ err_ f = None
                        /\ MainGo.results m'
                           = (MainGo.results m ++ [result_ f])%list)
          \/ (exists k, msg = Key k /\ keyString k = "r"
                        /\ MainGo.results m' = [])))
  /\ (forall (TI : TextInput) (m : LabelEdit.model),
      let m' := fst (LabelEdit.Update m msg) in
      (forall f, msg = Flip f -> err_ f = None ->
                 LabelEdit.inputMode m = false ->
                 LabelEdit.results m'
                 = (LabelEdit.results m ++ [result_ f])%list)
      /\ (forall k, msg = Key k -> keyString k = "r" ->
                    LabelEdit.inputMode m = false ->
                    LabelEdit.results m' = [])
      /\ (LabelEdit.inputMode m = true ->
          LabelEdit.results m' = LabelEdit.results m)
      /\ ((forall f, msg = Flip f -> err_ f <> None) ->
          (forall k, msg = Key k -> keyString k <> "r") ->
          LabelEdit.results m' = LabelEdit.results m)
      /\ (LabelEdit.results m' = LabelEdit.results m
          \/ (exists f, msg = Flip f /\ err_ f = None
                        /\ LabelEdit.inputMode m = false
                        /\ LabelEdit.results m'
                           = (LabelEdit.results m ++ [result_ f])%list)
          \/ (exists k, msg = Key k /\ keyString k = "r"
                        /\ LabelEdit.inputMode m = false
                        /\ LabelEdit.results m' = []))).
Proof.
  split.
  - intros m. cbv zeta.
    assert (Hflip : forall f, msg = Flip f -> err_ f = None ->
                      MainGo.results (fst (MainGo.Update m msg))
                      = (MainGo.results m ++ [result_ f])%list).
    { intros f -> Hf. unfold MainGo.Update. rewrite Hf. reflexivity. }
    assert (Hreset : forall k, msg = Key k -> keyString k = "r" ->
                       MainGo.results (fst (MainGo.Update m msg)) = []).
    { intros k -> Hk. destruct (isKey_r k Hk) as (E1 & E2 & E3).
      unfold MainGo.Update. rewrite E1, E2, E3. reflexivity. }
    assert (Hcases :
              MainGo.results (fst (MainGo.Update m msg)) = MainGo.results m
              \/ (exists f, msg = Flip f /\ err_ f = None
                            /\ MainGo.results (fst (MainGo.Update m msg))
                               = (MainGo.results m ++ [result_ f])%list)
              \/ (exists k, msg = Key k /\ keyString k = "r"
                            /\ MainGo.results (fst (MainGo.Update m msg))
                               = [])).
    { unfold MainGo.Update.
      destruct msg as [k|wd ht|f|t]; cbn; auto.
      + destruct (isKey "q" k); [auto|].
        destruct (isKey "enter" k);
          [destruct (negb (MainGo.loading m)); auto|].
        destruct (isKey "r" k) eqn:Er.
        { right; right. exists k. apply isKey_eq in Er. auto. }
        destruct (isKey "c" k); [|auto].
        destruct (String.eqb (MainGo.source m) "qr"); auto.
      + destruct (err_ f) eqn:Ef; cbn; [auto|].
        right; left. exists f. auto. }
    split; [exact Hflip|]. split; [exact Hreset|]. split; [|exact Hcases].
    intros Hnf Hnr.
    destruct Hcases as [H|[(f & Hm & Hf & _)|(k & Hm & Hk & _)]];
      [exact H | |].
    + exfalso. exact (Hnf f Hm Hf).
    + exfalso. exact (Hnr k Hm Hk).
  - intros TI m. cbv zeta.
    assert (Hflip : forall f, msg = Flip f -> err_ f = None ->
                      LabelEdit.inputMode m = false ->
                      LabelEdit.results (fst (LabelEdit.Update m msg))
                      = (LabelEdit.results m ++ [result_ f])%list).
    { intros f -> Hf Hi. unfold LabelEdit.Update. rewrite Hi, Hf.
      reflexivity. }
    assert (Hreset : forall k, msg = Key k -> keyString k = "r" ->
                       LabelEdit.inputMode m = false ->
                       LabelEdit.results (fst (LabelEdit.Update m msg)) = []).
    { intros k -> Hk Hi. destruct (isKey_r k Hk) as (E1 & E2 & E3).
      unfold LabelEdit.Update. rewrite Hi, E1, E2, E3. reflexivity. }
    assert (Hform : LabelEdit.inputMode m = true ->
                    LabelEdit.results (fst (LabelEdit.Update m msg))
                    = LabelEdit.results m).
    { intros Hi. apply (LabelEdit_inputMode_frame m msg Hi). }
    assert (Hcases :
              LabelEdit.results (fst (LabelEdit.Update m msg))
              = LabelEdit.results m
              \/ (exists f, msg = Flip f /\ err_ f = None
                            /\ LabelEdit.inputMode m = false
                            /\ LabelEdit.results
                                 (fst (LabelEdit.Update m msg))
                               = (LabelEdit.results m ++ [result_ f])%list)
              \/ (exists k, msg = Key k /\ keyString k = "r"
                            /\ LabelEdit.inputMode m = false
                            /\ LabelEdit.results
                                 (fst (LabelEdit.Update m msg)) = [])).
    { destruct (LabelEdit.inputMode m) eqn:Hi.
      { left. apply Hform. reflexivity. }
      unfold LabelEdit.Update. rewrite Hi.
      destruct msg as [k|wd ht|f|t]; cbn; auto.
      + destruct (isKey "q" k); [auto|].
        destruct (isKey "enter" k);
          [destruct (negb (LabelEdit.loading m)); auto|].
        destruct (isKey "r" k) eqn:Er.
        { right; right. exists k. apply isKey_eq in Er. auto. }
        destruct (isKey "c" k);
          [destruct (String.eqb (LabelEdit.source m) "qr"); auto|].
        destruct (isKey "i" k); [|auto].
        destruct (tiFocus _); auto.
      + destruct (err_ f) eqn:Ef; cbn; [auto|].
        right; left. exists f. auto. }
    split; [exact Hflip|]. split; [exact Hreset|]. split; [exact Hform|].
    split; [|exact Hcases].
    intros Hnf Hnr.
    destruct Hcases as [H|[(f & Hm & Hf & _)|(k & Hm & Hk & _)]];
      [exact H | |].
    + exfalso. exact (Hnf f Hm Hf).
    + exfalso. exact (Hnr k Hm Hk).
Qed.

Lemma history_append_only_witness :
  MainGo.results
    (fst (MainGo.Update busySession
                        (Flip (fetchAndFlipCmd "qr" shortBody))))
  = [{| ones := 4096; zeros := 4096; winner := resTie |};
     {| ones := 3; zeros := 5; winner := resZeros |}]
  /\ MainGo.results (fst (MainGo.Update busySession (Key (runeKey "r")))) = []
  /\ MainGo.results (fst (MainGo.Update busySession (Key (runeKey "c"))))
     = MainGo.results busySession.
Proof.
  split; [|split].
  - rewrite (proj1 (proj1 (history_append_only
                             (Flip (fetchAndFlipCmd "qr" shortBody)))
                          busySession)
                   (fetchAndFlipCmd "qr" shortBody) eq_refl eq_refl).
    vm_compute. reflexivity.
  - apply (proj1 (proj2 (proj1 (history_append_only (Key (runeKey "r")))
                               busySession))
                 (runeKey "r") eq_refl eq_refl).
  - apply (proj1 (proj2 (proj2 (proj1 (history_append_only
                                         (Key (runeKey "c")))
                                      busySession)))).
    + intros f E. discriminate E.
    + intros k E. injection E as <-. discriminate.
Defined.

Lemma MainGo_flips_in_order (fs : list flipMsg) :
  forall m : MainGo.model,
    MainGo.results (updates m (map Flip fs))
    = (MainGo.results m ++ flat_map appended fs)%list.
Proof.
  unfold updates.
  induction fs as [|f fs IH]; intros m; cbn [map fold_left flat_map].
  - rewrite app_nil_r. reflexivity.
  - rewrite IH.
    change (fst (teaUpdate m (Flip f)))
      with (fst (MainGo.Update m (Flip f))).
    unfold MainGo.Update, appended. destruct (err_ f); cbn.
    + reflexivity.
    + rewrite <- app_assoc. reflexivity.
Qed.

Lemma LabelEdit_flips_in_order {TI : TextInput} (fs : list flipMsg) :
  forall m : LabelEdit.model,
    LabelEdit.inputMode m = false ->
    LabelEdit.results (updates m (map Flip fs))
    = (LabelEdit.results m ++ flat_map appended fs)%list.
Proof.
  unfold updates.
  induction fs as [|f fs IH]; intros m Hi; cbn [map fold_left flat_map].
  - rewrite app_nil_r. reflexivity.
  - change (fst (teaUpdate m (Flip f)))
      with (fst (LabelEdit.Update m (Flip f))).
    assert (Hu : LabelEdit.inputMode (fst (LabelEdit.Update m (Flip f)))
                 = false
                 /\ LabelEdit.results (fst (LabelEdit.Update m (Flip f)))
                    = (LabelEdit.results m ++ appended f)%list).
    { unfold LabelEdit.Update, appended. rewrite Hi.
      destruct (err_ f); cbn; rewrite ?app_nil_r; auto. }
    destruct Hu as [Hi' Hr]. rewrite (IH _ Hi'), Hr, <- app_assoc.
    reflexivity.
Qed.

(** X11.  The history is in order of arrival: after a series of flip
    messages it is the history from before, followed by the results of
    those messages that carry no error, in the order in which they were
    delivered. *)
Theorem history_in_order (fs : list flipMsg) :
  (forall m : MainGo.model,
      MainGo.results (updates m (map Flip fs))
      = (MainGo.results m ++ flat_map appended fs)%list)
  /\ (forall (TI : TextInput) (m : LabelEdit.model),
      LabelEdit.inputMode m = false ->
      LabelEdit.results (updates m (map Flip fs))
      = (LabelEdit.results m ++ flat_map appended fs)%list).
Proof.
  split.
  - apply MainGo_flips_in_order.
  - intros TI. apply LabelEdit_flips_in_order.
Qed.

Lemma history_in_order_witness :
  LabelEdit.inputMode sampleSession = false
  /\ LabelEdit.results
       (updates sampleSession
                (map Flip [fetchAndFlipCmd "qr" shortBody;
                           fetchAndFlipCmd "qr" offline;
                           fetchAndFlipCmd "anu" (anuWorld 200 kilobyte true)]))
     = [{| ones := 3; zeros := 5; winner := resZeros |};
        {| ones := 4096; zeros := 4096; winner := resTie |}].
Proof.
  split; [reflexivity|].
  rewrite (proj2 (history_in_order _) SimpleInput.textInput sampleSession
                 eq_refl).
  vm_compute. reflexivity.
Defined.

(** ** Invariants of the session *)

Lemma updates_invariant {M : Type} {TM : TeaModel M} (Inv : M -> Prop) :
  (forall m msg, Inv m -> Inv (fst (teaUpdate m msg))) ->
  forall msgs m, Inv m -> Inv (updates m msgs).
Proof.
  intros Hstep. unfold updates.
  induction msgs as [|msg msgs IH]; intros m Hm; cbn [fold_left].
  - exact Hm.
  - apply IH, Hstep, Hm.
Qed.

Lemma MainGo_pending_kept (m : MainGo.model) (msg : Msg) :
  (MainGo.loading m = true -> MainGo.err m = None) ->
  MainGo.loading (fst (MainGo.Update m msg)) = true ->
  MainGo.err (fst (MainGo.Update m msg)) = None.
Proof.
  unfold MainGo.Update. intros Hinv.
  branches; cbn; auto; discriminate.
Qed.

Lemma LabelEdit_pending_kept {TI : TextInput} (m : LabelEdit.model)
      (msg : Msg) :
  (LabelEdit.loading m = true -> LabelEdit.err m = None) ->
  LabelEdit.loading (fst (LabelEdit.Update m msg)) = true ->
  LabelEdit.err (fst (LabelEdit.Update m msg)) = None.
Proof.
  intros Hinv. destruct (LabelEdit.inputMode m) eqn:Hi.
  - destruct (LabelEdit_inputMode_frame m msg Hi) as (_ & _ & -> & -> & _).
    exact Hinv.
  - unfold LabelEdit.Update. rewrite Hi.
    branches; cbn; auto; discriminate.
Qed.

(** X12.  From startup and under any messages, a session that is loading
    holds no error: the flip request clears the error when it sets the
    flag, and a failure clears the flag when it sets the error.  So the
    status bar of a loading session reads "Extracting entropy...". *)
Theorem pending_has_no_error (s : string) (msgs : list Msg) :
  (MainGo.loading (updates (MainGo.initialModel s) msgs) = true ->
   MainGo.err (updates (MainGo.initialModel s) msgs) = None
   /\ forall R : Renderer,
       statusOf (MainGo.source (updates (MainGo.initialModel s) msgs))
                (MainGo.results (updates (MainGo.initialModel s) msgs))
                (MainGo.loading (updates (MainGo.initialModel s) msgs))
                (MainGo.err (updates (MainGo.initialModel s) msgs))
       = "Extracting entropy...")
  /\ (forall TI : TextInput,
      LabelEdit.loading (updates (LabelEdit.initialModel s) msgs) = true ->
      LabelEdit.err (updates (LabelEdit.initialModel s) msgs) = None
      /\ forall R : Renderer,
          statusOf (LabelEdit.source (updates (LabelEdit.initialModel s) msgs))
                   (LabelEdit.results (updates (LabelEdit.initialModel s) msgs))
                   (LabelEdit.loading (updates (LabelEdit.initialModel s) msgs))
                   (LabelEdit.err (updates (LabelEdit.initialModel s) msgs))
          = "Extracting entropy...").
Proof.
  split.
  - intros Hl.
    assert (He : MainGo.err (updates (MainGo.initialModel s) msgs) = None).
    { revert Hl.
      apply (updates_invariant
               (fun m => MainGo.loading m = true -> MainGo.err m = None)).
      - intros m msg. apply MainGo_pending_kept.
      - discriminate. }
    split; [exact He|]. intros R. unfold statusOf. rewrite He, Hl.
    reflexivity.
  - intros TI Hl.
    assert (He : LabelEdit.err (updates (LabelEdit.initialModel s) msgs)
                 = None).
    { revert Hl.
      apply (updates_invariant
               (fun m => LabelEdit.loading m = true -> LabelEdit.err m = None)).
      - intros m msg. apply LabelEdit_pending_kept.
      - discriminate. }
    split; [exact He|]. intros R. unfold statusOf. rewrite He, Hl.
    reflexivity.
Qed.

Lemma pending_has_no_error_witness :
  MainGo.loading
    (updates (MainGo.initialModel "qr")
             [Key enterKey; Flip (fetchAndFlipCmd "qr" offline);
              Key enterKey]) = true
  /\ MainGo.err
       (updates (MainGo.initialModel "qr")
                [Key enterKey; Flip (fetchAndFlipCmd "qr" offline);
                 Key enterKey]) = None.
Proof.
  assert (H : MainGo.loading
                (updates (MainGo.initialModel "qr")
                         [Key enterKey; Flip (fetchAndFlipCmd "qr" offline);
                          Key enterKey]) = true) by reflexivity.
  split; [exact H|].
  apply (proj1 (pending_has_no_error "qr" _) H).
Defined.

(** ** The label form *)

Section LabelFormMore.

Context {TI : TextInput}.

Lemma LabelEdit_focus_kept (m : LabelEdit.model) (msg : Msg) :
  LabelEdit.focusedInput m = 0 \/ LabelEdit.focusedInput m = 1 ->
  LabelEdit.focusedInput (fst (LabelEdit.Update m msg)) = 0
  \/ LabelEdit.focusedInput (fst (LabelEdit.Update m msg)) = 1.
Proof.
  intros H. unfold LabelEdit.Update, LabelEdit.updateFocused.
  branches; cbn; auto.
Qed.

Lemma LabelEdit_switch (m : LabelEdit.model) (k : KeyMsg) :
  LabelEdit.inputMode m = true -> switchesFocus k = true ->
  LabelEdit.inputMode (fst (LabelEdit.Update m (Key k))) = true
  /\ LabelEdit.focusedInput (fst (LabelEdit.Update m (Key k)))
     = (if LabelEdit.focusedInput m =? 0 then 1 else 0)
  /\ LabelEdit.onesMsg (fst (LabelEdit.Update m (Key k)))
     = LabelEdit.onesMsg m
  /\ LabelEdit.zerosMsg (fst (LabelEdit.Update m (Key k)))
     = LabelEdit.zerosMsg m.
Proof.
  intros Hi Hk. unfold LabelEdit.Update. rewrite Hi.
  unfold switchesFocus in Hk.
  destruct (keyType k); try discriminate Hk;
    destruct (LabelEdit.focusedInput m =? 0); cbn;
    destruct (tiFocus _); cbn; auto.
Qed.

(** X13.  The focus of the form is always on one of its two buffers:
    from startup and under any messages [focusedInput] is 0 or 1.  Tab,
    Up and Down move it to the other buffer and keep the form open and the
    labels as they are, so two of them bring the focus back. *)
Theorem focus_between_two (s : string) (msgs : list Msg) :
  (LabelEdit.focusedInput (updates (LabelEdit.initialModel s) msgs) = 0
   \/ LabelEdit.focusedInput (updates (LabelEdit.initialModel s) msgs) = 1)
  /\ (forall (m : LabelEdit.model) k1 k2,
      LabelEdit.inputMode m = true ->
      LabelEdit.focusedInput m = 0 \/ LabelEdit.focusedInput m = 1 ->
      switchesFocus k1 = true -> switchesFocus k2 = true ->
      let m1 := fst (LabelEdit.Update m (Key k1)) in
      let m2 := fst (LabelEdit.Update m1 (Key k2)) in
      LabelEdit.focusedInput m1 = 1 - LabelEdit.focusedInput m
      /\ LabelEdit.focusedInput m2 = LabelEdit.focusedInput m
      /\ LabelEdit.inputMode m2 = true
      /\ LabelEdit.onesMsg m2 = LabelEdit.onesMsg m
      /\ LabelEdit.zerosMsg m2 = LabelEdit.zerosMsg m).
Proof.
  split.
  - apply (updates_invariant
             (fun m => LabelEdit.focusedInput m = 0
                       \/ LabelEdit.focusedInput m = 1)).
    + intros m msg. apply LabelEdit_focus_kept.
    + left. reflexivity.
  - intros m k1 k2 Hi Hf Hk1 Hk2. cbv zeta.
    destruct (LabelEdit_switch m k1 Hi Hk1) as (Hi1 & Hf1 & Ho1 & Hz1).
    destruct (LabelEdit_switch _ k2 Hi1 Hk2) as (Hi2 & Hf2 & Ho2 & Hz2).
    rewrite Hf2, Hf1, Hi2, Ho2, Ho1, Hz2, Hz1.
    destruct Hf as [-> | ->]; cbn; auto.
Qed.

(** X14.  Confirming the form: after the form was opened and any messages
    that do not close it were delivered, Enter stores the values of the
    two buffers as the labels, closes the form and returns no command;
    the history, the selector and the loading flag are those from before
    the form was opened. *)
Theorem label_edit_confirm (m : LabelEdit.model) (ki kenter : KeyMsg)
        (edits : list Msg)
        (Hnormal : LabelEdit.inputMode m = false)
        (Hi : keyString ki = "i")
        (Henter : keyType kenter = KeyEnter)
        (Hedits : Forall (fun msg => leavesForm msg = false) edits) :
  let edited := updates (fst (LabelEdit.Update m (Key ki))) edits in
  let closed := fst (LabelEdit.Update edited (Key kenter)) in
  LabelEdit.onesMsg closed = tiValue (LabelEdit.onesInput edited)
  /\ LabelEdit.zerosMsg closed = tiValue (LabelEdit.zerosInput edited)
  /\ LabelEdit.inputMode closed = false
  /\ LabelEdit.results closed = LabelEdit.results m
  /\ LabelEdit.source closed = LabelEdit.source m
  /\ LabelEdit.loading closed = LabelEdit.loading m
  /\ snd (LabelEdit.Update edited (Key kenter)) = CmdNil.
Proof.
  cbv zeta.
  destruct (LabelEdit_request m ki Hnormal Hi)
    as (A0 & _ & _ & A3 & A4 & A5 & _).
  destruct (LabelEdit_edits_frame edits _ A0 Hedits)
    as (B0 & _ & _ & B3 & B4 & B5 & _).
  set (edited := updates (fst (LabelEdit.Update m (Key ki))) edits) in *.
  unfold LabelEdit.Update. rewrite B0, Henter. cbn.
  repeat split; congruence.
Qed.

End LabelFormMore.

Lemma focus_between_two_witness :
  switchesFocus tabKey = true
  /\ LabelEdit.focusedInput
       (fst (LabelEdit.Update (mdl formDuringFlip) (Key tabKey))) = 1
  /\ LabelEdit.focusedInput
       (fst (LabelEdit.Update
               (fst (LabelEdit.Update (mdl formDuringFlip) (Key tabKey)))
               (Key tabKey))) = 0.
Proof.
  split; [reflexivity|].
  destruct (proj2 (@focus_between_two SimpleInput.textInput "anu" [])
                  (mdl formDuringFlip) tabKey tabKey)
    as (H1 & H2 & _); try reflexivity.
  - left. reflexivity.
  - split; [exact H1 | exact H2].
Defined.

Lemma label_edit_confirm_witness :
  Forall (fun msg => leavesForm msg = false) sampleEdits
  /\ LabelEdit.onesMsg
       (fst (LabelEdit.Update
               (updates
                  (fst (LabelEdit.Update sampleSession (Key (runeKey "i"))))
                  sampleEdits)
               (Key enterKey)))
     = "ONESx"
  /\ LabelEdit.zerosMsg
       (fst (LabelEdit.Update
               (updates
                  (fst (LabelEdit.Update sampleSession (Key (runeKey "i"))))
                  sampleEdits)
               (Key enterKey)))
     = "ZEROSy".
Proof.
  assert (H : Forall (fun msg => leavesForm msg = false) sampleEdits).
  { repeat constructor. }
  split; [exact H|].
  destruct (@label_edit_confirm SimpleInput.textInput
              sampleSession (runeKey "i") enterKey sampleEdits
              eq_refl eq_refl eq_refl H)
    as (H1 & H2 & _).
  split; [rewrite H1 | rewrite H2]; reflexivity.
Defined.

Section LostCompletion.

Context {TI : TextInput}.

Lemma LabelEdit_stalled_step (p : program LabelEdit.model) (ev : event) :
  stalled LabelEdit.loading p ->
  stalled LabelEdit.loading (stepEvent p ev)
  /\ incl (LabelEdit.results (mdl (stepEvent p ev)))
          (LabelEdit.results (mdl p)).
Proof.
  intros [He Hb]. unfold stepEvent.
  destruct (running p); [|split; [split; assumption | apply incl_refl]].
  destruct ev as [e|i w].
  - rewrite deliver_mdl. split; [|apply LabelEdit_history_env].
    split.
    + rewrite deliver_inflight, He. cbn [app].
      destruct (teaUpdate (mdl p) (msgOf e)) as [m' c] eqn:Hu. cbn [snd].
      destruct (spawned_cases c) as [->|(src & -> & _)]; [reflexivity|].
      destruct (LabelEdit_fetch_when_idle _ _ _ _ Hu) as [Hf _].
      congruence.
    + rewrite deliver_mdl. apply LabelEdit_busy_kept, Hb.
  - rewrite He. destruct i; cbn; (split; [split; assumption|apply incl_refl]).
Qed.

Lemma LabelEdit_stalled_run (evs : list event) :
  forall p : program LabelEdit.model,
    stalled LabelEdit.loading p ->
    stalled LabelEdit.loading (run p evs)
    /\ incl (LabelEdit.results (mdl (run p evs)))
            (LabelEdit.results (mdl p)).
Proof.
  unfold run. induction evs as [|ev evs IH]; intros p Hp; cbn [fold_left].
  - split; [exact Hp | apply incl_refl].
  - destruct (LabelEdit_stalled_step p ev Hp) as [Hs Hi].
    destruct (IH _ Hs) as [Hs' Hi'].
    split; [exact Hs'|]. eapply incl_tran; eassumption.
Qed.

(** X15.  A flip that completes while the label form is open is lost.
    The completion is handed to the focused buffer: the history, the error
    and the loading flag stay as they are.  After that nothing is in
    flight while the model still says loading, and this lasts under every
    later sequence of events: the flip key starts no fetch any more and
    the history gets no new result. *)
Theorem completion_lost_in_form (p : program LabelEdit.model)
        (src : string) (w : world)
        (Hrun : running p = true)
        (Hfly : inflight p = [src])
        (Hform : LabelEdit.inputMode (mdl p) = true)
        (Hload : LabelEdit.loading (mdl p) = true) :
  let p' := stepEvent p (Done 0 w) in
  LabelEdit.results (mdl p') = LabelEdit.results (mdl p)
  /\ LabelEdit.err (mdl p') = LabelEdit.err (mdl p)
  /\ forall evs,
      inflight (run p' evs) = []
      /\ LabelEdit.loading (mdl (run p' evs)) = true
      /\ incl (LabelEdit.results (mdl (run p' evs)))
              (LabelEdit.results (mdl p)).
Proof.
  cbv zeta.
  assert (Hm : mdl (stepEvent p (Done 0 w))
               = fst (LabelEdit.Update (mdl p)
                                       (Flip (fetchAndFlipCmd src w)))).
  { unfold stepEvent. rewrite Hrun, Hfly. cbn [nth_error].
    rewrite deliver_mdl. reflexivity. }
  assert (Hi : inflight (stepEvent p (Done 0 w)) = []).
  { unfold stepEvent. rewrite Hrun, Hfly. cbn [nth_error].
    rewrite deliver_inflight. cbn [inflight removeNth mdl app].
    destruct (LabelEdit_inputMode_frame (mdl p)
                (Flip (fetchAndFlipCmd src w)) Hform)
      as (_ & _ & _ & _ & [Hc|[t Hc]]);
      cbn [teaUpdate LabelEdit.teaModel]; rewrite Hc; reflexivity. }
  destruct (LabelEdit_inputMode_frame (mdl p)
              (Flip (fetchAndFlipCmd src w)) Hform)
    as (_ & Hr & Hl & He & _).
  rewrite Hm. split; [exact Hr|]. split; [exact He|].
  intros evs.
  destruct (LabelEdit_stalled_run evs (stepEvent p (Done 0 w))) as [[H1 H2] H3].
  { split; [exact Hi|]. rewrite Hm, Hl. exact Hload. }
  split; [exact H1|]. split; [exact H2|].
  rewrite Hm, Hr in H3. exact H3.
Qed.

End LostCompletion.

Lemma completion_lost_in_form_witness :
  inflight formDuringFlip = ["anu"]
  /\ LabelEdit.results
       (mdl (run (stepEvent formDuringFlip
                            (Done 0 (anuWorld 200 kilobyte true)))
                 [Env (EnvKey escKey); Env (EnvKey enterKey)]))
     = []
  /\ inflight
       (run (stepEvent formDuringFlip (Done 0 (anuWorld 200 kilobyte true)))
            [Env (EnvKey escKey); Env (EnvKey enterKey)])
     = [].
Proof.
  split; [reflexivity|].
  destruct (@completion_lost_in_form SimpleInput.textInput formDuringFlip
              "anu" (anuWorld 200 kilobyte true)
              eq_refl eq_refl eq_refl eq_refl)
    as (_ & _ & H).
  destruct (H [Env (EnvKey escKey); Env (EnvKey enterKey)]) as (H1 & _ & H3).
  split; [|exact H1].
  apply incl_l_nil. exact H3.
Defined.

(** ** Commands *)

Lemma isKey_iff (s : string) (k : KeyMsg) : isKey s k = true <-> keyString k = s.
Proof. unfold isKey. apply String.eqb_eq. Qed.

Lemma MainGo_commands (m : MainGo.model) (msg : Msg) :
  (snd (MainGo.Update m msg) = CmdQuit
   <-> exists k, msg = Key k /\ keyString k = "q")
  /\ (forall src,
      snd (MainGo.Update m msg) = CmdFetchAndFlip src
      <-> exists k, msg = Key k /\ keyString k = "enter"
                    /\ MainGo.loading m = false /\ src = MainGo.source m)
  /\ (snd (MainGo.Update m msg) = CmdQuit -> fst (MainGo.Update m msg) = m)
  /\ (forall t, snd (MainGo.Update m msg) <> CmdWidget t).
Proof.
  unfold MainGo.Update.
  destruct msg as [k|wd ht|f|t].
  2,3,4: repeat split; cbn; branches; cbn;
         try discriminate; try intros (k & H & _); try discriminate;
         intros; discriminate.
  destruct (isKey "q" k) eqn:Eq.
  { apply isKey_iff in Eq. cbn. repeat split; try discriminate; eauto.
    intros (k' & Hk & He & _). injection Hk as <-. congruence. }
  assert (Nq : keyString k <> "q").
  { intros H. apply isKey_iff in H. congruence. }
  destruct (isKey "enter" k) eqn:Ee.
  { apply isKey_iff in Ee.
    destruct (MainGo.loading m) eqn:Hl; cbn;
      repeat split; try discriminate.
    - intros (k' & Hk & Hq). injection Hk as <-. contradiction.
    - intros (k' & _ & _ & H & _). discriminate H.
    - intros (k' & Hk & Hq). injection Hk as <-. contradiction.
    - intros H. injection H as <-. eauto.
    - intros (k' & _ & _ & _ & ->). reflexivity. }
  assert (Ne : keyString k <> "enter").
  { intros H. apply isKey_iff in H. congruence. }
  branches; cbn; repeat split; try discriminate;
    try (intros (k' & Hk & Hq); injection Hk as <-; contradiction);
    try (intros (k' & Hk & Hq & _); injection Hk as <-; contradiction).
Qed.

Lemma LabelEdit_commands {TI : TextInput} (m : LabelEdit.model) (msg : Msg) :
  (snd (LabelEdit.Update m msg) = CmdQuit
   <-> exists k, msg = Key k /\ keyString k = "q"
                 /\ LabelEdit.inputMode m = false)
  /\ (forall src,
      snd (LabelEdit.Update m msg) = CmdFetchAndFlip src
      <-> exists k, msg = Key k /\ keyString k = "enter"
                    /\ LabelEdit.inputMode m = false
                    /\ LabelEdit.loading m = false
                    /\ src = LabelEdit.source m)
  /\ (snd (LabelEdit.Update m msg) = CmdQuit ->
      fst (LabelEdit.Update m msg) = m).
Proof.
  destruct (LabelEdit.inputMode m) eqn:Hi.
  { destruct (LabelEdit_inputMode_frame m msg Hi)
      as (_ & _ & _ & _ & [Hc|[t Hc]]); rewrite Hc;
      repeat split; try discriminate;
      try (intros (k & _ & _ & H); discriminate H);
      intros (k & _ & _ & H & _); discriminate H. }
  unfold LabelEdit.Update. rewrite Hi.
  destruct msg as [k|wd ht|f|t].
  2,3,4: repeat split; cbn; branches; cbn;
         try discriminate; try intros (k & H & _); try discriminate;
         intros; discriminate.
  destruct (isKey "q" k) eqn:Eq.
  { apply isKey_iff in Eq. cbn. repeat split; try discriminate; eauto.
    intros (k' & Hk & He & _). injection Hk as <-. congruence. }
  assert (Nq : keyString k <> "q").
  { intros H. apply isKey_iff in H. congruence. }
  destruct (isKey "enter" k) eqn:Ee.
  { apply isKey_iff in Ee.
    destruct (LabelEdit.loading m) eqn:Hl; cbn;
      repeat split; try discriminate.
    - intros (k' & Hk & Hq & _). injection Hk as <-. contradiction.
    - intros (k' & _ & _ & _ & H & _). discriminate H.
    - intros (k' & Hk & Hq & _). injection Hk as <-. contradiction.
    - intros H. injection H as <-. eauto 10.
    - intros (k' & _ & _ & _ & _ & ->). reflexivity. }
  assert (Ne : keyString k <> "enter").
  { intros H. apply isKey_iff in H. congruence. }
  branches; cbn; repeat split; try discriminate;
    try (intros (k' & Hk & Hq & _); injection Hk as <-; contradiction).
Qed.

(** X16.  The commands of [Update].  It returns [tea.Quit] exactly on the
    key [q] outside the label form, and then the model is unchanged.  It
    starts a fetch exactly on the key [enter] outside the form while not
    loading, and the fetch is for the selector current at that moment.
    In the form no key quits or flips. *)
Theorem commands_issued (msg : Msg) :
  (forall m : MainGo.model,
      (snd (MainGo.Update m msg) = CmdQuit
       <-> exists k, msg = Key k /\ keyString k = "q")
      /\ (forall src,
          snd (MainGo.Update m msg) = CmdFetchAndFlip src
          <-> exists k, msg = Key k /\ keyString k = "enter"
                        /\ MainGo.loading m = false
                        /\ src = MainGo.source m)
      /\ (snd (MainGo.Update m msg) = CmdQuit ->
          fst (MainGo.Update m msg) = m))
  /\ (forall (TI : TextInput) (m : LabelEdit.model),
      (snd (LabelEdit.Update m msg) = CmdQuit
       <-> exists k, msg = Key k /\ keyString k = "q"
                     /\ LabelEdit.inputMode m = false)
      /\ (forall src,
          snd (LabelEdit.Update m msg) = CmdFetchAndFlip src
          <-> exists k, msg = Key k /\ keyString k = "enter"
                        /\ LabelEdit.inputMode m = false
                        /\ LabelEdit.loading m = false
                        /\ src = LabelEdit.source m)
      /\ (snd (LabelEdit.Update m msg) = CmdQuit ->
          fst (LabelEdit.Update m msg) = m)).
Proof.
  split.
  - intros m. destruct (MainGo_commands m msg) as (H1 & H2 & H3 & _).
    auto.
  - intros TI m. apply LabelEdit_commands.
Qed.

Lemma commands_issued_witness :
  snd (MainGo.Update busySession (Key (runeKey "q"))) = CmdQuit
  /\ fst (MainGo.Update busySession (Key (runeKey "q"))) = busySession
  /\ snd (LabelEdit.Update (mdl formDuringFlip) (Key (runeKey "q")))
     <> CmdQuit.
Proof.
  destruct (proj1 (commands_issued (Key (runeKey "q"))) busySession)
    as (H1 & _ & H3).
  assert (Hq : snd (MainGo.Update busySession (Key (runeKey "q"))) = CmdQuit).
  { apply H1. exists (runeKey "q"). split; reflexivity. }
  split; [exact Hq|]. split; [exact (H3 Hq)|].
  intros H.
  apply (proj1 (proj2 (commands_issued (Key (runeKey "q")))
                      SimpleInput.textInput (mdl formDuringFlip))) in H.
  destruct H as (k & _ & _ & Hi). discriminate Hi.
Defined.

(** ** The carousel *)

Lemma quot14_pos (a : Z) :
  14 <= a -> Z.quot a 14 = a / 14 /\ 1 <= a / 14.
Proof.
  intros H. split.
  - apply Z.quot_div_nonneg; lia.
  - apply Z.div_le_lower_bound; lia.
Qed.

Lemma quot14_small (a : Z) : a < 14 -> Z.quot a 14 < 1.
Proof.
  intros H. destruct (Z.le_gt_cases 0 a) as [Hp|Hn].
  - rewrite Z.quot_small; lia.
  - pose proof (Z.quot_opp_l a 14 ltac:(lia)) as Ho.
    assert (0 <= Z.quot (- a) 14) by (apply Z.quot_pos; lia).
    lia.
Qed.

Lemma maxCards_fit (width : Z) : 1 <= maxCardsFor width.
Proof.
  unfold maxCardsFor.
  destruct (Z.ltb_spec (Z.quot (wrap_int (width - 8)) 14) 1); lia.
Qed.

(** X17.  The number of cards: one at least, whatever the width.  From
    width 22 on it is [(width - 8) / 14], the largest number of 14-column
    cards that fit once 8 columns are set aside; below 22 one card is
    shown although it does not fit. *)
Theorem maxCards_bounds (width : Z) :
  1 <= maxCardsFor width
  /\ (22 <= width <= max_int ->
      maxCardsFor width = (width - 8) / 14
      /\ 14 * maxCardsFor width <= width - 8 < 14 * (maxCardsFor width + 1))
  /\ (min_int + 8 <= width < 22 -> maxCardsFor width = 1).
Proof.
  split; [apply maxCards_fit|]. unfold maxCardsFor. split.
  - intros H. rewrite wrap_int_id by (unfold min_int, max_int in *; lia).
    destruct (quot14_pos (width - 8)) as [Hq Hp]; [lia|].
    rewrite Hq. destruct (Z.ltb_spec ((width - 8) / 14) 1); [lia|].
    split; [reflexivity|].
    pose proof (Z.div_mod (width - 8) 14 ltac:(lia)).
    pose proof (Z.mod_pos_bound (width - 8) 14 ltac:(lia)). lia.
  - intros H. rewrite wrap_int_id by (unfold min_int, max_int in *; lia).
    pose proof (quot14_small (width - 8) ltac:(lia)).
    destruct (Z.ltb_spec (Z.quot (width - 8) 14) 1); lia.
Qed.

Lemma maxCards_bounds_witness :
  22 <= 80 <= max_int /\ maxCardsFor 80 = 5 /\ maxCardsFor 10 = 1.
Proof.
  assert (H : 22 <= 80 <= max_int) by (vm_compute; split; discriminate).
  split; [exact H|]. split.
  - rewrite (proj1 (proj1 (proj2 (maxCards_bounds 80)) H)). reflexivity.
  - apply (proj2 (proj2 (maxCards_bounds 10))). vm_compute.
    split; [discriminate | reflexivity].
Defined.

Lemma cardsFrom_window (l1 l2 : string) (total : Z) (newest : flipResult)
      (older : list flipResult) :
  forall i shown,
    total > 0 ->
    shown = i + len (older ++ [newest]) ->
    cardsFrom l1 l2 total shown i (older ++ [newest])
    = (map (cardWith l1 l2 false) older ++ [cardWith l1 l2 true newest])%list.
Proof.
  induction older as [|x older IH]; intros i shown Ht Hs.
  - cbn in *. unfold cardAt.
    replace (i =? shown - 1) with true by (symmetry; apply Z.eqb_eq; lia).
    replace (total >? 0) with true
      by (symmetry; rewrite Z.gtb_ltb; apply Z.ltb_lt; lia).
    reflexivity.
  - cbn [app cardsFrom map]. rewrite (IH (i + 1) shown Ht).
    + unfold cardAt.
      replace (i =? shown - 1) with false; [reflexivity|].
      symmetry. apply Z.eqb_neq. rewrite Hs, !len_app.
      unfold len. cbn [List.length app]. lia.
    + rewrite Hs. unfold len. cbn [List.length app]. lia.
Qed.

Lemma visibleOf_window (results : list flipResult) (k : Z) :
  1 <= k -> results <> [] ->
  exists hidden older newest,
    results = (hidden ++ older ++ [newest])%list
    /\ visibleOf results k = (older ++ [newest])%list
    /\ len older + 1 = Z.min (len results) k.
Proof.
  intros Hk Hne.
  destruct (exists_last Hne) as (init & newest & ->).
  unfold visibleOf. rewrite len_app. change (len [newest]) with 1.
  rewrite Z.gtb_ltb.
  destruct (Z.ltb_spec k (len init + 1)) as [Hlt|Hge].
  - set (n := Z.to_nat (len init + 1 - k)).
    assert (Hn : (n <= List.length init)%nat) by (unfold n, len in *; lia).
    exists (firstn n init), (skipn n init), newest.
    split; [|split].
    + rewrite app_assoc, firstn_skipn. reflexivity.
    + rewrite skipn_app.
      replace (n - List.length init)%nat with 0%nat by lia.
      reflexivity.
    + unfold len in *. rewrite length_skipn. unfold n. lia.
  - exists [], init, newest. split; [reflexivity|]. split; [reflexivity|].
    lia.
Qed.


Lemma carousel_core (l1 l2 : string) (results : list flipResult)
      (width : Z) :
  results <> [] ->
  exists hidden older newest,
    results = (hidden ++ older ++ [newest])%list
    /\ len older + 1 = Z.min (len results) (maxCardsFor width)
    /\ cardsOf l1 l2 results width
       = (map (cardWith l1 l2 false) older
          ++ [cardWith l1 l2 true newest])%list.
Proof.
  intros Hne.
  destruct (visibleOf_window results (maxCardsFor width))
    as (hidden & older & newest & Hr & Hv & Hl);
    [apply maxCards_fit | exact Hne |].
  exists hidden, older, newest. split; [exact Hr|]. split; [exact Hl|].
  unfold cardsOf. rewrite Hv. apply cardsFrom_window.
  - rewrite Hr, !len_app. change (len [newest]) with 1.
    pose proof (len_nonneg hidden). pose proof (len_nonneg older). lia.
  - lia.
Qed.

(** X18.  The carousel of a history that is not empty shows its most
    recent [min (len results) maxCards] results, oldest first, in the
    order of the history.  The last card is the most recent result and is
    the only one drawn in a current style.  Each card reads the label of
    its winner (the customised one for ONES and ZEROS, the fixed ["TIE"]),
    then the two counts. *)
Theorem carousel_window (l1 l2 : string) (results : list flipResult)
        (width : Z) (Hne : results <> []) :
  (exists hidden older newest,
      results = (hidden ++ older ++ [newest])%list
      /\ len older + 1 = Z.min (len results) (maxCardsFor width)
      /\ cardsOf l1 l2 results width
         = (map (cardWith l1 l2 false) older
            ++ [cardWith l1 l2 true newest])%list)
  /\ (forall b res,
      isCurrent (fst (cardWith l1 l2 b res)) = b
      /\ snd (cardWith l1 l2 b res)
         = labelOf l1 l2 res ++ LF ++ LF ++ "1: " ++ fmt_d (ones res)
                   ++ LF ++ "0: " ++ fmt_d (zeros res)).
Proof.
  split.
  - apply carousel_core, Hne.
  - intros b res. unfold cardWith, labelOf.
    destruct (winner res), b; split; reflexivity.
Qed.

Lemma carousel_window_witness :
  [{| ones := 1; zeros := 7; winner := resZeros |};
   {| ones := 5; zeros := 3; winner := resOnes |}] <> []
  /\ cardsOf "HEADS" "TAILS"
             [{| ones := 1; zeros := 7; winner := resZeros |};
              {| ones := 5; zeros := 3; winner := resOnes |}] 80
     = [cardWith "HEADS" "TAILS" false
                 {| ones := 1; zeros := 7; winner := resZeros |};
        cardWith "HEADS" "TAILS" true
                 {| ones := 5; zeros := 3; winner := resOnes |}]
  /\ isCurrent
       (fst (cardWith "HEADS" "TAILS" true
                      {| ones := 5; zeros := 3; winner := resOnes |}))
     = true.
Proof.
  assert (H : [{| ones := 1; zeros := 7; winner := resZeros |};
               {| ones := 5; zeros := 3; winner := resOnes |}] <> [])
    by discriminate.
  split; [exact H|]. split; [reflexivity|].
  apply (proj2 (carousel_window "HEADS" "TAILS" _ 80 H)).
Defined.

(** ** The window size *)

Lemma MainGo_width_zero (m : MainGo.model) (msg : Msg) :
  (forall w h, msg = WindowSizeMsg w h -> w = 0) ->
  MainGo.width m = 0 -> MainGo.width (fst (MainGo.Update m msg)) = 0.
Proof.
  intros Hmsg Hw. unfold MainGo.Update.
  destruct msg as [k|w h|f|t]; cbn.
  - branches; cbn; exact Hw.
  - apply (Hmsg w h eq_refl).
  - destruct (err_ f); exact Hw.
  - exact Hw.
Qed.

Section FormAndSize.

Context {TI : TextInput}.

Lemma LabelEdit_inputMode_size (m : LabelEdit.model) (msg : Msg) :
  LabelEdit.inputMode m = true ->
  LabelEdit.width (fst (LabelEdit.Update m msg)) = LabelEdit.width m
  /\ LabelEdit.height (fst (LabelEdit.Update m msg)) = LabelEdit.height m.
Proof.
  intros Hi. unfold LabelEdit.Update, LabelEdit.updateFocused. rewrite Hi.
  branches; cbn; split; reflexivity.
Qed.

Lemma LabelEdit_width_zero (m : LabelEdit.model) (msg : Msg) :
  (forall w h, msg = WindowSizeMsg w h -> w = 0) ->
  LabelEdit.width m = 0 -> LabelEdit.width (fst (LabelEdit.Update m msg)) = 0.
Proof.
  intros Hmsg Hw. destruct (LabelEdit.inputMode m) eqn:Hi.
  - rewrite (proj1 (LabelEdit_inputMode_size m msg Hi)). exact Hw.
  - unfold LabelEdit.Update. rewrite Hi.
    destruct msg as [k|w h|f|t]; cbn.
    + branches; cbn; exact Hw.
    + apply (Hmsg w h eq_refl).
    + destruct (err_ f); exact Hw.
    + exact Hw.
Qed.

Lemma LabelEdit_edits_size (edits : list Msg) :
  forall m : LabelEdit.model,
    LabelEdit.inputMode m = true ->
    Forall (fun msg => leavesForm msg = false) edits ->
    LabelEdit.inputMode (updates m edits) = true
    /\ LabelEdit.width (updates m edits) = LabelEdit.width m
    /\ LabelEdit.height (updates m edits) = LabelEdit.height m.
Proof.
  unfold updates.
  induction edits as [|msg edits IH]; intros m Hi Hed; cbn [fold_left].
  - auto.
  - inversion Hed as [|? ? Hmsg Hrest]; subst.
    destruct (LabelEdit_inputMode_edit m msg Hi Hmsg) as (Hi' & _).
    destruct (LabelEdit_inputMode_size m msg Hi) as (Hw & Hh).
    change (fst (teaUpdate m msg)) with (fst (LabelEdit.Update m msg)).
    destruct (IH _ Hi' Hrest) as (H1 & H2 & H3).
    repeat split; congruence.
Qed.

(** X19.  A resize of the terminal that arrives while the label form is
    open is not recorded.  From opening the form to closing it with Enter
    or Esc, whatever arrives in between, the width and the height of the
    model stay those from before, so the screen drawn after the form is
    laid out for the old size. *)
Theorem resize_dropped_in_form (m : LabelEdit.model) (ki kclose : KeyMsg)
        (edits : list Msg)
        (Hnormal : LabelEdit.inputMode m = false)
        (Hi : keyString ki = "i")
        (Hclose : leavesForm (Key kclose) = true)
        (Hedits : Forall (fun msg => leavesForm msg = false) edits) :
  let edited := updates (fst (LabelEdit.Update m (Key ki))) edits in
  let closed := fst (LabelEdit.Update edited (Key kclose)) in
  LabelEdit.inputMode closed = false
  /\ LabelEdit.width closed = LabelEdit.width m
  /\ LabelEdit.height closed = LabelEdit.height m.
Proof.
  cbv zeta.
  assert (A : LabelEdit.inputMode (fst (LabelEdit.Update m (Key ki))) = true
              /\ LabelEdit.width (fst (LabelEdit.Update m (Key ki)))
                 = LabelEdit.width m
              /\ LabelEdit.height (fst (LabelEdit.Update m (Key ki)))
                 = LabelEdit.height m).
  { unfold LabelEdit.Update, isKey. rewrite Hnormal, Hi. cbn.
    destruct (tiFocus _). cbn. auto. }
  destruct A as (A0 & A1 & A2).
  destruct (LabelEdit_edits_size edits _ A0 Hedits) as (B0 & B1 & B2).
  destruct (LabelEdit_inputMode_size _ (Key kclose) B0) as (C1 & C2).
  set (edited := updates (fst (LabelEdit.Update m (Key ki))) edits) in *.
  assert (C0 : LabelEdit.inputMode
                 (fst (LabelEdit.Update edited (Key kclose))) = false).
  { unfold LabelEdit.Update. rewrite B0. unfold leavesForm in Hclose.
    destruct (keyType kclose); try discriminate Hclose; reflexivity. }
  repeat split; congruence.
Qed.

End FormAndSize.

(** X20.  Until the terminal has reported a width other than zero, the
    program draws the single line "loading...", whatever else happened:
    keys, flips and their results change nothing on the screen. *)
Theorem view_before_size (s : string) (msgs : list Msg)
        (Hmsgs : Forall (fun msg => forall w h, msg = WindowSizeMsg w h -> w = 0)
                        msgs) :
  (forall R : Renderer,
      MainGo_View (updates (MainGo.initialModel s) msgs) = "loading...")
  /\ (forall (R : Renderer) (TI : TextInput) (tiView : tiModel -> string),
      LabelEdit_View tiView (updates (LabelEdit.initialModel s) msgs)
      = "loading...").
Proof.
  split.
  - intros R. unfold MainGo_View.
    assert (H : MainGo.width (updates (MainGo.initialModel s) msgs) = 0).
    { revert Hmsgs. generalize (MainGo.initialModel s) (eq_refl 0 :
        MainGo.width (MainGo.initialModel s) = 0).
      unfold updates. induction msgs as [|msg msgs IH]; intros m Hw Hall;
        cbn [fold_left]; [exact Hw|].
      inversion Hall; subst. apply IH; [|assumption].
      apply MainGo_width_zero; assumption. }
    rewrite H. reflexivity.
  - intros R TI tiView. unfold LabelEdit_View.
    assert (H : LabelEdit.width (updates (LabelEdit.initialModel s) msgs) = 0).
    { revert Hmsgs. generalize (LabelEdit.initialModel s) (eq_refl 0 :
        LabelEdit.width (LabelEdit.initialModel s) = 0).
      unfold updates. induction msgs as [|msg msgs IH]; intros m Hw Hall;
        cbn [fold_left]; [exact Hw|].
      inversion Hall; subst. apply IH; [|assumption].
      apply LabelEdit_width_zero; assumption. }
    rewrite H. reflexivity.
Qed.

Lemma view_before_size_witness :
  Forall (fun msg => forall w h, msg = WindowSizeMsg w h -> w = 0)
         [Key enterKey; Flip (fetchAndFlipCmd "qr" shortBody);
          WindowSizeMsg 0 24]
  /\ @MainGo_View PlainRenderer.renderer
       (updates (MainGo.initialModel "qr")
                [Key enterKey; Flip (fetchAndFlipCmd "qr" shortBody);
                 WindowSizeMsg 0 24])
     = "loading...".
Proof.
  assert (H : Forall (fun msg => forall w h, msg = WindowSizeMsg w h -> w = 0)
                     [Key enterKey; Flip (fetchAndFlipCmd "qr" shortBody);
                      WindowSizeMsg 0 24]).
  { repeat constructor; intros w h E; try discriminate E.
    injection E as <- _. reflexivity. }
  split; [exact H|].
  apply (proj1 (view_before_size "qr" _ H)).
Defined.

Lemma resize_dropped_in_form_witness :
  Forall (fun msg => leavesForm msg = false) resizedEdits
  /\ LabelEdit.width
       (fst (LabelEdit.Update
               (updates
                  (fst (LabelEdit.Update
                          (fst (LabelEdit.Update sampleSession
                                                 (WindowSizeMsg 80 24)))
                          (Key (runeKey "i"))))
                  resizedEdits)
               (Key escKey)))
     = 80.
Proof.
  assert (H : Forall (fun msg => leavesForm msg = false) resizedEdits).
  { repeat constructor. }
  split; [exact H|].
  destruct (@resize_dropped_in_form SimpleInput.textInput
              (fst (LabelEdit.Update sampleSession (WindowSizeMsg 80 24)))
              (runeKey "i") escKey resizedEdits
              eq_refl eq_refl eq_refl H)
    as (_ & Hw & _).
  rewrite Hw. reflexivity.
Defined.

(** ** From the network to the screen *)


